(** * Port reaper and static server launchers: a shallow embedding

    The repository holds three single-shot command line scripts:

    - [kill_port.py]            find the process listening on a TCP port and,
                                after a confirmation, kill it;
    - [start_server.py]         launch [npx http-server] on a free port;
    - [start_server_python.py]  launch Python's built-in HTTP server on a
                                free port.

    Every script is a straight sequence of operating system calls (sockets,
    subprocesses, the terminal).  The embedding keeps that shape: the calls are
    answered by a [World] of oracles, the scripts run in a state and exception
    monad whose state carries the process environment, the module global
    [PORT] and the log of everything the process did. *)

From Stdlib Require Import ZArith String Ascii List DecimalString DecimalPos Lia.
From stdpp Require Import gmap strings list.
Import ListNotations.

Open Scope string_scope.
Open Scope Z_scope.

(** ** Python values *)

(** The exception classes the scripts can meet.  All of them derive from
    [Exception] except [KeyboardInterrupt], which derives from
    [BaseException] only and therefore passes through [except Exception]. *)
Inductive exn_class :=
| ValueError
| OverflowError
| EOFError
| OSError
| FileNotFoundError
| PermissionError
| SocketTimeout
| SocketGaierror
| TimeoutExpired
| CalledProcessError
| KeyboardInterrupt.

(** An exception value: its class and the text [str(e)] gives. *)
Record exn := Exn { exn_cls : exn_class; exn_str : string }.

(** [isinstance(e, Exception)] *)
Definition is_Exception (e : exn) : bool :=
  match exn_cls e with
  | KeyboardInterrupt => false
  | _ => true
  end.

Definition is_FileNotFoundError (e : exn) : bool :=
  match exn_cls e with FileNotFoundError => true | _ => false end.

Definition is_TimeoutExpired (e : exn) : bool :=
  match exn_cls e with TimeoutExpired => true | _ => false end.

Definition is_CalledProcessError (e : exn) : bool :=
  match exn_cls e with CalledProcessError => true | _ => false end.

Definition is_KeyboardInterrupt (e : exn) : bool :=
  match exn_cls e with KeyboardInterrupt => true | _ => false end.

(** [isinstance(e, OSError)]: the errors of the socket layer and of process
    creation. *)
Definition is_OSError (e : exn) : bool :=
  match exn_cls e with
  | OSError | FileNotFoundError | PermissionError
  | SocketTimeout | SocketGaierror => true
  | _ => false
  end.

(** What a call into the operating system gives back. *)
Inductive answer (A : Type) :=
| Returns (a : A)
| Throws (e : exn).
Arguments Returns {A} a.
Arguments Throws {A} e.

(** [subprocess.CompletedProcess], as far as the scripts look at it. *)
Record CompletedProcess := { returncode : Z; stdout : string }.

(** [str(n)] for an integer. *)
Definition str (n : Z) : string := NilZero.string_of_int (Z.to_int n).

(** ** Python's string methods

    A text is modelled by the bytes of its UTF-8 encoding, and the methods
    below are Python's on ASCII text: a byte above 127 is an ordinary
    character that is neither a space, a digit nor a letter with a case.
    Python knows more of each outside ASCII (a no-break space, a
    superscript two, an Arabic digit), and from version 3.11 on [int] and
    [str] refuse numbers of more than 4300 digits.  A text on which the
    model is Python's is called [plain]; the statements whose content is a
    number or a word read out of a text ask for it. *)

Definition is_ascii_char (c : ascii) : bool := (nat_of_ascii c <? 128)%nat.

Fixpoint is_ascii (s : string) : bool :=
  match s with
  | EmptyString => true
  | String c s' => is_ascii_char c && is_ascii s'
  end.

(** ASCII text of at most 4300 characters. *)
Definition plain (s : string) : bool :=
  is_ascii s && (String.length s <=? 4300)%nat.

Definition newline : string := String "010"%char EmptyString.
Definition dquote : ascii := "034"%char.

(** [c.isspace()] *)
Definition is_space (c : ascii) : bool :=
  let n := nat_of_ascii c in
  ((9 <=? n)%nat && (n <=? 13)%nat) || ((28 <=? n)%nat && (n <=? 32)%nat).

Definition is_digit (c : ascii) : bool :=
  let n := nat_of_ascii c in (48 <=? n)%nat && (n <=? 57)%nat.

Definition is_empty (s : string) : bool :=
  match s with EmptyString => true | String _ _ => false end.

(** [len(l) > 0], [bool(s)] *)
Definition truthy (s : string) : bool := negb (is_empty s).

Fixpoint lstrip_by (p : ascii -> bool) (s : string) : string :=
  match s with
  | EmptyString => EmptyString
  | String c s' => if p c then lstrip_by p s' else s
  end.

Fixpoint rstrip_by (p : ascii -> bool) (s : string) : string :=
  match s with
  | EmptyString => EmptyString
  | String c s' =>
      let r := rstrip_by p s' in
      if p c && is_empty r then EmptyString else String c r
  end.

(** [s.strip()] *)
Definition strip (s : string) : string := rstrip_by is_space (lstrip_by is_space s).

(** [s.strip(c)] for a one-character argument *)
Definition strip_char (c : ascii) (s : string) : string :=
  rstrip_by (Ascii.eqb c) (lstrip_by (Ascii.eqb c) s).

(** [sub in s] *)
Fixpoint contains (sub s : string) : bool :=
  String.prefix sub s ||
  match s with
  | EmptyString => false
  | String _ s' => contains sub s'
  end.

(** [s.split(sep)] for a non-empty [sep]: [skip] counts the characters of a
    separator just matched that are still to be passed over, [cur] is the
    piece being read. *)
Fixpoint split_go (sep : string) (s : string) (skip : nat) (cur : string)
  : list string :=
  match s with
  | EmptyString => [cur]
  | String c s' =>
      match skip with
      | S k => split_go sep s' k cur
      | O =>
          if String.prefix sep s
          then cur :: split_go sep s' (String.length sep - 1) EmptyString
          else split_go sep s' O (cur ++ String c EmptyString)
      end
  end.

Definition str_split (sep s : string) : list string := split_go sep s O EmptyString.

(** [s.split()] *)
Fixpoint split_ws_go (s : string) (cur : string) : list string :=
  match s with
  | EmptyString => if is_empty cur then [] else [cur]
  | String c s' =>
      if is_space c
      then (if is_empty cur then split_ws_go s' EmptyString
            else cur :: split_ws_go s' EmptyString)
      else split_ws_go s' (cur ++ String c EmptyString)
  end.

Definition split_ws (s : string) : list string := split_ws_go s EmptyString.

(** The first word of [s] and what follows it. *)
Fixpoint break_word (s : string) : string * string :=
  match s with
  | EmptyString => (EmptyString, EmptyString)
  | String c s' =>
      if is_space c then (EmptyString, s)
      else let (word, rest) := break_word s' in (String c word, rest)
  end.

(** [s.split(None, 1)] *)
Definition split_ws_1 (s : string) : list string :=
  let s1 := lstrip_by is_space s in
  if is_empty s1 then []
  else
    let (word, rest) := break_word s1 in
    let rest' := lstrip_by is_space rest in
    if is_empty rest' then [word] else [word; rest'].

Fixpoint all_digits (s : string) : bool :=
  match s with
  | EmptyString => true
  | String c s' => is_digit c && all_digits s'
  end.

(** [s.isdigit()] *)
Definition isdigit (s : string) : bool := truthy s && all_digits s.

Definition lower_char (c : ascii) : ascii :=
  let n := nat_of_ascii c in
  if (65 <=? n)%nat && (n <=? 90)%nat then ascii_of_nat (n + 32) else c.

(** [s.lower()] *)
Fixpoint lower (s : string) : string :=
  match s with
  | EmptyString => EmptyString
  | String c s' => String (lower_char c) (lower s')
  end.

(** The digits of an integer literal; one underscore may stand between two
    digits. *)
Fixpoint int_digits (s : string) (acc : Z) (after_digit : bool) : option Z :=
  match s with
  | EmptyString => if after_digit then Some acc else None
  | String c s' =>
      if is_digit c
      then int_digits s' (10 * acc + (Z.of_nat (nat_of_ascii c) - 48)) true
      else if Ascii.eqb c "_" && after_digit then int_digits s' acc false
      else None
  end.

(** The white space [int] skips around a literal is C's [isspace]: unlike
    [strip], it leaves the separators 28 to 31 in place. *)
Definition is_c_space (c : ascii) : bool :=
  let n := nat_of_ascii c in
  ((9 <=? n)%nat && (n <=? 13)%nat) || (n =? 32)%nat.

Definition int_literal (s : string) : option Z :=
  match rstrip_by is_c_space (lstrip_by is_c_space s) with
  | String "+" r => int_digits r 0 false
  | String "-" r => option_map Z.opp (int_digits r 0 false)
  | t => int_digits t 0 false
  end.

Definition hex_digit (n : nat) : ascii :=
  List.nth n (list_ascii_of_string "0123456789abcdef") "0"%char.

(** One character of [repr(s)] between the quotes [quote]. *)
Definition repr_char (quote c : ascii) : string :=
  let n := nat_of_ascii c in
  if Ascii.eqb c "\" || Ascii.eqb c quote then String "\" (String c EmptyString)
  else if (n =? 9)%nat then "\t"
  else if (n =? 10)%nat then "\n"
  else if (n =? 13)%nat then "\r"
  else if (n <? 32)%nat || (n =? 127)%nat then
    "\x" ++ String (hex_digit (n / 16)) (String (hex_digit (n mod 16)) EmptyString)
  else String c EmptyString.

(** [repr(s)]: double quotes when [s] holds a single quote and no double
    quote, single quotes otherwise. *)
Definition repr (s : string) : string :=
  let quote :=
    if contains "'" s && negb (contains (String dquote EmptyString) s)
    then dquote else "'"%char in
  String quote
    (String.concat EmptyString (List.map (repr_char quote) (list_ascii_of_string s))
     ++ String quote EmptyString).

(** [str(l)] for a list of strings *)
Definition list_repr (l : list string) : string :=
  "[" ++ String.concat ", " (List.map repr l) ++ "]".

(** [int(s)] for a string; the error shows the first 200 characters of
    [repr(s)]. *)
Definition int (s : string) : answer Z :=
  match int_literal s with
  | Some n => Returns n
  | None =>
      Throws (Exn ValueError
                ("invalid literal for int() with base 10: "
                 ++ String.substring 0 200 (repr s)))
  end.

(** ["=" * 40] *)
Fixpoint repeat_string (s : string) (n : nat) : string :=
  match n with
  | O => EmptyString
  | S k => s ++ repeat_string s k
  end.

(** [if x:] for [x] an integer or [None]: the test holds for an integer
    other than 0, and [if_truthy x] is then that integer. *)
Definition if_truthy (x : option Z) : option Z :=
  match x with
  | Some n => if n =? 0 then None else Some n
  | None => None
  end.

(** ** The world outside the process

    Each field answers one kind of request.  An oracle answers a given
    request the same way throughout one run. *)
Record World := {
  (** [platform.system()] *)
  platform_system : string;
  (** [sys.argv] *)
  sys_argv : list string;
  (** [os.path.dirname(os.path.abspath(__file__))] *)
  PROJECT_PATH : string;
  (** [socket.socket(AF_INET, SOCK_STREAM)], [settimeout(1)],
      [connect_ex((host, port))], [close()]: the value of [connect_ex], or
      the exception one of the four calls raised. *)
  socket_connect_ex : string -> Z -> answer Z;
  (** [subprocess.run(cmd, ...)] without [check]. *)
  subprocess_exec : list string -> answer CompletedProcess;
  (** [input(prompt)] *)
  stdin_input : string -> answer string;
  (** [HTTPServer((host, port), handler)] *)
  http_server_bind : string -> Z -> answer unit;
  (** [httpd.serve_forever()] *)
  http_serve_forever : string -> Z -> answer unit;
  (** [repr(signal.Signals(n))], none when [n] is no signal of the
      platform. *)
  signal_repr : Z -> option string
}.

(** ** What the process does *)

(** The body of a background thread. *)
Inductive thread_action :=
| Sleep (seconds : Z)
| WebbrowserOpen (url : string).

Inductive event :=
| Stdout (line : string)
| Chdir (path : string)
| Connect (host : string) (port : Z)
| Subprocess (cmd : list string) (env : gmap string string)
| Prompt (text : string)
| ThreadStart (body : list thread_action)
| Listen (host : string) (port : Z)
| ServeForever (host : string) (port : Z)
| Shutdown.

Record State := {
  (** [os.environ] *)
  environ : gmap string string;
  (** the module global [PORT] of the launchers *)
  PORT : Z;
  (** everything done so far, oldest first *)
  log : list event
}.

Definition emit (e : event) (s : State) : State :=
  {| environ := environ s; PORT := PORT s; log := log s ++ [e] |}.

Definition set_PORT (p : Z) (s : State) : State :=
  {| environ := environ s; PORT := p; log := log s |}.

Definition set_environ (k v : string) (s : State) : State :=
  {| environ := <[k := v]> (environ s); PORT := PORT s; log := log s |}.

(** ** The monad *)

(** How a piece of code ends: with a value, with an exception on its way
    up, or in [sys.exit(code)]. *)
Inductive outcome (A : Type) :=
| Normal (a : A)
| Raised (e : exn)
| Exited (code : Z).
Arguments Normal {A} a.
Arguments Raised {A} e.
Arguments Exited {A} code.

Definition M (A : Type) : Type := State -> outcome A * State.

Definition ret {A} (a : A) : M A := fun s => (Normal a, s).

Definition bind {A B} (m : M A) (k : A -> M B) : M B :=
  fun s =>
    match m s with
    | (Normal a, s') => k a s'
    | (Raised e, s') => (Raised e, s')
    | (Exited c, s') => (Exited c, s')
    end.

Declare Scope py_scope.
Delimit Scope py_scope with py.
Notation "x <- m ;; k" := (bind m (fun x => k))
  (at level 100, m at next level, right associativity) : py_scope.
Notation "m ;; k" := (bind m (fun _ => k))
  (at level 100, right associativity) : py_scope.
Open Scope py_scope.

Definition raise {A} (e : exn) : M A := fun s => (Raised e, s).

(** [sys.exit(code)] *)
Definition sys_exit {A} (code : Z) : M A := fun s => (Exited code, s).

(** [try: body  except ...: ...]: [handler e] is [Some k] when one of the
    [except] clauses matches [e], and [k] is the body of the first such
    clause. *)
Definition try_except {A} (body : M A) (handler : exn -> option (M A)) : M A :=
  fun s =>
    match body s with
    | (Raised e, s') =>
        match handler e with
        | Some k => k s'
        | None => (Raised e, s')
        end
    | r => r
    end.

Definition of_answer {A} (a : answer A) : M A :=
  match a with
  | Returns v => ret v
  | Throws e => raise e
  end.

Definition perform (e : event) : M unit := fun s => (Normal tt, emit e s).

Definition get_PORT : M Z := fun s => (Normal (PORT s), s).
Definition put_PORT (p : Z) : M unit := fun s => (Normal tt, set_PORT p s).
Definition get_environ : M (gmap string string) :=
  fun s => (Normal (environ s), s).
(** [os.environ[k] = v] *)
Definition put_environ (k v : string) : M unit :=
  fun s => (Normal tt, set_environ k v s).

(** [print(line)] *)
Definition print (line : string) : M unit := perform (Stdout line).

(** The four socket calls of a probe. *)
Definition connect_ex (w : World) (host : string) (port : Z) : M Z :=
  perform (Connect host port) ;; of_answer (socket_connect_ex w host port).

(** [subprocess.run(cmd, ...)]; the child inherits [os.environ]. *)
Definition subprocess_run (w : World) (cmd : list string) : M CompletedProcess :=
  env <- get_environ ;;
  perform (Subprocess cmd env) ;;
  of_answer (subprocess_exec w cmd).

(** [str(CalledProcessError(returncode, cmd))]: a negative status is the
    number of the signal that ended the child. *)
Definition CalledProcessError_str (w : World) (cmd : list string)
  (returncode : Z) : string :=
  if returncode <? 0 then
    match signal_repr w (- returncode) with
    | Some signal =>
        "Command '" ++ list_repr cmd ++ "' died with " ++ signal ++ "."
    | None =>
        "Command '" ++ list_repr cmd ++ "' died with unknown signal "
        ++ str (- returncode) ++ "."
    end
  else
    "Command '" ++ list_repr cmd ++ "' returned non-zero exit status "
    ++ str returncode ++ ".".

(** [subprocess.run(cmd, check=True, ...)] *)
Definition subprocess_run_check (w : World) (cmd : list string)
  : M CompletedProcess :=
  r <- subprocess_run w cmd ;;
  if returncode r =? 0 then ret r
  else raise (Exn CalledProcessError
                (CalledProcessError_str w cmd (returncode r))).

(** [input(prompt)] *)
Definition input (w : World) (prompt : string) : M string :=
  perform (Prompt prompt) ;; of_answer (stdin_input w prompt).

(** ** The port probe and the free-port search

    [start_server.py] and [start_server_python.py] define
    [check_port_available] and [find_free_port] with the same text. *)

Definition check_port_available (w : World) (host : string) (port : Z) : M bool :=
  try_except
    (result <- connect_ex w host port ;;
     ret (negb (result =? 0)))
    (fun e => if is_Exception e then Some (ret true) else None).

Fixpoint find_free_port_loop (w : World) (host : string) (start_port : Z)
  (range : list Z) : M (option Z) :=
  match range with
  | [] => ret None
  | i :: rest =>
      let port := start_port + i in
      free <- check_port_available w host port ;;
      if free then ret (Some port)
      else find_free_port_loop w host start_port rest
  end.

(** [range(max_attempts)] is [seqZ 0 max_attempts]: empty when
    [max_attempts <= 0]. *)
Definition find_free_port (w : World) (host : string) (start_port : Z)
  (max_attempts : Z) : M (option Z) :=
  find_free_port_loop w host start_port (seqZ 0 max_attempts).

(** ** kill_port.py *)

Module KillPort.

(** The dictionary [get_process_info] builds; as a non-empty dictionary it
    is always truthy. *)
Record ProcessInfo := { name : string; pid : Z; path : string }.

(** The [for line in ...] loop of the Windows branch; it leaves the function
    at the first line that names the port, is in state LISTENING and ends in
    a number. *)
Fixpoint netstat_scan (port : Z) (lines : list string) : M (option Z) :=
  match lines with
  | [] => ret None
  | line :: rest =>
      if contains (":" ++ str port) line && contains "LISTENING" line then
        let parts := split_ws line in
        if (0 <? length parts)%nat then
          let pid := List.last parts EmptyString in
          if isdigit pid then
            n <- of_answer (int pid) ;; ret (Some n)
          else netstat_scan port rest
        else netstat_scan port rest
      else netstat_scan port rest
  end.

Definition find_process_on_port (w : World) (port : Z) : M (option Z) :=
  let system := platform_system w in
  if String.eqb system "Windows" then
    try_except
      (result <- subprocess_run w ["netstat"; "-ano"] ;;
       netstat_scan port (str_split newline (stdout result)))
      (fun e =>
         if is_Exception e then
           Some (print ("Ошибка при поиске процесса: " ++ exn_str e) ;;
                 ret None)
         else None)
  else
    try_except
      (result <- subprocess_run w ["lsof"; "-ti"; ":" ++ str port] ;;
       if (returncode result =? 0) && truthy (strip (stdout result)) then
         n <- of_answer (int (strip (stdout result))) ;; ret (Some n)
       else ret None)
      (fun e =>
         if is_FileNotFoundError e then
           Some (print "lsof не найден. Установите его для работы на Linux/Mac." ;;
                 ret None)
         else if is_Exception e then
           Some (print ("Ошибка при поиске процесса: " ++ exn_str e) ;;
                 ret None)
         else None).

Definition get_process_info (w : World) (pid : Z) : M (option ProcessInfo) :=
  let system := platform_system w in
  if String.eqb system "Windows" then
    try_except
      (result <- subprocess_run w
                   ["tasklist"; "/FI"; "PID eq " ++ str pid; "/FO"; "CSV"; "/NH"] ;;
       if (returncode result =? 0) && truthy (strip (stdout result)) then
         let parts :=
           str_split (String dquote ("," ++ String dquote EmptyString))
                     (strip (stdout result)) in
         if (2 <=? length parts)%nat then
           ret (Some {| name := strip_char dquote (List.hd EmptyString parts);
                        pid := pid;
                        path := if (1 <? length parts)%nat
                                then strip_char dquote (List.last parts EmptyString)
                                else "N/A" |})
         else ret None
       else ret None)
      (fun e =>
         if is_Exception e then
           Some (print ("Ошибка при получении информации о процессе: " ++ exn_str e) ;;
                 ret None)
         else None)
  else
    try_except
      (result <- subprocess_run w
                   ["ps"; "-p"; str pid; "-o"; "comm="; "-o"; "args="] ;;
       if (returncode result =? 0) && truthy (strip (stdout result)) then
         let parts := split_ws_1 (strip (stdout result)) in
         ret (Some {| name := if (0 <? length parts)%nat
                              then List.hd EmptyString parts else "N/A";
                      pid := pid;
                      path := if (1 <? length parts)%nat
                              then List.nth 1 parts EmptyString else "N/A" |})
       else ret None)
      (fun e =>
         if is_Exception e then
           Some (print ("Ошибка при получении информации о процессе: " ++ exn_str e) ;;
                 ret None)
         else None).

Definition kill_process (w : World) (pid : Z) : M bool :=
  let system := platform_system w in
  try_except
    ((if String.eqb system "Windows" then
        subprocess_run_check w ["taskkill"; "/F"; "/PID"; str pid]
      else
        subprocess_run_check w ["kill"; "-9"; str pid]) ;;
     ret true)
    (fun e =>
       if is_CalledProcessError e then Some (ret false)
       else if is_Exception e then
         Some (print ("Ошибка при завершении процесса: " ++ exn_str e) ;;
               ret false)
       else None).

(** [int(sys.argv[1]) if len(sys.argv) > 1 else 8000] *)
Definition port_argument (w : World) : answer Z :=
  if (1 <? length (sys_argv w))%nat
  then int (List.nth 1 (sys_argv w) EmptyString)
  else Returns 8000.

Definition main (w : World) : M unit :=
  port <- of_answer (port_argument w) ;;
  print EmptyString ;;
  print (repeat_string "=" 40) ;;
  print ("  Поиск процесса на порту " ++ str port) ;;
  print (repeat_string "=" 40) ;;
  print EmptyString ;;
  result <- connect_ex w "localhost" port ;;
  (if result =? 0 then
     print ("[!] Порт " ++ str port ++ " занят, ищем процесс...") ;;
     pid <- find_process_on_port w port ;;
     match if_truthy pid with
     | Some pid =>
         info <- get_process_info w pid ;;
         match info with
         | Some info =>
             print "Найден процесс:" ;;
             print ("  PID:  " ++ str (KillPort.pid info)) ;;
             print ("  Имя:  " ++ name info) ;;
             print ("  Путь: " ++ path info) ;;
             print EmptyString ;;
             response <- input w "Завершить процесс? (y/n): " ;;
             if String.eqb (lower response) "y" then
               killed <- kill_process w pid ;;
               if killed then print "[OK] Процесс завершен!"
               else print "[ERROR] Не удалось завершить процесс (возможно, нет прав)"
             else print "Отменено."
         | None =>
             print ("Найден процесс с PID " ++ str pid
                    ++ ", но не удалось получить информацию")
         end
     | None => print ("[!] Не удалось найти процесс на порту " ++ str port)
     end
   else print ("[OK] Порт " ++ str port ++ " свободен")) ;;
  print EmptyString.

End KillPort.

(** ** start_server.py: the launcher that shells out to [npx http-server] *)

Module StartServer.

Definition DEFAULT_PORT : Z := 8000.
Definition HOST : string := "localhost".

Definition print_header (w : World) (port : Z) : M unit :=
  print EmptyString ;;
  print (repeat_string "=" 40) ;;
  print "  Запуск локального сервера" ;;
  print "  Quantum Supremacy" ;;
  print (repeat_string "=" 40) ;;
  print EmptyString ;;
  print ("Адрес:     http://" ++ HOST ++ ":" ++ str port) ;;
  print ("Директория: " ++ PROJECT_PATH w) ;;
  print EmptyString ;;
  print "Для остановки сервера нажмите Ctrl+C" ;;
  print EmptyString ;;
  print (repeat_string "=" 40) ;;
  print EmptyString.

Definition check_node_installed (w : World) : M bool :=
  found <- try_except
    (result <- subprocess_run w ["node"; "--version"] ;;
     if returncode result =? 0 then
       print ("Node.js: " ++ strip (stdout result)) ;;
       ret true
     else ret false)
    (fun e =>
       if is_FileNotFoundError e || is_TimeoutExpired e
       then Some (ret false) else None) ;;
  if found then ret true
  else
    print "ОШИБКА: Node.js не найден в PATH!" ;;
    print "Убедитесь, что Node.js установлен и добавлен в системную переменную PATH." ;;
    ret false.

Definition open_browser (port : Z) : list thread_action :=
  [Sleep 1; WebbrowserOpen ("http://" ++ HOST ++ ":" ++ str port)].

Definition npx_command (port : Z) : list string :=
  ["npx"; "http-server"; "-p"; str port; "-d"; "false"; "-o"].

Definition start_server (w : World) : M unit :=
  perform (Chdir (PROJECT_PATH w)) ;;
  node <- check_node_installed w ;;
  (if negb node then sys_exit 1 else ret tt) ;;
  free <- check_port_available w HOST DEFAULT_PORT ;;
  (if negb free then
     print ("⚠️  Порт " ++ str DEFAULT_PORT ++ " уже занят!") ;;
     print "Поиск свободного порта..." ;;
     free_port <- find_free_port w HOST DEFAULT_PORT 10 ;;
     match if_truthy free_port with
     | Some free_port =>
         put_PORT free_port ;;
         PORT <- get_PORT ;;
         print ("✓ Найден свободный порт: " ++ str PORT) ;;
         PORT <- get_PORT ;;
         put_environ "PORT" (str PORT)
     | None =>
         print "❌ Не удалось найти свободный порт!" ;;
         print "Попробуйте завершить процесс, занимающий порт, или используйте другой порт вручную." ;;
         sys_exit 1
     end
   else put_PORT DEFAULT_PORT) ;;
  PORT <- get_PORT ;;
  print_header w PORT ;;
  print "Запуск сервера..." ;;
  print EmptyString ;;
  PORT <- get_PORT ;;
  perform (ThreadStart (open_browser PORT)) ;;
  try_except
    (PORT <- get_PORT ;;
     subprocess_run_check w (npx_command PORT) ;;
     ret tt)
    (fun e =>
       if is_CalledProcessError e then
         Some (print ("Ошибка запуска сервера: " ++ exn_str e) ;;
               sys_exit 1)
       else if is_KeyboardInterrupt e then
         Some (print (newline ++ newline ++ "Сервер остановлен пользователем.") ;;
               sys_exit 0)
       else None).

End StartServer.

(** ** start_server_python.py: the launcher on Python's built-in server *)

Module StartServerPython.

Definition DEFAULT_PORT : Z := 8000.
Definition HOST : string := "localhost".

(** *** The request handler

    [BaseHTTPRequestHandler] of Python's [http.server] keeps the headers of
    the response under construction in a buffer: [send_header] adds a header
    to the buffer, [end_headers] writes the buffered headers to the output
    stream and empties the buffer.  Both do nothing when the request is an
    HTTP/0.9 one, which is what the handler takes a request line without a
    protocol version, or one it cannot read, for: such a request is
    answered without a status line and without headers. *)
Record Handler := {
  (** the protocol version of the request being answered *)
  request_version : string;
  (** headers sent and not yet written *)
  headers_buffer : list (string * string);
  (** the header blocks written to the client, oldest first *)
  wfile : list (list (string * string))
}.

Definition send_header (keyword value : string) (h : Handler) : Handler :=
  if String.eqb (request_version h) "HTTP/0.9" then h
  else
    {| request_version := request_version h;
       headers_buffer := headers_buffer h ++ [(keyword, value)];
       wfile := wfile h |}.

(** [super().end_headers()] *)
Definition base_end_headers (h : Handler) : Handler :=
  if String.eqb (request_version h) "HTTP/0.9" then h
  else
    {| request_version := request_version h;
       headers_buffer := [];
       wfile := wfile h ++ [headers_buffer h] |}.

(** [CustomHTTPRequestHandler.end_headers] *)
Definition end_headers (h : Handler) : Handler :=
  let h := send_header "X-Content-Type-Options" "nosniff" h in
  let h := send_header "X-Frame-Options" "SAMEORIGIN" h in
  let h := send_header "X-XSS-Protection" "1; mode=block" h in
  base_end_headers h.

(** A response of the handler: the base class sends the status line and
    the headers of its own, then calls [self.end_headers()], which is the
    method above. *)
Definition respond (own_headers : list (string * string)) (h : Handler) : Handler :=
  end_headers (fold_left (fun h kv => send_header (fst kv) (snd kv) h) own_headers h).

(** *** The launcher *)

Definition print_header (w : World) (port : Z) : M unit :=
  print EmptyString ;;
  print (repeat_string "=" 40) ;;
  print "  Запуск локального сервера" ;;
  print "  Quantum Supremacy (Python HTTP Server)" ;;
  print (repeat_string "=" 40) ;;
  print EmptyString ;;
  print ("Адрес:     http://" ++ HOST ++ ":" ++ str port) ;;
  print ("Директория: " ++ PROJECT_PATH w) ;;
  print EmptyString ;;
  print "Для остановки сервера нажмите Ctrl+C" ;;
  print EmptyString ;;
  print (repeat_string "=" 40) ;;
  print EmptyString.

Definition open_browser (port : Z) : list thread_action :=
  [Sleep 1; WebbrowserOpen ("http://" ++ HOST ++ ":" ++ str port)].

(** [HTTPServer(server_address, CustomHTTPRequestHandler)] *)
Definition HTTPServer (w : World) (server_address : string * Z) : M (string * Z) :=
  perform (Listen (fst server_address) (snd server_address)) ;;
  of_answer (http_server_bind w (fst server_address) (snd server_address)) ;;
  ret server_address.

Definition serve_forever (w : World) (httpd : string * Z) : M unit :=
  perform (ServeForever (fst httpd) (snd httpd)) ;;
  of_answer (http_serve_forever w (fst httpd) (snd httpd)).

Definition shutdown (httpd : string * Z) : M unit := perform Shutdown.

Definition start_server (w : World) : M unit :=
  perform (Chdir (PROJECT_PATH w)) ;;
  free <- check_port_available w HOST DEFAULT_PORT ;;
  (if negb free then
     print ("⚠️  Порт " ++ str DEFAULT_PORT ++ " уже занят!") ;;
     print "Поиск свободного порта..." ;;
     free_port <- find_free_port w HOST DEFAULT_PORT 10 ;;
     match if_truthy free_port with
     | Some free_port =>
         put_PORT free_port ;;
         PORT <- get_PORT ;;
         print ("✓ Найден свободный порт: " ++ str PORT)
     | None =>
         print "❌ Не удалось найти свободный порт!" ;;
         print "Попробуйте завершить процесс, занимающий порт, или используйте другой порт вручную." ;;
         sys_exit 1
     end
   else put_PORT DEFAULT_PORT) ;;
  PORT <- get_PORT ;;
  print_header w PORT ;;
  print "Запуск Python HTTP сервера..." ;;
  print EmptyString ;;
  PORT <- get_PORT ;;
  let server_address := (HOST, PORT) in
  httpd <- try_except
    (HTTPServer w server_address)
    (fun e =>
       if is_OSError e then
         Some (print ("❌ Ошибка запуска сервера: " ++ exn_str e) ;;
               sys_exit 1)
       else None) ;;
  PORT <- get_PORT ;;
  perform (ThreadStart (open_browser PORT)) ;;
  PORT <- get_PORT ;;
  print ("✓ Сервер запущен на http://" ++ HOST ++ ":" ++ str PORT) ;;
  print EmptyString ;;
  try_except
    (serve_forever w httpd)
    (fun e =>
       if is_KeyboardInterrupt e then
         Some (print (newline ++ newline ++ "Остановка сервера...") ;;
               shutdown httpd ;;
               print "Сервер остановлен." ;;
               sys_exit 0)
       else None).

End StartServerPython.

(** ** The virtual environment and the scripts' entry points

    What the launchers ask of the file system: [sys.platform],
    [os.path.exists] and [os.path.join] of two components; a join of three
    is a join of the first two with the third. *)
Record FileSystem := {
  sys_platform : string;
  os_path_exists : string -> bool;
  os_path_join : string -> string -> string
}.

(** [VENV_PATH = os.path.join(PROJECT_PATH, 'venv')] *)
Definition VENV_PATH (fs : FileSystem) (w : World) : string :=
  os_path_join fs (PROJECT_PATH w) "venv".

(** start_server.py *)
Definition activate_venv (fs : FileSystem) (w : World) : M (option string) :=
  if os_path_exists fs (VENV_PATH fs w) then
    if String.eqb (sys_platform fs) "win32" then
      let python_exe :=
        os_path_join fs (os_path_join fs (VENV_PATH fs w) "Scripts") "python.exe" in
      if os_path_exists fs python_exe then
        print ("✓ Используется виртуальное окружение: " ++ VENV_PATH fs w) ;;
        ret (Some python_exe)
      else ret None
    else
      let python_exe :=
        os_path_join fs (os_path_join fs (VENV_PATH fs w) "bin") "python" in
      if os_path_exists fs python_exe then
        print ("✓ Используется виртуальное окружение: " ++ VENV_PATH fs w) ;;
        ret (Some python_exe)
      else ret None
  else ret None.

(** The block under [if __name__ == "__main__":] of start_server.py;
    [if venv_python:] is false for [None] and for the empty string. *)
Definition start_server_main (fs : FileSystem) (w : World) : M unit :=
  venv_python <- activate_venv fs w ;;
  (if match venv_python with Some exe => truthy exe | None => false end
   then print EmptyString else ret tt) ;;
  StartServer.start_server w.

(** start_server_python.py *)
Definition check_venv (fs : FileSystem) (w : World) : M bool :=
  if os_path_exists fs (VENV_PATH fs w) then
    print ("✓ Виртуальное окружение найдено: " ++ VENV_PATH fs w) ;;
    ret true
  else ret false.

(** The block under [if __name__ == "__main__":] of start_server_python.py. *)
Definition start_server_python_main (fs : FileSystem) (w : World) : M unit :=
  check_venv fs w ;;
  StartServerPython.start_server w.

(** ** Runs and what is observed of them *)

(** The process as the interpreter starts a script: the log is empty and
    the module global [PORT] holds [DEFAULT_PORT]. *)
Definition boot (env : gmap string string) : State :=
  {| environ := env; PORT := 8000; log := [] |}.

Definition extend (s : State) (l : list event) : State :=
  {| environ := environ s; PORT := PORT s; log := log s ++ l |}.

(** [m] looks at nothing in the state: it ends the same way from every
    state, leaves [os.environ] and [PORT] alone, and adds to the log only
    events that satisfy [P]. *)
Definition tame {A} (P : event -> Prop) (m : M A) : Prop :=
  exists r, forall s, exists l, m s = (r, extend s l) /\ Forall P l.

(** What the helpers answer in a given world. *)
Definition port_report (w : World) (host : string) (port : Z) : outcome bool :=
  fst (check_port_available w host port (boot ∅)).

Definition free_port_search (w : World) (host : string) (start_port : Z)
  (max_attempts : Z) : outcome (option Z) :=
  fst (find_free_port w host start_port max_attempts (boot ∅)).

Definition pid_on_port (w : World) (port : Z) : outcome (option Z) :=
  fst (KillPort.find_process_on_port w port (boot ∅)).

Definition process_info (w : World) (pid : Z)
  : outcome (option KillPort.ProcessInfo) :=
  fst (KillPort.get_process_info w pid (boot ∅)).

Definition node_check (w : World) : outcome bool :=
  fst (StartServer.check_node_installed w (boot ∅)).

(** The port a launcher settles on: the default port when the probe reports
    it free, otherwise the port the search comes back with. *)
Definition resolved_port (w : World) (p : Z) : Prop :=
  (port_report w "localhost" 8000 = Normal true /\ p = 8000) \/
  (port_report w "localhost" 8000 = Normal false /\
   free_port_search w "localhost" 8000 10 = Normal (Some p)).

(** The command [kill_process] runs. *)
Definition kill_command (w : World) (pid : Z) : list string :=
  if String.eqb (platform_system w) "Windows"
  then ["taskkill"; "/F"; "/PID"; str pid]
  else ["kill"; "-9"; str pid].

Definition is_kill_event (e : event) : bool :=
  match e with
  | Subprocess (c :: _) _ => String.eqb c "kill" || String.eqb c "taskkill"
  | _ => false
  end.

Definition is_prompt_event (e : event) : bool :=
  match e with Prompt _ => true | _ => false end.

Definition is_stdout_event (e : event) : bool :=
  match e with Stdout _ => true | _ => false end.

Definition is_connect_event (e : event) : bool :=
  match e with Connect _ _ => true | _ => false end.

(** A lookup helper runs one of the listing tools and prints. *)
Definition is_lookup_event (e : event) : bool :=
  match e with
  | Stdout _ => true
  | Subprocess (c :: _) _ =>
      String.eqb c "netstat" || String.eqb c "lsof" ||
      String.eqb c "tasklist" || String.eqb c "ps"
  | _ => false
  end.

(** [kill_process] was called: its command is in the log. *)
Definition kill_invoked (l : list event) : bool := existsb is_kill_event l.

(** The operator was asked for a confirmation. *)
Definition prompted (l : list event) : bool := existsb is_prompt_event l.

(** [m] never leaves through [sys.exit], and an exception it lets through
    satisfies [Q]. *)
Definition safe {A} (Q : exn -> Prop) (m : M A) : Prop :=
  forall s,
    match fst (m s) with
    | Normal _ => True
    | Raised e => Q e
    | Exited _ => False
    end.

(** No Ctrl+C arrives while a subprocess runs: a failing
    [subprocess.run] fails with an [Exception]. *)
Definition no_interrupt (w : World) : Prop :=
  forall cmd e, subprocess_exec w cmd = Throws e -> is_Exception e = true.

(** How the server command of the tool-backed launcher ends on port [p]. *)
Definition server_command (w : World) (p : Z) : outcome CompletedProcess :=
  fst (subprocess_run_check w (StartServer.npx_command p) (boot ∅)).

(** An event without the copy of [os.environ] a spawned child receives. *)
Definition forget_env (e : event) : event :=
  match e with
  | Subprocess cmd _ => Subprocess cmd ∅
  | _ => e
  end.

(** Two states that differ in [os.environ] at most. *)
Definition same_but_env (s1 s2 : State) : Prop :=
  PORT s1 = PORT s2 /\ map forget_env (log s1) = map forget_env (log s2).

(** [m] does not look at [os.environ]. *)
Definition blind {A} (m : M A) : Prop :=
  forall s1 s2, same_but_env s1 s2 ->
    fst (m s1) = fst (m s2) /\ same_but_env (snd (m s1)) (snd (m s2)).

(** An event of the built-in launcher that carries a port carries [p]. *)
Definition on_port (p : Z) (e : event) : Prop :=
  match e with
  | Listen host q | ServeForever host q => host = "localhost" /\ q = p
  | ThreadStart body => body = StartServerPython.open_browser p
  | _ => True
  end.

(** The commands a run spawned, in order. *)
Fixpoint commands (l : list event) : list (list string) :=
  match l with
  | [] => []
  | Subprocess cmd _ :: l' => cmd :: commands l'
  | _ :: l' => commands l'
  end.

(** ** Sample worlds *)

(** The signals the sample machines know by name. *)
Definition sample_signals (n : Z) : option string :=
  if n =? 2 then Some "<Signals.SIGINT: 2>"
  else if n =? 9 then Some "<Signals.SIGKILL: 9>"
  else if n =? 15 then Some "<Signals.SIGTERM: 15>"
  else None.

Definition completed (rc : Z) (out : string) : answer CompletedProcess :=
  Returns {| returncode := rc; stdout := out |}.

Definition no_such_file : exn :=
  Exn FileNotFoundError "[Errno 2] No such file or directory".

Definition interrupt : exn := Exn KeyboardInterrupt EmptyString.

(** A Linux machine on which process 4242 listens on port 8000, every other
    port is free, and the operator answers [reply]. *)
Definition reaper_exec (cmd : list string) : answer CompletedProcess :=
  match cmd with
  | "lsof" :: _ => completed 0 ("4242" ++ newline)
  | "ps" :: _ => completed 0 ("python3 python3 -m http.server 8000" ++ newline)
  | "kill" :: _ => completed 0 EmptyString
  | _ => Throws no_such_file
  end.

Definition reaper_world (argv : list string) (reply : string) : World :=
  {| platform_system := "Linux";
     sys_argv := argv;
     PROJECT_PATH := "/srv/quantum_supremacy";
     socket_connect_ex := fun _ port => Returns (if port =? 8000 then 0 else 111);
     subprocess_exec := reaper_exec;
     stdin_input := fun _ => Returns reply;
     http_server_bind := fun _ _ => Returns tt;
     http_serve_forever := fun _ _ => Throws interrupt;
     signal_repr := sample_signals |}.

(** The same machine when [ps] knows nothing of the process and [kill]
    finds no process to signal. *)
Definition orphan_exec (cmd : list string) : answer CompletedProcess :=
  match cmd with
  | "lsof" :: _ => completed 0 ("4242" ++ newline)
  | "ps" :: _ => completed 1 EmptyString
  | "kill" :: _ => completed 1 EmptyString
  | _ => Throws no_such_file
  end.

Definition orphan_world : World :=
  {| platform_system := "Linux";
     sys_argv := ["kill_port.py"];
     PROJECT_PATH := "/srv/quantum_supremacy";
     socket_connect_ex := fun _ port => Returns (if port =? 8000 then 0 else 111);
     subprocess_exec := orphan_exec;
     stdin_input := fun _ => Returns "y";
     http_server_bind := fun _ _ => Returns tt;
     http_serve_forever := fun _ _ => Throws interrupt;
     signal_repr := sample_signals |}.

(** A machine on which the name of the host does not resolve. *)
Definition offline_world : World :=
  {| platform_system := "Linux";
     sys_argv := ["start_server.py"];
     PROJECT_PATH := "/srv/quantum_supremacy";
     socket_connect_ex := fun _ _ =>
       Throws (Exn SocketGaierror "[Errno -2] Name or service not known");
     subprocess_exec := fun _ => Throws no_such_file;
     stdin_input := fun _ => Throws (Exn EOFError "EOF when reading a line");
     http_server_bind := fun _ _ => Returns tt;
     http_serve_forever := fun _ _ => Throws interrupt;
     signal_repr := sample_signals |}.

(** A machine with Node.js on which the ports below [first_free] are taken,
    [npx http-server] ends with exit status [npx_status], and the built-in
    server runs until Ctrl+C. *)
Definition launcher_exec (npx_status : Z) (cmd : list string)
  : answer CompletedProcess :=
  match cmd with
  | "node" :: _ => completed 0 ("v20.11.0" ++ newline)
  | "npx" :: _ => completed npx_status EmptyString
  | _ => Throws no_such_file
  end.

Definition launcher_world (first_free : Z) (npx_status : Z) : World :=
  {| platform_system := "Linux";
     sys_argv := ["start_server.py"];
     PROJECT_PATH := "/srv/quantum_supremacy";
     socket_connect_ex := fun _ port => Returns (if port <? first_free then 0 else 111);
     subprocess_exec := launcher_exec npx_status;
     stdin_input := fun _ => Throws (Exn EOFError "EOF when reading a line");
     http_server_bind := fun _ _ => Returns tt;
     http_serve_forever := fun _ _ => Throws interrupt;
     signal_repr := sample_signals |}.

(** ** More of what is observed of a run *)

(** The connection attempts on the [k] ports from [start_port + first] on,
    in order. *)
Definition probes (host : string) (start_port first k : Z) : list event :=
  (fun j => Connect host (start_port + j)) <$> seqZ first k.

(** A line of [netstat -ano] that answers the Windows lookup: it names the
    port, is in state LISTENING and ends in a number. *)
Definition listens_on (port : Z) (line : string) : bool :=
  contains (":" ++ str port) line && contains "LISTENING" line &&
  isdigit (List.last (split_ws line) EmptyString).

(** The number at the end of the first such line. *)
Definition first_listener (port : Z) (lines : list string) : option Z :=
  match List.find (listens_on port) lines with
  | Some line => int_literal (List.last (split_ws line) EmptyString)
  | None => None
  end.

(** The commands of the two lookups on Linux and macOS. *)
Definition lsof_command (port : Z) : list string :=
  ["lsof"; "-ti"; ":" ++ str port].

Definition ps_command (pid : Z) : list string :=
  ["ps"; "-p"; str pid; "-o"; "comm="; "-o"; "args="].


Definition node_command : list string := ["node"; "--version"].

Definition is_subprocess_event (e : event) : bool :=
  match e with Subprocess _ _ => true | _ => false end.

Definition is_thread_event (e : event) : bool :=
  match e with ThreadStart _ => true | _ => false end.

Definition is_listen_event (e : event) : bool :=
  match e with Listen _ _ => true | _ => false end.

(** The five lines [main] of the port reaper starts with. *)
Definition reaper_banner (port : Z) : list event :=
  [Stdout EmptyString;
   Stdout (repeat_string "=" 40);
   Stdout ("  Поиск процесса на порту " ++ str port);
   Stdout (repeat_string "=" 40);
   Stdout EmptyString].

(** How often a header name occurs in a header block. *)
Definition header_count (keyword : string) (block : list (string * string)) : nat :=
  length (List.filter (fun kv => String.eqb (fst kv) keyword) block).

Definition security_headers : list (string * string) :=
  [("X-Content-Type-Options", "nosniff");
   ("X-Frame-Options", "SAMEORIGIN");
   ("X-XSS-Protection", "1; mode=block")].

(** One response after the other on the same handler. *)
Definition respond_all (responses : list (list (string * string)))
  (h : StartServerPython.Handler) : StartServerPython.Handler :=
  fold_left (fun h own_headers => StartServerPython.respond own_headers h)
            responses h.

(** What the tool-backed launcher may do before it launches the server:
    no browser task, and no command but the check for Node.js. *)
Definition before_launch (e : event) : Prop :=
  match e with
  | ThreadStart _ => False
  | Subprocess cmd _ => cmd = node_command
  | _ => True
  end.

(** What the built-in launcher may do before it binds: change the
    directory, probe ports and print. *)
Definition settling (e : event) : Prop :=
  match e with
  | Chdir _ | Connect _ _ | Stdout _ => True
  | _ => False
  end.

(** The state [s2] with the events [pre] put before its log. *)
Definition later (pre : list event) (s1 s2 : State) : Prop :=
  environ s1 = environ s2 /\ PORT s1 = PORT s2 /\
  log s1 = (pre ++ log s2)%list.

(** [m] does not look at what was done before it: it ends the same way and
    does the same things whatever the log holds. *)
Definition oblivious {A} (m : M A) : Prop :=
  forall pre s1 s2, later pre s1 s2 ->
    fst (m s1) = fst (m s2) /\ later pre (snd (m s1)) (snd (m s2)).

(** ** More sample worlds *)

(** The sample machine when Ctrl+C arrives during the probe of port 8002,
    the ports below being taken. *)
Definition interrupted_world : World :=
  {| platform_system := "Linux";
     sys_argv := ["start_server.py"];
     PROJECT_PATH := "/srv/quantum_supremacy";
     socket_connect_ex := fun _ port =>
       if port =? 8002 then Throws interrupt else Returns 0;
     subprocess_exec := launcher_exec 0;
     stdin_input := fun _ => Throws interrupt;
     http_server_bind := fun _ _ => Returns tt;
     http_serve_forever := fun _ _ => Throws interrupt;
     signal_repr := sample_signals |}.

(** A Linux machine on which two processes hold port 8000, so that
    [lsof -ti] prints two pids. *)
Definition crowded_exec (cmd : list string) : answer CompletedProcess :=
  match cmd with
  | "lsof" :: _ => completed 0 ("4242" ++ newline ++ "4243" ++ newline)
  | _ => Throws no_such_file
  end.

Definition crowded_world : World :=
  {| platform_system := "Linux";
     sys_argv := ["kill_port.py"];
     PROJECT_PATH := "/srv/quantum_supremacy";
     socket_connect_ex := fun _ port => Returns (if port =? 8000 then 0 else 111);
     subprocess_exec := crowded_exec;
     stdin_input := fun _ => Returns "y";
     http_server_bind := fun _ _ => Returns tt;
     http_serve_forever := fun _ _ => Throws interrupt;
     signal_repr := sample_signals |}.

(** A Windows machine on which process 5120 listens on port 8000 and
    nothing listens on port 80. *)
Definition netstat_output : string :=
  "  TCP    0.0.0.0:135            0.0.0.0:0              LISTENING       1108"
  ++ newline ++
  "  TCP    0.0.0.0:8000           0.0.0.0:0              LISTENING       5120"
  ++ newline ++
  "  TCP    127.0.0.1:52114        127.0.0.1:8000         ESTABLISHED     7312"
  ++ newline.

Definition windows_exec (cmd : list string) : answer CompletedProcess :=
  match cmd with
  | "netstat" :: _ => completed 0 netstat_output
  | "taskkill" :: _ => completed 0 EmptyString
  | _ => Throws no_such_file
  end.

Definition windows_world (argv : list string) : World :=
  {| platform_system := "Windows";
     sys_argv := argv;
     PROJECT_PATH := "C:\quantum_supremacy";
     socket_connect_ex := fun _ port =>
       Returns (if (port =? 8000) || (port =? 80) then 0 else 10061);
     subprocess_exec := windows_exec;
     stdin_input := fun _ => Returns "y";
     http_server_bind := fun _ _ => Returns tt;
     http_serve_forever := fun _ _ => Throws interrupt;
     signal_repr := sample_signals |}.

(** A machine with Node.js and without [npx]. *)
Definition no_npx_exec (cmd : list string) : answer CompletedProcess :=
  match cmd with
  | "node" :: _ => completed 0 ("v20.11.0" ++ newline)
  | _ => Throws no_such_file
  end.

Definition no_npx_world : World :=
  {| platform_system := "Linux";
     sys_argv := ["start_server.py"];
     PROJECT_PATH := "/srv/quantum_supremacy";
     socket_connect_ex := fun _ _ => Returns 111;
     subprocess_exec := no_npx_exec;
     stdin_input := fun _ => Throws interrupt;
     http_server_bind := fun _ _ => Returns tt;
     http_serve_forever := fun _ _ => Throws interrupt;
     signal_repr := sample_signals |}.

(** A machine on which the probe finds port 8000 free and the bind to it
    fails all the same. *)
Definition address_in_use : exn :=
  Exn OSError "[Errno 98] Address already in use".

Definition bind_fails_world : World :=
  {| platform_system := "Linux";
     sys_argv := ["start_server_python.py"];
     PROJECT_PATH := "/srv/quantum_supremacy";
     socket_connect_ex := fun _ _ => Returns 111;
     subprocess_exec := fun _ => Throws no_such_file;
     stdin_input := fun _ => Throws interrupt;
     http_server_bind := fun _ _ => Throws address_in_use;
     http_serve_forever := fun _ _ => Throws interrupt;
     signal_repr := sample_signals |}.

(** A Linux checkout with a virtual environment in it, and one without. *)
Definition posix_join (a b : string) : string := a ++ "/" ++ b.

Definition with_venv : FileSystem :=
  {| sys_platform := "linux";
     os_path_exists := fun _ => true;
     os_path_join := posix_join |}.

Definition without_venv : FileSystem :=
  {| sys_platform := "linux";
     os_path_exists := fun _ => false;
     os_path_join := posix_join |}.

(** ** How a run of the port reaper closes *)







(** Some character of [s] is a space. *)
Fixpoint has_space (s : string) : bool :=
  match s with
  | EmptyString => false
  | String c s' => is_space c || has_space s'
  end.

(** * Properties *)

(** ** The monad and the log *)

Lemma extend_nil s : extend s [] = s.
Proof. destruct s; unfold extend; simpl. by rewrite app_nil_r. Qed.

Lemma extend_extend s l1 l2 : extend (extend s l1) l2 = extend s (l1 ++ l2).
Proof. unfold extend; simpl. by rewrite app_assoc. Qed.

Lemma emit_extend e s : emit e s = extend s [e].
Proof. reflexivity. Qed.

Section Tame.
Context (P : event -> Prop).

Lemma tame_ret {A} (a : A) : tame P (ret a).
Proof.
  exists (Normal a); intros s; exists []. by rewrite extend_nil.
Qed.

Lemma tame_raise {A} e : tame P (@raise A e).
Proof.
  exists (Raised e); intros s; exists []. by rewrite extend_nil.
Qed.

Lemma tame_sys_exit {A} c : tame P (@sys_exit A c).
Proof.
  exists (Exited c); intros s; exists []. by rewrite extend_nil.
Qed.

Lemma tame_of_answer {A} (a : answer A) : tame P (of_answer a).
Proof. destruct a; [apply tame_ret | apply tame_raise]. Qed.

Lemma tame_perform e : P e -> tame P (perform e).
Proof.
  intros He. exists (Normal tt); intros s; exists [e].
  split; [reflexivity | by constructor].
Qed.

Lemma tame_print line : P (Stdout line) -> tame P (print line).
Proof. apply tame_perform. Qed.

Lemma tame_bind {A B} (m : M A) (k : A -> M B) :
  tame P m -> (forall a, tame P (k a)) -> tame P (bind m k).
Proof.
  intros [r Hm] Hk. destruct r as [a | e | c].
  - destruct (Hk a) as [r' Hka]. exists r'; intros s.
    destruct (Hm s) as (l & Hl & HP).
    destruct (Hka (extend s l)) as (l' & Hl' & HP').
    exists (l ++ l')%list. unfold bind. rewrite Hl, Hl', extend_extend.
    split; [reflexivity | by apply Forall_app].
  - exists (Raised e); intros s. destruct (Hm s) as (l & Hl & HP).
    exists l. unfold bind. by rewrite Hl.
  - exists (Exited c); intros s. destruct (Hm s) as (l & Hl & HP).
    exists l. unfold bind. by rewrite Hl.
Qed.

Lemma tame_try_except {A} (body : M A) handler :
  tame P body ->
  (forall e k, handler e = Some k -> tame P k) ->
  tame P (try_except body handler).
Proof.
  intros [r Hm] Hh. destruct r as [a | e | c].
  - exists (Normal a); intros s. destruct (Hm s) as (l & Hl & HP).
    exists l. unfold try_except. by rewrite Hl.
  - destruct (handler e) as [k |] eqn:Hk.
    + destruct (Hh e k Hk) as [r' Hr']. exists r'; intros s.
      destruct (Hm s) as (l & Hl & HP).
      destruct (Hr' (extend s l)) as (l' & Hl' & HP').
      exists (l ++ l')%list. unfold try_except. rewrite Hl, Hk, Hl', extend_extend.
      split; [reflexivity | by apply Forall_app].
    + exists (Raised e); intros s. destruct (Hm s) as (l & Hl & HP).
      exists l. unfold try_except. by rewrite Hl, Hk.
  - exists (Exited c); intros s. destruct (Hm s) as (l & Hl & HP).
    exists l. unfold try_except. by rewrite Hl.
Qed.

Lemma tame_connect_ex w host port :
  P (Connect host port) -> tame P (connect_ex w host port).
Proof.
  intros HP. apply tame_bind; [by apply tame_perform |].
  intros _. apply tame_of_answer.
Qed.

Lemma tame_subprocess_run w cmd :
  (forall env, P (Subprocess cmd env)) -> tame P (subprocess_run w cmd).
Proof.
  intros HP. unfold subprocess_run, bind, get_environ, perform.
  destruct (subprocess_exec w cmd) as [r | e].
  - exists (Normal r); intros s; exists [Subprocess cmd (environ s)].
    split; [reflexivity | by constructor].
  - exists (Raised e); intros s; exists [Subprocess cmd (environ s)].
    split; [reflexivity | by constructor].
Qed.

Lemma tame_subprocess_run_check w cmd :
  (forall env, P (Subprocess cmd env)) -> tame P (subprocess_run_check w cmd).
Proof.
  intros HP. apply tame_bind; [by apply tame_subprocess_run |].
  intros r. destruct (returncode r =? 0); [apply tame_ret | apply tame_raise].
Qed.

Lemma tame_input w prompt :
  P (Prompt prompt) -> tame P (input w prompt).
Proof.
  intros HP. apply tame_bind; [by apply tame_perform |].
  intros _. apply tame_of_answer.
Qed.
End Tame.

Lemma tame_weaken {A} (P Q : event -> Prop) (m : M A) :
  (forall e, P e -> Q e) -> tame P m -> tame Q m.
Proof.
  intros HPQ [r Hm]. exists r; intros s. destruct (Hm s) as (l & Hl & HP).
  exists l; split; [done |]. eapply Forall_impl; eauto.
Qed.

(** A tame computation run from any state ends as it does from the state
    the interpreter starts in. *)
Lemma tame_run {A} P (m : M A) s :
  tame P m ->
  exists l, m s = (fst (m (boot ∅)), extend s l) /\ Forall P l.
Proof.
  intros [r Hm]. destruct (Hm (boot ∅)) as (l0 & Hl0 & _).
  destruct (Hm s) as (l & Hl & HP). exists l. by rewrite Hl0, Hl.
Qed.

(** ** The port probe *)

Lemma is_OSError_is_Exception e : is_OSError e = true -> is_Exception e = true.
Proof. unfold is_OSError, is_Exception. by destruct (exn_cls e). Qed.

(** A probe adds one connection attempt to the log and touches nothing
    else; its verdict does not depend on the state it is run in. *)
Lemma check_port_available_run w host port s :
  check_port_available w host port s =
  (port_report w host port, extend s [Connect host port]).
Proof.
  unfold port_report, check_port_available, try_except, bind, connect_ex,
    perform, of_answer.
  destruct (socket_connect_ex w host port) as [r | e]; simpl; [reflexivity |].
  destruct (is_Exception e); reflexivity.
Qed.

(** C3. The probe answers false when the connection attempt succeeds
    ([connect_ex] gives 0), true when it is refused or times out
    ([connect_ex] gives an error number), and true whenever one of the
    socket calls raises an exception of the socket layer, or any other
    [Exception]. *)
Theorem check_port_available_verdict (w : World) (host : string) (port : Z)
  (s : State) :
  (socket_connect_ex w host port = Returns 0 ->
   fst (check_port_available w host port s) = Normal false) /\
  (forall errno, errno <> 0 ->
   socket_connect_ex w host port = Returns errno ->
   fst (check_port_available w host port s) = Normal true) /\
  (forall e, is_OSError e = true \/ is_Exception e = true ->
   socket_connect_ex w host port = Throws e ->
   fst (check_port_available w host port s) = Normal true).
Proof.
  unfold check_port_available, try_except, bind, connect_ex, perform, of_answer.
  split; [| split].
  - intros ->. reflexivity.
  - intros errno Hne ->. simpl.
    destruct (Z.eqb_spec errno 0); [contradiction | reflexivity].
  - intros e He ->. simpl.
    assert (is_Exception e = true) as ->
      by (destruct He; [by apply is_OSError_is_Exception | done]).
    reflexivity.
Qed.

(** On the sample machine port 8000 is taken and port 8001 refuses the
    connection; where the host name does not resolve the probe answers
    true. *)
Lemma check_port_available_verdict_witness :
  fst (check_port_available (reaper_world [] "y") "localhost" 8000 (boot ∅))
  = Normal false /\
  fst (check_port_available (reaper_world [] "y") "localhost" 8001 (boot ∅))
  = Normal true /\
  fst (check_port_available offline_world "localhost" 8000 (boot ∅))
  = Normal true.
Proof.
  destruct (check_port_available_verdict (reaper_world [] "y") "localhost"
              8000 (boot ∅)) as (H0 & _ & _).
  destruct (check_port_available_verdict (reaper_world [] "y") "localhost"
              8001 (boot ∅)) as (_ & H1 & _).
  destruct (check_port_available_verdict offline_world "localhost"
              8000 (boot ∅)) as (_ & _ & H2).
  split; [| split].
  - apply H0. reflexivity.
  - apply (H1 111); [lia | reflexivity].
  - apply (H2 (Exn SocketGaierror "[Errno -2] Name or service not known"));
      [left |]; reflexivity.
Defined.

(** ** The free-port search *)

Lemma find_free_port_loop_Some w host start_port range s p :
  fst (find_free_port_loop w host start_port range s) = Normal (Some p) <->
  exists (k : nat) (i : Z),
    range !! k = Some i /\ p = start_port + i /\
    port_report w host (start_port + i) = Normal true /\
    forall (k' : nat) (j : Z), (k' < k)%nat -> range !! k' = Some j ->
      port_report w host (start_port + j) = Normal false.
Proof.
  revert s. induction range as [| i0 rest IH]; intros s; simpl.
  - split; [discriminate |]. intros (k & i & Hk & _). by destruct k.
  - unfold bind. rewrite check_port_available_run.
    destruct (port_report w host (start_port + i0)) as [[|] | e | c] eqn:Hi0;
      simpl.
    + split.
      * intros [= <-]. exists 0%nat, i0. repeat split; auto. intros; lia.
      * intros (k & i & Hk & -> & Hfree & Hbefore). destruct k as [| k].
        -- simpl in Hk. by injection Hk as ->.
        -- specialize (Hbefore 0%nat i0 ltac:(lia) eq_refl). congruence.
    + rewrite IH. split.
      * intros (k & i & Hk & -> & Hfree & Hbefore).
        exists (S k), i. repeat split; auto.
        intros [| k'] j Hlt Hj; simpl in Hj.
        -- by injection Hj as <-.
        -- apply (Hbefore k'); [lia | done].
      * intros (k & i & Hk & -> & Hfree & Hbefore). destruct k as [| k].
        -- simpl in Hk. injection Hk as ->. congruence.
        -- exists k, i. repeat split; auto.
           intros k' j Hlt Hj. apply (Hbefore (S k')); [lia | done].
    + split; [discriminate |].
      intros (k & i & Hk & -> & Hfree & Hbefore). destruct k as [| k].
      * simpl in Hk. injection Hk as ->. congruence.
      * specialize (Hbefore 0%nat i0 ltac:(lia) eq_refl). congruence.
    + split; [discriminate |].
      intros (k & i & Hk & -> & Hfree & Hbefore). destruct k as [| k].
      * simpl in Hk. injection Hk as ->. congruence.
      * specialize (Hbefore 0%nat i0 ltac:(lia) eq_refl). congruence.
Qed.

Lemma find_free_port_loop_None w host start_port range s :
  fst (find_free_port_loop w host start_port range s) = Normal None <->
  forall (k : nat) (j : Z), range !! k = Some j ->
    port_report w host (start_port + j) = Normal false.
Proof.
  revert s. induction range as [| i0 rest IH]; intros s; simpl.
  - split; [| reflexivity]. intros _ k j Hk. by destruct k.
  - unfold bind. rewrite check_port_available_run.
    destruct (port_report w host (start_port + i0)) as [[|] | e | c] eqn:Hi0;
      simpl.
    + split; [discriminate |]. intros H.
      specialize (H 0%nat i0 eq_refl). congruence.
    + rewrite IH. split.
      * intros H [| k] j Hk; simpl in Hk.
        -- by injection Hk as <-.
        -- by apply (H k).
      * intros H k j Hk. by apply (H (S k)).
    + split; [discriminate |]. intros H.
      specialize (H 0%nat i0 eq_refl). congruence.
    + split; [discriminate |]. intros H.
      specialize (H 0%nat i0 eq_refl). congruence.
Qed.

(** The search probes and does nothing else; its answer does not depend on
    the state it is run in. *)
Lemma tame_check_port_available w host port :
  tame (fun e => is_connect_event e = true) (check_port_available w host port).
Proof.
  exists (port_report w host port); intros s. exists [Connect host port].
  split; [apply check_port_available_run | by repeat constructor].
Qed.

Lemma tame_find_free_port w host start_port max_attempts :
  tame (fun e => is_connect_event e = true)
       (find_free_port w host start_port max_attempts).
Proof.
  unfold find_free_port. induction (seqZ 0 max_attempts) as [| i rest IH]; simpl.
  - apply tame_ret.
  - apply tame_bind; [apply tame_check_port_available |].
    intros [|]; [apply tame_ret | apply IH].
Qed.

Lemma find_free_port_run w host start_port max_attempts s :
  exists l,
    find_free_port w host start_port max_attempts s =
    (free_port_search w host start_port max_attempts, extend s l) /\
    Forall (fun e => is_connect_event e = true) l.
Proof. apply tame_run, tame_find_free_port. Qed.

Lemma find_free_port_Some w host start_port max_attempts s p :
  fst (find_free_port w host start_port max_attempts s) = Normal (Some p) <->
  exists i, 0 <= i < max_attempts /\ p = start_port + i /\
    port_report w host p = Normal true /\
    forall j, 0 <= j < i ->
      port_report w host (start_port + j) = Normal false.
Proof.
  unfold find_free_port. rewrite find_free_port_loop_Some. split.
  - intros (k & i & Hk & -> & Hfree & Hbefore).
    apply lookup_seqZ in Hk as [-> Hlt].
    exists (0 + Z.of_nat k). repeat split; auto; try lia.
    intros j Hj. apply (Hbefore (Z.to_nat j)); [lia |].
    apply lookup_seqZ. lia.
  - intros (i & Hi & -> & Hfree & Hbefore).
    exists (Z.to_nat i), i. repeat split; auto.
    + apply lookup_seqZ. lia.
    + intros k' j Hlt Hj. apply lookup_seqZ in Hj as [-> _].
      apply Hbefore. lia.
Qed.

Lemma find_free_port_None w host start_port max_attempts s :
  fst (find_free_port w host start_port max_attempts s) = Normal None <->
  forall j, 0 <= j < max_attempts ->
    port_report w host (start_port + j) = Normal false.
Proof.
  unfold find_free_port. rewrite find_free_port_loop_None. split.
  - intros H j Hj. apply (H (Z.to_nat j)). apply lookup_seqZ. lia.
  - intros H k j Hk. apply lookup_seqZ in Hk as [-> Hlt]. apply H. lia.
Qed.

(** C1. The search returns the first port of [start_port],
    [start_port + 1], ..., [start_port + max_attempts - 1] that the probe
    reports free, and none when the probe reports every port of the range
    taken; so the search from 8000 with ten attempts returns 8000 when 8000
    is free and none when 8000..8009 are all taken. *)
Theorem find_free_port_first_free (w : World) (host : string)
  (start_port max_attempts : Z) (s : State) :
  (forall p,
     fst (find_free_port w host start_port max_attempts s) = Normal (Some p) <->
     exists i, 0 <= i < max_attempts /\ p = start_port + i /\
       port_report w host p = Normal true /\
       forall j, 0 <= j < i ->
         port_report w host (start_port + j) = Normal false) /\
  (fst (find_free_port w host start_port max_attempts s) = Normal None <->
   forall j, 0 <= j < max_attempts ->
     port_report w host (start_port + j) = Normal false) /\
  (port_report w host 8000 = Normal true ->
   fst (find_free_port w host 8000 10 s) = Normal (Some 8000)) /\
  ((forall p, 8000 <= p <= 8009 -> port_report w host p = Normal false) ->
   fst (find_free_port w host 8000 10 s) = Normal None).
Proof.
  split; [intros p; apply find_free_port_Some |].
  split; [apply find_free_port_None | split].
  - intros Hfree. apply find_free_port_Some.
    exists 0. repeat split; auto; lia.
  - intros Hall. apply find_free_port_None. intros j Hj. apply Hall. lia.
Qed.

(** On a machine whose ports 8000..8002 are taken the search from 8000
    comes back with 8003. *)
Lemma find_free_port_first_free_witness :
  fst (find_free_port (launcher_world 8003 0) "localhost" 8000 10 (boot ∅))
  = Normal (Some 8003).
Proof.
  apply (find_free_port_first_free (launcher_world 8003 0) "localhost" 8000 10).
  exists 3. repeat split; try lia.
  intros j Hj.
  assert (j = 0 \/ j = 1 \/ j = 2) as [-> | [-> | ->]] by lia; reflexivity.
Defined.

(** ** The helpers of the port reaper *)

(** Steps through a computation built from the primitives, leaving the
    conditions on the events it may log. *)
Ltac tame_handler :=
  let e := fresh "e" in
  let k := fresh "k" in
  let Hk := fresh "Hk" in
  intros e k Hk;
  repeat match type of Hk with
         | (if ?b then _ else _) = _ => destruct b
         end;
  try discriminate; injection Hk as <-.

Ltac tame_step :=
  first
    [ apply tame_ret | apply tame_raise | apply tame_sys_exit
    | apply tame_of_answer
    | apply tame_print | apply tame_perform
    | apply tame_subprocess_run_check | apply tame_subprocess_run
    | apply tame_connect_ex | apply tame_input
    | apply tame_bind; [| intros ?]
    | apply tame_try_except; [| tame_handler]
    | match goal with
      | |- tame _ (if ?b then _ else _) => destruct b
      | |- tame _ (match ?x with _ => _ end) => destruct x
      end ].

Ltac tame_auto := repeat tame_step; try (intros; reflexivity).

Lemma tame_netstat_scan P port lines : tame P (KillPort.netstat_scan port lines).
Proof.
  induction lines as [| line rest IH]; simpl; [apply tame_ret |].
  repeat match goal with
         | |- tame _ (if ?b then _ else _) => destruct b
         end; try apply IH.
  tame_auto.
Qed.

Lemma tame_find_process_on_port w port :
  tame (fun e => is_lookup_event e = true) (KillPort.find_process_on_port w port).
Proof.
  unfold KillPort.find_process_on_port.
  destruct (String.eqb (platform_system w) "Windows").
  - apply tame_try_except; [| tame_handler; tame_auto].
    apply tame_bind; [tame_auto |]. intros r. apply tame_netstat_scan.
  - tame_auto.
Qed.

Lemma tame_get_process_info w pid :
  tame (fun e => is_lookup_event e = true) (KillPort.get_process_info w pid).
Proof.
  unfold KillPort.get_process_info.
  destruct (String.eqb (platform_system w) "Windows"); tame_auto.
Qed.

Lemma tame_kill_process w pid :
  tame (fun e => e = Stdout EmptyString \/ is_kill_event e = true
                 \/ is_stdout_event e = true)
       (KillPort.kill_process w pid).
Proof.
  unfold KillPort.kill_process.
  destruct (String.eqb (platform_system w) "Windows"); tame_auto;
    intros; right; auto.
Qed.

Lemma find_process_on_port_run w port s :
  exists l,
    KillPort.find_process_on_port w port s = (pid_on_port w port, extend s l) /\
    Forall (fun e => is_lookup_event e = true) l.
Proof. apply tame_run, tame_find_process_on_port. Qed.

Lemma get_process_info_run w pid s :
  exists l,
    KillPort.get_process_info w pid s = (process_info w pid, extend s l) /\
    Forall (fun e => is_lookup_event e = true) l.
Proof. apply tame_run, tame_get_process_info. Qed.

(** [kill_process] spawns its command first. *)
Lemma kill_process_unfold w pid s :
  KillPort.kill_process w pid s =
  let s1 := extend s [Subprocess (kill_command w pid) (environ s)] in
  match subprocess_exec w (kill_command w pid) with
  | Returns r => (Normal (returncode r =? 0), s1)
  | Throws e =>
      if is_CalledProcessError e then (Normal false, s1)
      else if is_Exception e then
        (Normal false,
         extend s1 [Stdout ("Ошибка при завершении процесса: " ++ exn_str e)])
      else (Raised e, s1)
  end.
Proof.
  unfold KillPort.kill_process, kill_command.
  destruct (String.eqb (platform_system w) "Windows");
    unfold subprocess_run_check, subprocess_run, try_except, bind, get_environ,
      perform, of_answer; simpl;
    (match goal with
     | |- context [subprocess_exec w ?c] =>
         destruct (subprocess_exec w c) as [r | e]
     end; simpl;
     [ destruct (returncode r =? 0); reflexivity
     | destruct (is_CalledProcessError e); [reflexivity |];
       destruct (is_Exception e); reflexivity ]).
Qed.

(** C4. Whatever the pid, [kill_process] ends with a boolean as long as
    the termination command ends with an exit status or fails with an
    [Exception]: true for exit status 0, false for any other exit status
    (such as the one [kill] gives for a pid that does not exist) and false
    when the command cannot be run at all. *)
Theorem kill_process_never_raises (w : World) (pid : Z) (s : State) :
  (forall r, subprocess_exec w (kill_command w pid) = Returns r ->
     returncode r = 0 ->
     fst (KillPort.kill_process w pid s) = Normal true) /\
  (forall r, subprocess_exec w (kill_command w pid) = Returns r ->
     returncode r <> 0 ->
     fst (KillPort.kill_process w pid s) = Normal false) /\
  (forall e, subprocess_exec w (kill_command w pid) = Throws e ->
     is_Exception e = true ->
     fst (KillPort.kill_process w pid s) = Normal false) /\
  ((forall e, subprocess_exec w (kill_command w pid) = Throws e ->
      is_Exception e = true) ->
   exists b, fst (KillPort.kill_process w pid s) = Normal b).
Proof.
  rewrite kill_process_unfold. simpl.
  repeat split.
  - intros r -> Hr. simpl. by rewrite Hr.
  - intros r -> Hr. simpl. by destruct (Z.eqb_spec (returncode r) 0).
  - intros e -> He. rewrite He. by destruct (is_CalledProcessError e).
  - intros H. destruct (subprocess_exec w (kill_command w pid)) as [r | e].
    + by eexists.
    + rewrite (H e eq_refl). destruct (is_CalledProcessError e); by eexists.
Qed.

(** What is no [Exception] is no failure of the command: a Ctrl+C that
    arrives while the command runs goes through [kill_process]. *)
Lemma kill_process_interrupted w pid s e :
  subprocess_exec w (kill_command w pid) = Throws e ->
  is_Exception e = false ->
  fst (KillPort.kill_process w pid s) = Raised e.
Proof.
  intros He Hno. rewrite kill_process_unfold, He. cbv zeta.
  assert (is_CalledProcessError e = false) as ->.
  { unfold is_Exception in Hno. unfold is_CalledProcessError.
    by destruct (exn_cls e). }
  by rewrite Hno.
Qed.

(** [kill -9] of a pid that no process has ends with status 1, and
    [kill_process] answers false; where the [kill] tool is missing it
    answers false as well. *)
Lemma kill_process_never_raises_witness :
  fst (KillPort.kill_process orphan_world 4242 (boot ∅)) = Normal false /\
  fst (KillPort.kill_process offline_world 4242 (boot ∅)) = Normal false /\
  fst (KillPort.kill_process (reaper_world [] "y") 4242 (boot ∅)) = Normal true.
Proof.
  destruct (kill_process_never_raises orphan_world 4242 (boot ∅))
    as (_ & Hnz & _ & _).
  destruct (kill_process_never_raises offline_world 4242 (boot ∅))
    as (_ & _ & Herr & _).
  destruct (kill_process_never_raises (reaper_world [] "y") 4242 (boot ∅))
    as (Hz & _ & _ & _).
  split; [| split].
  - apply (Hnz {| returncode := 1; stdout := EmptyString |});
      [reflexivity | simpl; lia].
  - apply (Herr no_such_file); reflexivity.
  - apply (Hz {| returncode := 0; stdout := EmptyString |}); reflexivity.
Defined.

(** ** Stepping through a run *)

Lemma bind_print {B} line (k : unit -> M B) s :
  bind (print line) k s = k tt (extend s [Stdout line]).
Proof. reflexivity. Qed.

Lemma bind_perform {B} e (k : unit -> M B) s :
  bind (perform e) k s = k tt (extend s [e]).
Proof. reflexivity. Qed.

Lemma bind_returns {A B} (a : A) (k : A -> M B) s :
  bind (of_answer (Returns a)) k s = k a s.
Proof. reflexivity. Qed.

Lemma bind_throws {A B} e (k : A -> M B) s :
  bind (of_answer (Throws e)) k s = (Raised e, s).
Proof. reflexivity. Qed.

Lemma bind_bind {A B C} (m : M A) (k : A -> M B) (k' : B -> M C) s :
  bind (bind m k) k' s = bind m (fun a => bind (k a) k') s.
Proof. unfold bind. destruct (m s) as [[a | e | c] s']; reflexivity. Qed.

Lemma bind_run {A B} (m : M A) (k : A -> M B) s r s' :
  m s = (r, s') ->
  bind m k s =
  match r with
  | Normal a => k a s'
  | Raised e => (Raised e, s')
  | Exited c => (Exited c, s')
  end.
Proof. intros E. unfold bind. rewrite E. reflexivity. Qed.

Lemma run_print line s : print line s = (Normal tt, extend s [Stdout line]).
Proof. reflexivity. Qed.

Lemma bind_connect_ex {B} w host port (k : Z -> M B) s :
  bind (connect_ex w host port) k s =
  match socket_connect_ex w host port with
  | Returns r => k r (extend s [Connect host port])
  | Throws e => (Raised e, extend s [Connect host port])
  end.
Proof.
  unfold connect_ex. rewrite bind_bind, bind_perform.
  destruct (socket_connect_ex w host port); reflexivity.
Qed.

Lemma bind_input {B} w prompt (k : string -> M B) s :
  bind (input w prompt) k s =
  match stdin_input w prompt with
  | Returns r => k r (extend s [Prompt prompt])
  | Throws e => (Raised e, extend s [Prompt prompt])
  end.
Proof.
  unfold input. rewrite bind_bind, bind_perform.
  destruct (stdin_input w prompt); reflexivity.
Qed.

Lemma if_truthy_Some n : n <> 0 -> if_truthy (Some n) = Some n.
Proof. intros H. simpl. by destruct (Z.eqb_spec n 0). Qed.

(** ** What the lookups leave in the log *)

Lemma lookup_not_kill e : is_lookup_event e = true -> is_kill_event e = false.
Proof.
  destruct e as [| | | [| c cmd] env | | | | |]; simpl; try done.
  repeat match goal with
         | |- context [String.eqb c ?x] => destruct (String.eqb_spec c x); subst
         end; simpl; done.
Qed.

Lemma lookup_not_prompt e : is_lookup_event e = true -> is_prompt_event e = false.
Proof. by destruct e. Qed.

Lemma lookup_quiet l :
  Forall (fun e => is_lookup_event e = true) l ->
  kill_invoked l = false /\ prompted l = false.
Proof.
  induction 1 as [| e l He _ [IH1 IH2]]; [done |].
  unfold kill_invoked, prompted in *; simpl.
  by rewrite lookup_not_kill, lookup_not_prompt, IH1, IH2.
Qed.

Lemma kill_invoked_app l1 l2 :
  kill_invoked (l1 ++ l2) = kill_invoked l1 || kill_invoked l2.
Proof. apply existsb_app. Qed.

Lemma prompted_app l1 l2 : prompted (l1 ++ l2) = prompted l1 || prompted l2.
Proof. apply existsb_app. Qed.

Lemma kill_command_is_kill w pid env :
  is_kill_event (Subprocess (kill_command w pid) env) = true.
Proof.
  unfold kill_command. by destruct (String.eqb (platform_system w) "Windows").
Qed.

(** [kill_process] spawns its command, prints at most a diagnostic, and
    does nothing else. *)
Lemma kill_process_run w pid s :
  exists r tail,
    KillPort.kill_process w pid s =
      (r, extend s (Subprocess (kill_command w pid) (environ s) :: tail)) /\
    prompted tail = false.
Proof.
  rewrite kill_process_unfold. cbv zeta.
  destruct (subprocess_exec w (kill_command w pid)) as [r | e].
  - by exists (Normal (returncode r =? 0)), [].
  - destruct (is_CalledProcessError e); [by exists (Normal false), [] |].
    destruct (is_Exception e); [| by exists (Raised e), []].
    eexists (Normal false), [_]. rewrite extend_extend. done.
Qed.

Ltac run_helper :=
  match goal with
  | |- context [bind (KillPort.find_process_on_port ?w ?p) _ ?s] =>
      let l := fresh "lfind" in
      let E := fresh "E" in
      let HF := fresh "Hfind" in
      destruct (find_process_on_port_run w p s) as (l & E & HF);
      rewrite (bind_run _ _ _ _ _ E); clear E;
      apply lookup_quiet in HF; destruct HF as [? ?]
  | |- context [bind (KillPort.get_process_info ?w ?p) _ ?s] =>
      let l := fresh "linfo" in
      let E := fresh "E" in
      let HF := fresh "Hinfo" in
      destruct (get_process_info_run w p s) as (l & E & HF);
      rewrite (bind_run _ _ _ _ _ E); clear E;
      apply lookup_quiet in HF; destruct HF as [? ?]
  | |- context [bind (KillPort.kill_process ?w ?p) _ ?s] =>
      let r := fresh "killed" in
      let l := fresh "lkill" in
      let E := fresh "E" in
      let HF := fresh "Hkill" in
      destruct (kill_process_run w p s) as (r & l & E & HF);
      rewrite (bind_run _ _ _ _ _ E); clear E
  end.

Ltac run :=
  repeat (first
    [ rewrite bind_bind
    | rewrite bind_print
    | rewrite bind_perform
    | rewrite bind_returns
    | rewrite bind_throws
    | rewrite bind_connect_ex
    | rewrite bind_input
    | rewrite run_print
    | run_helper ]; cbv beta).

Ltac quiet_log :=
  simpl; rewrite ?kill_invoked_app, ?prompted_app; simpl;
  repeat match goal with
         | H : kill_invoked ?l = false |- _ => rewrite H
         | H : prompted ?l = false |- _ => rewrite H
         end; simpl.

(** ** The confirmation flow of the port reaper *)

(** Every termination attempt follows an assenting answer: the port was
    found taken, a pid and the process record were found, and the operator's
    answer, put in lower case, is [y]. *)
Lemma main_kill_needs_assent w env :
  kill_invoked (log (snd (KillPort.main w (boot env)))) = true ->
  exists port pid info response,
    KillPort.port_argument w = Returns port /\
    socket_connect_ex w "localhost" port = Returns 0 /\
    pid_on_port w port = Normal (Some pid) /\ pid <> 0 /\
    process_info w pid = Normal (Some info) /\
    stdin_input w "Завершить процесс? (y/n): " = Returns response /\
    lower response = "y".
Proof.
  unfold KillPort.main.
  destruct (KillPort.port_argument w) as [port | e] eqn:Hport; run;
    [| discriminate].
  destruct (socket_connect_ex w "localhost" port) as [r | e] eqn:Hsock;
    [| discriminate].
  destruct (Z.eqb_spec r 0) as [-> | Hr]; run; [| discriminate].
  destruct (pid_on_port w port) as [[pid |] | e | c] eqn:Hpid;
    try (quiet_log; discriminate).
  simpl if_truthy. destruct (Z.eqb_spec pid 0) as [-> | Hpid0]; run;
    [quiet_log; discriminate |].
  destruct (process_info w pid) as [[info |] | e | c] eqn:Hinfo; run;
    try (quiet_log; discriminate).
  destruct (stdin_input w "Завершить процесс? (y/n): ") as [response | e]
    eqn:Hresp; [| quiet_log; discriminate].
  destruct (String.eqb_spec (lower response) "y") as [Hy | Hy]; run;
    [| quiet_log; discriminate].
  intros _. exists port, pid, info, response. done.
Qed.

Lemma lower_char_y c : lower_char c = "y"%char -> c = "y"%char \/ c = "Y"%char.
Proof.
  destruct c as [[|] [|] [|] [|] [|] [|] [|] [|]]; vm_compute;
    intros H; try discriminate H; auto.
Qed.

Lemma lower_is_y response :
  lower response = "y" <-> response = "y" \/ response = "Y".
Proof.
  split.
  - destruct response as [| c [| c' rest]]; simpl; try discriminate.
    intros [= H]. destruct (lower_char_y c H) as [-> | ->]; auto.
  - by intros [-> | ->].
Qed.

(** C2, as the code has it.  With the port taken, a pid found and the
    process record retrieved, [kill_process] is called exactly when the
    operator's answer put in lower case is [y], that is when the answer is
    [y] or [Y]; after any other answer the run prints that it was cancelled
    and ends without a termination attempt. *)
Theorem confirmation_decides_kill (w : World) (env : gmap string string)
  (port pid : Z) (info : KillPort.ProcessInfo) (response : string) :
  KillPort.port_argument w = Returns port ->
  socket_connect_ex w "localhost" port = Returns 0 ->
  pid_on_port w port = Normal (Some pid) -> pid <> 0 ->
  process_info w pid = Normal (Some info) ->
  stdin_input w "Завершить процесс? (y/n): " = Returns response ->
  let final := snd (KillPort.main w (boot env)) in
  (kill_invoked (log final) = true <-> response = "y" \/ response = "Y") /\
  (response = "y" \/ response = "Y" ->
   In (Subprocess (kill_command w pid) env) (log final)) /\
  (~ (response = "y" \/ response = "Y") ->
   fst (KillPort.main w (boot env)) = Normal tt /\
   In (Stdout "Отменено.") (log final) /\
   kill_invoked (log final) = false).
Proof.
  intros Hport Hsock Hpid Hnz Hinfo Hresp final.
  assert (Hyes : response = "y" \/ response = "Y" ->
                 In (Subprocess (kill_command w pid) env) (log final)).
  { intros Hy. apply lower_is_y in Hy. subst final. unfold KillPort.main.
    rewrite Hport. run. rewrite Hsock. simpl (0 =? 0). cbv iota. run.
    rewrite Hpid, if_truthy_Some by done. run. rewrite Hinfo. run.
    rewrite Hresp, Hy. simpl String.eqb. cbv iota. run.
    destruct killed as [[|] | e | c]; run; simpl;
      rewrite !in_app_iff; simpl; tauto. }
  assert (Hno : ~ (response = "y" \/ response = "Y") ->
                fst (KillPort.main w (boot env)) = Normal tt /\
                In (Stdout "Отменено.") (log final) /\
                kill_invoked (log final) = false).
  { intros Hy. rewrite <- lower_is_y in Hy. subst final. unfold KillPort.main.
    rewrite Hport. run. rewrite Hsock. simpl (0 =? 0). cbv iota. run.
    rewrite Hpid, if_truthy_Some by done. run. rewrite Hinfo. run.
    rewrite Hresp. destruct (String.eqb_spec (lower response) "y"); [done |].
    run. split; [done |]. split; [| by quiet_log].
    simpl. rewrite !in_app_iff. simpl. tauto. }
  split; [| split]; [| exact Hyes | exact Hno].
  split.
  - intros Hk. apply main_kill_needs_assent in Hk
      as (port' & pid' & info' & response' & Hport' & _ & _ & _ & _ & Hresp' & Hy).
    apply lower_is_y. congruence.
  - intros Hy. specialize (Hyes Hy).
    unfold kill_invoked. apply existsb_exists.
    eexists. split; [exact Hyes | apply kill_command_is_kill].
Qed.

(** On the sample machine the answer [y] has process 4242 killed. *)
Lemma confirmation_decides_kill_witness :
  kill_invoked
    (log (snd (KillPort.main (reaper_world ["kill_port.py"] "y") (boot ∅))))
  = true.
Proof.
  set (w := reaper_world ["kill_port.py"] "y").
  set (info := {| KillPort.name := "python3"; KillPort.pid := 4242;
                  KillPort.path := "python3 -m http.server 8000" |}).
  assert (Hport : KillPort.port_argument w = Returns 8000) by reflexivity.
  assert (Hsock : socket_connect_ex w "localhost" 8000 = Returns 0)
    by reflexivity.
  assert (Hpid : pid_on_port w 8000 = Normal (Some 4242))
    by (vm_compute; reflexivity).
  assert (Hnz : 4242 <> 0) by lia.
  assert (Hinfo : process_info w 4242 = Normal (Some info))
    by (vm_compute; reflexivity).
  assert (Hresp : stdin_input w "Завершить процесс? (y/n): " = Returns "y")
    by reflexivity.
  destruct (confirmation_decides_kill w ∅ 8000 4242 info "y"
              Hport Hsock Hpid Hnz Hinfo Hresp) as [[_ H] _].
  apply H. by left.
Defined.

(** C2, as the claim has it, fails: the answer [Y] is not the token [y],
    and yet process 4242 is killed. *)
Lemma uppercase_answer_kills :
  let w := reaper_world ["kill_port.py"] "Y" in
  KillPort.port_argument w = Returns 8000 /\
  socket_connect_ex w "localhost" 8000 = Returns 0 /\
  pid_on_port w 8000 = Normal (Some 4242) /\
  process_info w 4242 =
    Normal (Some {| KillPort.name := "python3"; KillPort.pid := 4242;
                    KillPort.path := "python3 -m http.server 8000" |}) /\
  stdin_input w "Завершить процесс? (y/n): " = Returns "Y" /\
  "Y" <> "y" /\
  In (Subprocess ["kill"; "-9"; "4242"] ∅)
     (log (snd (KillPort.main w (boot ∅)))) /\
  kill_invoked (log (snd (KillPort.main w (boot ∅)))) = true.
Proof.
  repeat split; try reflexivity; try discriminate.
  vm_compute. tauto.
Qed.

(** C9. A termination attempt is made only after [get_process_info] has
    returned a record; when a pid is found and the record is not, the run
    reports the pid and ends, without asking the operator and without a
    termination attempt. *)
Theorem no_kill_without_process_info (w : World) (env : gmap string string) :
  let final := snd (KillPort.main w (boot env)) in
  (kill_invoked (log final) = true ->
   exists port pid info,
     pid_on_port w port = Normal (Some pid) /\
     process_info w pid = Normal (Some info)) /\
  (forall port pid,
     KillPort.port_argument w = Returns port ->
     socket_connect_ex w "localhost" port = Returns 0 ->
     pid_on_port w port = Normal (Some pid) -> pid <> 0 ->
     process_info w pid = Normal None ->
     fst (KillPort.main w (boot env)) = Normal tt /\
     In (Stdout ("Найден процесс с PID " ++ str pid
                 ++ ", но не удалось получить информацию")) (log final) /\
     prompted (log final) = false /\
     kill_invoked (log final) = false).
Proof.
  intros final. split.
  - intros Hk. apply main_kill_needs_assent in Hk
      as (port & pid & info & response & _ & _ & Hpid & _ & Hinfo & _).
    by exists port, pid, info.
  - intros port pid Hport Hsock Hpid Hnz Hinfo. subst final.
    unfold KillPort.main.
    rewrite Hport. run. rewrite Hsock. simpl (0 =? 0). cbv iota. run.
    rewrite Hpid, if_truthy_Some by done. run. rewrite Hinfo. run.
    split; [done |]. split; [| split; by quiet_log].
    simpl. rewrite !in_app_iff. simpl. tauto.
Qed.

(** Where [ps] knows nothing of process 4242 the run reports the pid and
    stops there. *)
Lemma no_kill_without_process_info_witness :
  fst (KillPort.main orphan_world (boot ∅)) = Normal tt /\
  In (Stdout "Найден процесс с PID 4242, но не удалось получить информацию")
     (log (snd (KillPort.main orphan_world (boot ∅)))) /\
  prompted (log (snd (KillPort.main orphan_world (boot ∅)))) = false /\
  kill_invoked (log (snd (KillPort.main orphan_world (boot ∅)))) = false.
Proof.
  destruct (no_kill_without_process_info orphan_world ∅) as [_ H].
  apply (H 8000 4242); try reflexivity. lia.
Defined.

(** ** Which exceptions leave a helper *)

Section Safe.
Context (Q : exn -> Prop).

Lemma safe_ret {A} (a : A) : safe Q (ret a).
Proof. by intros s. Qed.

Lemma safe_raise {A} e : Q e -> safe Q (@raise A e).
Proof. by intros He s. Qed.

Lemma safe_print line : safe Q (print line).
Proof. by intros s. Qed.

Lemma safe_of_answer {A} (a : answer A) :
  (forall e, a = Throws e -> Q e) -> safe Q (of_answer a).
Proof. intros H s. destruct a as [v | e]; simpl; auto. Qed.

Lemma safe_bind {A B} (m : M A) (k : A -> M B) :
  safe Q m -> (forall a, safe Q (k a)) -> safe Q (bind m k).
Proof.
  intros Hm Hk s. unfold bind. specialize (Hm s).
  destruct (m s) as [[a | e | c] s']; simpl in *; auto. apply Hk.
Qed.

Lemma safe_try_except {A} (Q' : exn -> Prop) (body : M A) handler :
  safe Q' body ->
  (forall e, Q' e ->
     match handler e with Some k => safe Q k | None => Q e end) ->
  safe Q (try_except body handler).
Proof.
  intros Hm Hh s. unfold try_except. specialize (Hm s).
  destruct (body s) as [[a | e | c] s']; simpl in *; auto.
  specialize (Hh e Hm). destruct (handler e) as [k |]; [apply Hh | done].
Qed.

Lemma safe_subprocess_run w cmd :
  (forall e, subprocess_exec w cmd = Throws e -> Q e) ->
  safe Q (subprocess_run w cmd).
Proof.
  intros H s. unfold subprocess_run, bind, get_environ, perform.
  destruct (subprocess_exec w cmd) as [r | e] eqn:E; simpl; auto.
Qed.
End Safe.

Lemma int_raises_ValueError s e : int s = Throws e -> is_Exception e = true.
Proof. unfold int. destruct (int_literal s); [discriminate |]. by intros [= <-]. Qed.

Ltac safe_handler :=
  let e := fresh "e" in
  let He := fresh "He" in
  intros e He; simpl in He;
  repeat match goal with
         | |- context [if ?b then _ else _] => destruct b eqn:?
         end;
  try congruence.

Ltac safe_step :=
  first
    [ apply safe_ret | apply safe_print
    | apply safe_subprocess_run
    | apply safe_of_answer; apply int_raises_ValueError
    | apply safe_bind; [| intros ?]
    | match goal with
      | |- safe _ (if ?b then _ else _) => destruct b
      end ].

Lemma safe_netstat_scan port lines :
  safe (fun e => is_Exception e = true) (KillPort.netstat_scan port lines).
Proof.
  induction lines as [| line rest IH]; simpl; [apply safe_ret |].
  repeat match goal with
         | |- safe _ (if ?b then _ else _) => destruct b
         end; try apply IH.
  repeat safe_step.
Qed.

(** The two lookups catch everything but an interrupt. *)
Lemma find_process_on_port_total w port :
  no_interrupt w -> exists pid, pid_on_port w port = Normal pid.
Proof.
  intros Hw.
  assert (H : safe (fun _ => False) (KillPort.find_process_on_port w port)).
  { unfold KillPort.find_process_on_port.
    destruct (String.eqb (platform_system w) "Windows");
      apply (safe_try_except _ (fun e => is_Exception e = true)).
    - apply safe_bind; [apply safe_subprocess_run, Hw |].
      intros r. apply safe_netstat_scan.
    - intros e He. rewrite He. repeat safe_step.
    - repeat safe_step. apply Hw.
    - intros e He. rewrite He.
      destruct (is_FileNotFoundError e); repeat safe_step. }
  specialize (H (boot ∅)). unfold pid_on_port.
  destruct (fst (KillPort.find_process_on_port w port (boot ∅)));
    [by eexists | done | done].
Qed.

Lemma get_process_info_total w pid :
  no_interrupt w -> exists info, process_info w pid = Normal info.
Proof.
  intros Hw.
  assert (H : safe (fun _ => False) (KillPort.get_process_info w pid)).
  { unfold KillPort.get_process_info.
    destruct (String.eqb (platform_system w) "Windows");
      apply (safe_try_except _ (fun e => is_Exception e = true));
      try (intros e He; rewrite He; repeat safe_step);
      repeat safe_step; apply Hw. }
  specialize (H (boot ∅)). unfold process_info.
  destruct (fst (KillPort.get_process_info w pid (boot ∅)));
    [by eexists | done | done].
Qed.


(** ** How the port reaper ends *)


(** [main] has no handler around the probe and the prompt either. *)
Lemma main_lets_probe_errors_through w env port e :
  KillPort.port_argument w = Returns port ->
  socket_connect_ex w "localhost" port = Throws e ->
  fst (KillPort.main w (boot env)) = Raised e.
Proof.
  intros Hport Hsock. unfold KillPort.main. rewrite Hport. run.
  by rewrite Hsock.
Qed.






(** ** The response headers of the built-in server *)

Lemma send_header_live keyword value h :
  String.eqb (StartServerPython.request_version h) "HTTP/0.9" = false ->
  StartServerPython.send_header keyword value h =
  {| StartServerPython.request_version := StartServerPython.request_version h;
     StartServerPython.headers_buffer :=
       (StartServerPython.headers_buffer h ++ [(keyword, value)])%list;
     StartServerPython.wfile := StartServerPython.wfile h |}.
Proof. intros Hv. unfold StartServerPython.send_header. by rewrite Hv. Qed.

Lemma send_own_headers own_headers h :
  String.eqb (StartServerPython.request_version h) "HTTP/0.9" = false ->
  fold_left (fun h kv => StartServerPython.send_header (fst kv) (snd kv) h)
            own_headers h =
  {| StartServerPython.request_version := StartServerPython.request_version h;
     StartServerPython.headers_buffer :=
       (StartServerPython.headers_buffer h ++ own_headers)%list;
     StartServerPython.wfile := StartServerPython.wfile h |}.
Proof.
  revert h. induction own_headers as [| [k v] rest IH]; intros h Hv; simpl.
  - rewrite app_nil_r. by destruct h.
  - rewrite send_header_live by done. rewrite IH by exact Hv.
    simpl. by rewrite <- app_assoc.
Qed.

(** An HTTP/0.9 request is answered without a header. *)
Lemma respond_http09 own_headers h :
  String.eqb (StartServerPython.request_version h) "HTTP/0.9" = true ->
  StartServerPython.respond own_headers h = h.
Proof.
  intros Hv. unfold StartServerPython.respond.
  assert (Hown :
    fold_left (fun h kv => StartServerPython.send_header (fst kv) (snd kv) h)
              own_headers h = h).
  { induction own_headers as [| [k v] rest IH]; simpl; [done |].
    unfold StartServerPython.send_header at 2. by rewrite Hv. }
  rewrite Hown.
  unfold StartServerPython.end_headers, StartServerPython.base_end_headers,
    StartServerPython.send_header. by rewrite !Hv.
Qed.

Lemma respond_unfold own_headers h :
  String.eqb (StartServerPython.request_version h) "HTTP/0.9" = false ->
  StartServerPython.respond own_headers h =
  {| StartServerPython.request_version := StartServerPython.request_version h;
     StartServerPython.headers_buffer := [];
     StartServerPython.wfile :=
       (StartServerPython.wfile h ++
        [StartServerPython.headers_buffer h ++ own_headers ++
         [("X-Content-Type-Options", "nosniff");
          ("X-Frame-Options", "SAMEORIGIN");
          ("X-XSS-Protection", "1; mode=block")]])%list |}.
Proof.
  intros Hv. unfold StartServerPython.respond.
  rewrite send_own_headers by done.
  unfold StartServerPython.end_headers. cbv zeta.
  rewrite (send_header_live "X-Content-Type-Options") by exact Hv.
  rewrite (send_header_live "X-Frame-Options") by exact Hv.
  rewrite (send_header_live "X-XSS-Protection") by exact Hv.
  unfold StartServerPython.base_end_headers.
  cbn [StartServerPython.request_version StartServerPython.headers_buffer
       StartServerPython.wfile].
  rewrite Hv. by rewrite <- !app_assoc.
Qed.




(** ** Stepping through a launcher *)

Lemma bind_get_PORT {B} (k : Z -> M B) s : bind get_PORT k s = k (PORT s) s.
Proof. reflexivity. Qed.

Lemma bind_put_PORT {B} p (k : unit -> M B) s :
  bind (put_PORT p) k s = k tt (set_PORT p s).
Proof. reflexivity. Qed.

Lemma bind_put_environ {B} key v (k : unit -> M B) s :
  bind (put_environ key v) k s = k tt (set_environ key v s).
Proof. reflexivity. Qed.

Lemma bind_sys_exit {A B} c (k : A -> M B) s :
  bind (sys_exit c) k s = (Exited c, s).
Proof. reflexivity. Qed.

Lemma bind_check_port_available {B} w host port (k : bool -> M B) s :
  bind (check_port_available w host port) k s =
  match port_report w host port with
  | Normal free => k free (extend s [Connect host port])
  | Raised e => (Raised e, extend s [Connect host port])
  | Exited c => (Exited c, extend s [Connect host port])
  end.
Proof. apply bind_run, check_port_available_run. Qed.

Lemma tame_check_node_installed w :
  tame (fun e => is_connect_event e = false) (StartServer.check_node_installed w).
Proof. unfold StartServer.check_node_installed. tame_auto. Qed.

Lemma check_node_installed_run w s :
  exists l,
    StartServer.check_node_installed w s = (node_check w, extend s l) /\
    Forall (fun e => is_connect_event e = false) l.
Proof. apply tame_run, tame_check_node_installed. Qed.

Lemma subprocess_run_check_run w cmd s :
  subprocess_run_check w cmd s =
  (fst (subprocess_run_check w cmd (boot ∅)),
   extend s [Subprocess cmd (environ s)]).
Proof.
  unfold subprocess_run_check, subprocess_run, bind, get_environ, perform.
  destruct (subprocess_exec w cmd) as [r | e]; simpl; [| reflexivity].
  destruct (returncode r =? 0); reflexivity.
Qed.

(** The search never comes back with 0. *)
Lemma free_port_search_positive w host p :
  free_port_search w host 8000 10 = Normal (Some p) -> 8000 <= p < 8010.
Proof.
  unfold free_port_search. rewrite find_free_port_Some.
  intros (i & Hi & -> & _). lia.
Qed.

Lemma resolved_port_range w p : resolved_port w p -> 8000 <= p < 8010.
Proof.
  intros [[_ ->] | [_ H]]; [lia | by apply free_port_search_positive in H].
Qed.

Lemma resolved_port_unique w p q :
  resolved_port w p -> resolved_port w q -> p = q.
Proof. unfold resolved_port. intros [[? ?] | [? ?]] [[? ?] | [? ?]]; congruence. Qed.

Ltac run_launcher_helper :=
  match goal with
  | |- context [bind (StartServer.check_node_installed ?w) _ ?s] =>
      let l := fresh "lnode" in
      let E := fresh "E" in
      let HF := fresh "Hnode" in
      destruct (check_node_installed_run w s) as (l & E & HF);
      rewrite (bind_run _ _ _ _ _ E); clear E
  | |- context [bind (find_free_port ?w ?h ?p ?n) _ ?s] =>
      let l := fresh "lsearch" in
      let E := fresh "E" in
      let HF := fresh "Hsearch" in
      destruct (find_free_port_run w h p n s) as (l & E & HF);
      rewrite (bind_run _ _ _ _ _ E); clear E
  end.

Lemma bind_ret {A B} (a : A) (k : A -> M B) s : bind (ret a) k s = k a s.
Proof. reflexivity. Qed.

Lemma run_try_except {A} (body : M A) handler s r s' :
  body s = (r, s') ->
  try_except body handler s =
  match r with
  | Raised e =>
      match handler e with
      | Some k => k s'
      | None => (Raised e, s')
      end
  | _ => (r, s')
  end.
Proof. intros E. unfold try_except. rewrite E. by destruct r. Qed.

(** The [try] block of the tool-backed launcher. *)
Lemma server_command_run w (s : State) :
  (PORT <- get_PORT ;;
   subprocess_run_check w (StartServer.npx_command PORT) ;;
   ret tt) s =
  (match server_command w (PORT s) with
   | Normal _ => Normal tt
   | Raised e => Raised e
   | Exited c => Exited c
   end,
   extend s [Subprocess (StartServer.npx_command (PORT s)) (environ s)]).
Proof.
  rewrite bind_get_PORT.
  rewrite (bind_run _ _ _ _ _ (subprocess_run_check_run w _ s)).
  unfold server_command.
  by destruct (fst (subprocess_run_check w _ (boot ∅))).
Qed.

Ltac run_launcher :=
  cbn [negb];
  repeat (first
    [ rewrite bind_bind
    | rewrite bind_print
    | rewrite bind_perform
    | rewrite bind_ret
    | rewrite bind_returns
    | rewrite bind_throws
    | rewrite bind_get_PORT
    | rewrite bind_put_PORT
    | rewrite bind_put_environ
    | rewrite bind_sys_exit
    | rewrite bind_check_port_available
    | rewrite run_print
    | rewrite (run_try_except _ _ _ _ _ (server_command_run _ _))
    | run_launcher_helper ];
    cbv beta; cbn [PORT environ extend set_PORT set_environ negb]).

Lemma start_server_result w env :
  let launch p :=
    match server_command w p with
    | Normal _ => Normal tt
    | Raised e =>
        if is_CalledProcessError e then Exited 1
        else if is_KeyboardInterrupt e then Exited 0
        else Raised e
    | Exited c => Exited c
    end in
  fst (StartServer.start_server w (boot env)) =
  match node_check w with
  | Normal true =>
      match port_report w "localhost" 8000 with
      | Normal true => launch 8000
      | Normal false =>
          match free_port_search w "localhost" 8000 10 with
          | Normal (Some p) => launch p
          | Normal None => Exited 1
          | Raised e => Raised e
          | Exited c => Exited c
          end
      | Raised e => Raised e
      | Exited c => Exited c
      end
  | Normal false => Exited 1
  | Raised e => Raised e
  | Exited c => Exited c
  end.
Proof.
  intros launch. unfold StartServer.start_server, StartServer.print_header,
    StartServer.HOST, StartServer.DEFAULT_PORT.
  run_launcher.
  destruct (node_check w) as [[|] | e | c]; run_launcher; try reflexivity.
  destruct (port_report w "localhost" 8000) as [[|] | e | c]; run_launcher; try reflexivity.
  - subst launch. cbv beta. destruct (server_command w 8000) as [r | e | c]; try reflexivity.
    destruct (is_CalledProcessError e); [reflexivity|]. destruct (is_KeyboardInterrupt e); reflexivity.
  - destruct (free_port_search w "localhost" 8000 10) as [[p |] | e | c] eqn:Hfound; run_launcher; try reflexivity.
    apply free_port_search_positive in Hfound.
    rewrite if_truthy_Some by lia. run_launcher.
    subst launch. cbv beta. destruct (server_command w p) as [r | e | c]; try reflexivity.
    destruct (is_CalledProcessError e); [reflexivity|]. destruct (is_KeyboardInterrupt e); reflexivity.
Qed.

Lemma node_check_no_exit w c : node_check w <> Exited c.
Proof.
  unfold node_check.
  assert (H : safe (fun _ => True) (StartServer.check_node_installed w)).
  { unfold StartServer.check_node_installed.
    apply safe_bind.
    - apply (safe_try_except _ (fun _ => True)).
      + apply safe_bind; [by apply safe_subprocess_run |].
        intros res. destruct (returncode res =? 0); repeat safe_step.
      + intros e _. by destruct (is_FileNotFoundError e || is_TimeoutExpired e).
    - intros [|]; repeat safe_step. }
  specialize (H (boot ∅)). intros E. by rewrite E in H.
Qed.

Lemma port_report_no_exit w host port c : port_report w host port <> Exited c.
Proof.
  unfold port_report, check_port_available, try_except, bind, connect_ex,
    perform, of_answer.
  destruct (socket_connect_ex w host port) as [r | e]; simpl; [done |].
  by destruct (is_Exception e).
Qed.

Lemma free_port_search_no_exit w host start_port max_attempts c :
  free_port_search w host start_port max_attempts <> Exited c.
Proof.
  unfold free_port_search, find_free_port.
  generalize (boot ∅).
  induction (seqZ 0 max_attempts) as [| i rest IH]; intros s; simpl; [done |].
  rewrite bind_check_port_available.
  pose proof (port_report_no_exit w host (start_port + i)) as Hp.
  destruct (port_report w host (start_port + i)) as [[|] | e | c']; simpl;
    try done. by destruct (Hp c').
Qed.

Lemma server_command_cases w p :
  (exists res, subprocess_exec w (StartServer.npx_command p) = Returns res /\
               returncode res = 0 /\ server_command w p = Normal res) \/
  (exists res e, subprocess_exec w (StartServer.npx_command p) = Returns res /\
               returncode res <> 0 /\ server_command w p = Raised e /\
               is_CalledProcessError e = true) \/
  (exists e, subprocess_exec w (StartServer.npx_command p) = Throws e /\
             server_command w p = Raised e).
Proof.
  unfold server_command, subprocess_run_check, subprocess_run, bind,
    get_environ, perform.
  destruct (subprocess_exec w (StartServer.npx_command p)) as [res | e]; simpl.
  - destruct (Z.eqb_spec (returncode res) 0); simpl.
    + left. by exists res.
    + right; left. eexists res, _. done.
  - right; right. by exists e.
Qed.

Lemma CalledProcessError_not_interrupt e :
  is_CalledProcessError e = true -> is_KeyboardInterrupt e = false.
Proof. unfold is_CalledProcessError, is_KeyboardInterrupt. by destruct (exn_cls e). Qed.

Lemma server_command_no_exit w p c : server_command w p <> Exited c.
Proof.
  destruct (server_command_cases w p)
    as [(res & _ & _ & Hs) | [(res & e & _ & _ & Hs & _) | (e & _ & Hs)]];
    rewrite Hs; discriminate.
Qed.

(** How the [try] statement around the server command ends. *)
Lemma server_command_exit w p :
  let ending :=
    match server_command w p with
    | Normal _ => Normal tt
    | Raised e =>
        if is_CalledProcessError e then Exited 1
        else if is_KeyboardInterrupt e then Exited 0
        else Raised e
    | Exited c => Exited c
    end in
  (ending = Exited 1 <->
   exists e, server_command w p = Raised e /\ is_CalledProcessError e = true) /\
  (ending = Exited 0 <->
   exists e, server_command w p = Raised e /\ is_KeyboardInterrupt e = true).
Proof.
  intros ending. subst ending.
  pose proof (server_command_no_exit w p) as Hne.
  destruct (server_command w p) as [res | e | c]; [| | by destruct (Hne c)].
  - split; (split; [discriminate | by intros (e & ? & _)]).
  - destruct (is_CalledProcessError e) eqn:Hc.
    + split; split; try discriminate.
      * intros _. by exists e.
      * done.
      * intros (e' & [= <-] & Hk).
        rewrite (CalledProcessError_not_interrupt _ Hc) in Hk. discriminate.
    + destruct (is_KeyboardInterrupt e) eqn:Hk.
      * split; split; try discriminate; try done.
        -- intros (e' & [= <-] & Hc'). congruence.
        -- intros _. by exists e.
      * split; (split; [discriminate |]); intros (e' & [= <-] & ?); congruence.
Qed.

(** C7, as the code has it.  The tool-backed launcher leaves through
    [sys.exit(1)] exactly when the check for Node.js fails, or the default
    port is taken and the search finds no free port, or the server command
    fails with [CalledProcessError], which is what a non-zero exit status of
    the command becomes; it leaves through [sys.exit(0)] exactly when the
    server command is interrupted from the keyboard. *)
Theorem launcher_exit_status (w : World) (env : gmap string string) :
  let r := fst (StartServer.start_server w (boot env)) in
  (r = Exited 1 <->
     node_check w = Normal false \/
     (node_check w = Normal true /\
      port_report w "localhost" 8000 = Normal false /\
      free_port_search w "localhost" 8000 10 = Normal None) \/
     (node_check w = Normal true /\
      exists p e, resolved_port w p /\ server_command w p = Raised e /\
                  is_CalledProcessError e = true)) /\
  (r = Exited 0 <->
     node_check w = Normal true /\
     exists p e, resolved_port w p /\ server_command w p = Raised e /\
                 is_KeyboardInterrupt e = true) /\
  (forall p res,
     subprocess_exec w (StartServer.npx_command p) = Returns res ->
     returncode res <> 0 ->
     exists e, server_command w p = Raised e /\ is_CalledProcessError e = true).
Proof.
  intros r. subst r. rewrite start_server_result. cbv zeta.
  assert (Hat : forall p, resolved_port w p ->
    forall (C : exn -> Prop),
    (exists q e, resolved_port w q /\ server_command w q = Raised e /\ C e) <->
    (exists e, server_command w p = Raised e /\ C e)).
  { intros p Hp C. split.
    - intros (q & e & Hq & Hs & HC).
      rewrite (resolved_port_unique w q p Hq Hp) in Hs. by exists e.
    - intros (e & Hs & HC). by exists p, e. }
  assert (Hnone : (exists p : Z, resolved_port w p) \/
                  ~ (exists p : Z, resolved_port w p)).
  { unfold resolved_port.
    destruct (port_report w "localhost" 8000) as [[|] | e | c].
    - left. exists 8000. tauto.
    - destruct (free_port_search w "localhost" 8000 10) as [[p |] | e | c].
      + left. exists p. tauto.
      + right. intros (p & [[? _] | [_ ?]]); congruence.
      + right. intros (p & [[? _] | [_ ?]]); congruence.
      + right. intros (p & [[? _] | [_ ?]]); congruence.
    - right. intros (p & [[? _] | [? _]]); congruence.
    - right. intros (p & [[? _] | [? _]]); congruence. }
  split; [| split].
  - pose proof (node_check_no_exit w) as Hn.
    destruct (node_check w) as [[|] | e | c] eqn:Hnode;
      [| tauto | | by destruct (Hn c)].
    2: { split; [discriminate |]. intros [? | [[? _] | [? _]]]; discriminate. }
    pose proof (port_report_no_exit w "localhost" 8000) as Hp.
    destruct (port_report w "localhost" 8000) as [[|] | e | c] eqn:Hport;
      [| | | by destruct (Hp c)].
    + assert (Hr : resolved_port w 8000) by (unfold resolved_port; tauto).
      rewrite (proj1 (server_command_exit w 8000)), <- (Hat 8000 Hr).
      split; [intros H; right; right; tauto |].
      intros [? | [(_ & ? & _) | [_ H]]]; [discriminate | discriminate | done].
    + pose proof (free_port_search_no_exit w "localhost" 8000 10) as Hf.
      destruct (free_port_search w "localhost" 8000 10) as [[p |] | e | c]
        eqn:Hsearch; [| | | by destruct (Hf c)].
      * assert (Hr : resolved_port w p) by (unfold resolved_port; tauto).
        rewrite (proj1 (server_command_exit w p)), <- (Hat p Hr).
        split; [intros H; right; right; tauto |].
        intros [? | [(_ & _ & ?) | [_ H]]]; [discriminate | discriminate | done].
      * split; [intros _; right; left; tauto | done].
      * split; [discriminate |].
        intros [? | [(_ & _ & ?) | (_ & p & e' & Hr & _)]]; try discriminate.
        destruct Hr as [[? _] | [_ ?]]; congruence.
    + split; [discriminate |].
      intros [? | [(_ & ? & _) | (_ & p & e' & Hr & _)]]; try discriminate.
      destruct Hr as [[? _] | [? _]]; congruence.
  - pose proof (node_check_no_exit w) as Hn.
    destruct (node_check w) as [[|] | e | c] eqn:Hnode;
      [| | | by destruct (Hn c)].
    2, 3: split; [discriminate | by intros [? _]].
    pose proof (port_report_no_exit w "localhost" 8000) as Hp.
    destruct (port_report w "localhost" 8000) as [[|] | e | c] eqn:Hport;
      [| | | by destruct (Hp c)].
    + assert (Hr : resolved_port w 8000) by (unfold resolved_port; tauto).
      rewrite (proj2 (server_command_exit w 8000)), <- (Hat 8000 Hr). tauto.
    + pose proof (free_port_search_no_exit w "localhost" 8000 10) as Hf.
      destruct (free_port_search w "localhost" 8000 10) as [[p |] | e | c]
        eqn:Hsearch; [| | | by destruct (Hf c)].
      * assert (Hr : resolved_port w p) by (unfold resolved_port; tauto).
        rewrite (proj2 (server_command_exit w p)), <- (Hat p Hr). tauto.
      * split; [discriminate |]. intros (_ & p & e' & Hr & _).
        destruct Hr as [[? _] | [_ ?]]; congruence.
      * split; [discriminate |]. intros (_ & p & e' & Hr & _).
        destruct Hr as [[? _] | [_ ?]]; congruence.
    + split; [discriminate |]. intros (_ & p & e' & Hr & _).
      destruct Hr as [[? _] | [? _]]; congruence.
  - intros p res Hres Hnz.
    destruct (server_command_cases w p)
      as [(res' & ? & ? & _) | [(res' & e & _ & _ & Hs & He) | (e & ? & _)]];
      [congruence | by exists e | congruence].
Qed.

(** With the ports 8000..8009 all taken the launcher leaves through
    [sys.exit(1)]; with port 8000 free it leaves through [sys.exit(0)] when
    Ctrl+C stops the server command. *)
Lemma launcher_exit_status_witness :
  fst (StartServer.start_server (launcher_world 8010 0) (boot ∅)) = Exited 1.
Proof.
  destruct (launcher_exit_status (launcher_world 8010 0) ∅) as [[_ H] _].
  apply H. right; left. repeat split; vm_compute; reflexivity.
Defined.

(** C7, as the claim has it, fails: Node.js is there and port 8000 is free,
    so that no search is made (and a search would find 8000), and yet the
    launcher leaves through [sys.exit(1)], because [npx http-server] ended
    with exit status 1. *)
Lemma server_failure_exits_1 :
  let w := launcher_world 8000 1 in
  node_check w = Normal true /\
  port_report w "localhost" 8000 = Normal true /\
  free_port_search w "localhost" 8000 10 = Normal (Some 8000) /\
  fst (StartServer.start_server w (boot ∅)) = Exited 1.
Proof. repeat split; vm_compute; reflexivity. Qed.

(** ** Reading the log of a run *)

Lemma Forall_log_extend P s l :
  Forall P (log s) -> Forall P l -> Forall P (log (extend s l)).
Proof. intros H1 H2. simpl. by apply Forall_app. Qed.

Lemma In_log_extend_l e s l : In e (log s) -> In e (log (extend s l)).
Proof. intros H. simpl. apply in_or_app. by left. Qed.

Lemma In_log_extend_r e s l : In e l -> In e (log (extend s l)).
Proof. intros H. simpl. apply in_or_app. by right. Qed.

(** Finds an event in the log of a state built by [extend]. *)
Ltac in_log :=
  first
    [ assumption
    | apply In_log_extend_r; left; reflexivity
    | apply In_log_extend_l; in_log
    | progress cbn [log set_PORT set_environ]; in_log ].

(** Checks every event added to a log by [extend]. *)
Ltac forall_log :=
  repeat first
    [ assumption
    | apply Forall_nil_2
    | apply Forall_log_extend
    | apply Forall_cons_2; [by simpl |]
    | progress cbn [log set_PORT set_environ boot] ].

(** ** The environment variable of the tool-backed launcher *)

Lemma same_but_env_emit e1 e2 s1 s2 :
  forget_env e1 = forget_env e2 ->
  same_but_env s1 s2 -> same_but_env (emit e1 s1) (emit e2 s2).
Proof.
  intros He [HP HL]. split; [done |]. simpl.
  rewrite !map_app, HL. simpl. by rewrite He.
Qed.

Lemma blind_ret {A} (a : A) : blind (ret a).
Proof. by intros s1 s2 H. Qed.

Lemma blind_raise {A} e : blind (@raise A e).
Proof. by intros s1 s2 H. Qed.

Lemma blind_sys_exit {A} c : blind (@sys_exit A c).
Proof. by intros s1 s2 H. Qed.

Lemma blind_of_answer {A} (a : answer A) : blind (of_answer a).
Proof. destruct a; [apply blind_ret | apply blind_raise]. Qed.

Lemma blind_perform e : blind (perform e).
Proof. intros s1 s2 H. split; [done |]. by apply same_but_env_emit. Qed.

Lemma blind_print line : blind (print line).
Proof. apply blind_perform. Qed.

Lemma blind_get_PORT : blind get_PORT.
Proof. intros s1 s2 H. split; [| done]. simpl. f_equal. apply H. Qed.

Lemma blind_put_PORT p : blind (put_PORT p).
Proof. intros s1 s2 [HP HL]. by repeat split. Qed.

(** Writing the variable is not reading it. *)
Lemma blind_put_environ k v : blind (put_environ k v).
Proof. intros s1 s2 [HP HL]. by repeat split. Qed.

Lemma blind_bind {A B} (m : M A) (k : A -> M B) :
  blind m -> (forall a, blind (k a)) -> blind (bind m k).
Proof.
  intros Hm Hk s1 s2 H. unfold bind.
  destruct (Hm s1 s2 H) as [Hr Hs].
  destruct (m s1) as [r1 s1'], (m s2) as [r2 s2']. simpl in *. subst r2.
  destruct r1 as [a | e | c]; [by apply Hk | done | done].
Qed.

Lemma blind_try_except {A} (body : M A) handler :
  blind body -> (forall e k, handler e = Some k -> blind k) ->
  blind (try_except body handler).
Proof.
  intros Hm Hh s1 s2 H. unfold try_except.
  destruct (Hm s1 s2 H) as [Hr Hs].
  destruct (body s1) as [r1 s1'], (body s2) as [r2 s2']. simpl in *. subst r2.
  destruct r1 as [a | e | c]; [done | | done].
  destruct (handler e) as [k |] eqn:Hk; [by apply (Hh e k) | done].
Qed.

(** The child gets a copy of the environment; the parent learns nothing
    of it. *)
Lemma blind_subprocess_run w cmd : blind (subprocess_run w cmd).
Proof.
  intros s1 s2 H. unfold subprocess_run, bind, get_environ, perform.
  destruct (subprocess_exec w cmd) as [r | e]; simpl;
    (split; [done | by apply same_but_env_emit]).
Qed.

Lemma blind_subprocess_run_check w cmd : blind (subprocess_run_check w cmd).
Proof.
  apply blind_bind; [apply blind_subprocess_run |].
  intros r. destruct (returncode r =? 0); [apply blind_ret | apply blind_raise].
Qed.

Lemma blind_connect_ex w host port : blind (connect_ex w host port).
Proof.
  apply blind_bind; [apply blind_perform | intros _; apply blind_of_answer].
Qed.

Ltac blind_step :=
  lazymatch goal with
  | |- blind (bind _ _) => apply blind_bind; [| intros ?]
  | |- blind (try_except _ _) => apply blind_try_except; [| tame_handler]
  | |- blind (ret _) => apply blind_ret
  | |- blind (raise _) => apply blind_raise
  | |- blind (sys_exit _) => apply blind_sys_exit
  | |- blind (of_answer _) => apply blind_of_answer
  | |- blind (print _) => apply blind_print
  | |- blind (perform _) => apply blind_perform
  | |- blind get_PORT => apply blind_get_PORT
  | |- blind (put_PORT _) => apply blind_put_PORT
  | |- blind (put_environ _ _) => apply blind_put_environ
  | |- blind (subprocess_run_check _ _) => apply blind_subprocess_run_check
  | |- blind (subprocess_run _ _) => apply blind_subprocess_run
  | |- blind (connect_ex _ _ _) => apply blind_connect_ex
  | |- blind (if ?b then _ else _) => destruct b
  | |- blind (match ?x with _ => _ end) => destruct x
  end.

Lemma blind_check_port_available w host port :
  blind (check_port_available w host port).
Proof. unfold check_port_available. repeat blind_step. Qed.

Lemma blind_find_free_port w host start_port max_attempts :
  blind (find_free_port w host start_port max_attempts).
Proof.
  unfold find_free_port. induction (seqZ 0 max_attempts) as [| i rest IH]; simpl.
  - apply blind_ret.
  - apply blind_bind; [apply blind_check_port_available |].
    intros [|]; [apply blind_ret | apply IH].
Qed.

Lemma blind_check_node_installed w : blind (StartServer.check_node_installed w).
Proof. unfold StartServer.check_node_installed. repeat blind_step. Qed.

Lemma blind_print_header w port : blind (StartServer.print_header w port).
Proof. unfold StartServer.print_header. repeat blind_step. Qed.

Lemma blind_start_server w : blind (StartServer.start_server w).
Proof.
  unfold StartServer.start_server.
  repeat lazymatch goal with
         | |- blind (StartServer.check_node_installed _) =>
             apply blind_check_node_installed
         | |- blind (StartServer.print_header _ _) => apply blind_print_header
         | |- blind (check_port_available _ _ _) =>
             apply blind_check_port_available
         | |- blind (find_free_port _ _ _ _) => apply blind_find_free_port
         | |- _ => blind_step
         end.
Qed.

(** Where the launcher leaves the environment, and what the server command
    is given. *)
Lemma start_server_final w env :
  node_check w = Normal true ->
  let final := snd (StartServer.start_server w (boot env)) in
  (forall p,
     port_report w "localhost" 8000 = Normal false ->
     free_port_search w "localhost" 8000 10 = Normal (Some p) ->
     environ final = <["PORT" := str p]> env /\
     In (Subprocess (StartServer.npx_command p) (<["PORT" := str p]> env))
        (log final)) /\
  (port_report w "localhost" 8000 = Normal true ->
   environ final = env /\
   In (Subprocess (StartServer.npx_command 8000) env) (log final)).
Proof.
  intros Hnode final. subst final.
  unfold StartServer.start_server, StartServer.print_header,
    StartServer.HOST, StartServer.DEFAULT_PORT.
  run_launcher. rewrite Hnode. run_launcher.
  split.
  - intros p Hport Hfound. rewrite Hport. run_launcher. rewrite Hfound.
    apply free_port_search_positive in Hfound.
    rewrite if_truthy_Some by lia. run_launcher.
    destruct (server_command w p) as [r | e | c];
      [| destruct (is_CalledProcessError e);
         [| destruct (is_KeyboardInterrupt e)]; run_launcher |];
      cbn [fst snd]; (split; [reflexivity | in_log]).
  - intros Hport. rewrite Hport. run_launcher.
    destruct (server_command w 8000) as [r | e | c];
      [| destruct (is_CalledProcessError e);
         [| destruct (is_KeyboardInterrupt e)]; run_launcher |];
      cbn [fst snd]; (split; [reflexivity | in_log]).
Qed.

(** C8, as the code has it.  The launcher writes the variable and never
    reads it.  When the default port is taken and the search finds the port
    [p], [os.environ] gets [PORT] set to [str(p)] and the server command,
    which is given the port after [-p], is spawned in that environment; when
    the default port is free the environment stays as it was.  Whatever the
    environment holds at the start, the launcher ends the same way, leaves
    the same [PORT] and does the same things. *)
Theorem launcher_port_variable (w : World) (env : gmap string string) :
  let final := snd (StartServer.start_server w (boot env)) in
  (forall p,
     node_check w = Normal true ->
     port_report w "localhost" 8000 = Normal false ->
     free_port_search w "localhost" 8000 10 = Normal (Some p) ->
     environ final = <["PORT" := str p]> env /\
     In (Subprocess (StartServer.npx_command p) (<["PORT" := str p]> env))
        (log final)) /\
  (node_check w = Normal true ->
   port_report w "localhost" 8000 = Normal true ->
   environ final = env /\
   In (Subprocess (StartServer.npx_command 8000) env) (log final)) /\
  (forall env',
     let final' := snd (StartServer.start_server w (boot env')) in
     fst (StartServer.start_server w (boot env')) =
       fst (StartServer.start_server w (boot env)) /\
     PORT final' = PORT final /\
     map forget_env (log final') = map forget_env (log final)).
Proof.
  intros final. split; [| split].
  - intros p Hnode. by apply (start_server_final w env Hnode).
  - intros Hnode. by apply (start_server_final w env Hnode).
  - intros env' final'.
    assert (Hsame : same_but_env (boot env') (boot env)) by done.
    destruct (blind_start_server w _ _ Hsame) as (Hr & HP & HL). done.
Qed.

(** With 8000..8002 taken the launcher sets [PORT] to 8003 for the server
    command. *)
Lemma launcher_port_variable_witness :
  environ (snd (StartServer.start_server (launcher_world 8003 0) (boot ∅)))
  = <["PORT" := "8003"]> ∅.
Proof.
  assert (Hnode : node_check (launcher_world 8003 0) = Normal true)
    by (vm_compute; reflexivity).
  assert (Hport : port_report (launcher_world 8003 0) "localhost" 8000
                  = Normal false) by (vm_compute; reflexivity).
  assert (Hfound : free_port_search (launcher_world 8003 0) "localhost" 8000 10
                   = Normal (Some 8003)) by (vm_compute; reflexivity).
  destruct (launcher_port_variable (launcher_world 8003 0) ∅) as (H & _ & _).
  destruct (H 8003 Hnode Hport Hfound) as [Henv _]. exact Henv.
Defined.

(** C8, as the claim has it, fails: the operator has set [PORT] to 9000
    and every port is free, and yet the server is launched on port 8000; the
    variable is left as it was. *)
Lemma port_variable_is_not_read :
  let w := launcher_world 8000 0 in
  let final :=
    snd (StartServer.start_server w (boot (<["PORT" := "9000"]> ∅))) in
  port_report w "localhost" 9000 = Normal true /\
  commands (log final) =
    [["node"; "--version"];
     ["npx"; "http-server"; "-p"; "8000"; "-d"; "false"; "-o"]] /\
  PORT final = 8000 /\
  environ final !! "PORT" = Some "9000".
Proof. repeat split; vm_compute; reflexivity. Qed.

(** ** The port of the built-in launcher *)

Lemma HTTPServer_run w address s :
  StartServerPython.HTTPServer w address s =
  (match http_server_bind w (fst address) (snd address) with
   | Returns _ => Normal address
   | Throws e => Raised e
   end,
   extend s [Listen (fst address) (snd address)]).
Proof.
  unfold StartServerPython.HTTPServer. rewrite bind_perform.
  unfold bind. by destruct (http_server_bind w (fst address) (snd address)).
Qed.

Lemma serve_forever_run w httpd s :
  StartServerPython.serve_forever w httpd s =
  (match http_serve_forever w (fst httpd) (snd httpd) with
   | Returns _ => Normal tt
   | Throws e => Raised e
   end,
   extend s [ServeForever (fst httpd) (snd httpd)]).
Proof.
  unfold StartServerPython.serve_forever. rewrite bind_perform.
  unfold bind. by destruct (http_serve_forever w (fst httpd) (snd httpd)) as [[] | e].
Qed.

Lemma connect_on_port p l :
  Forall (fun e => is_connect_event e = true) l -> Forall (on_port p) l.
Proof. intros H. eapply Forall_impl; [exact H |]. by intros []. Qed.

Lemma bind_try_except {A B} (body : M A) handler (k : A -> M B) s :
  bind (try_except body handler) k s =
  match body s with
  | (Normal a, s') => k a s'
  | (Raised e, s') =>
      match handler e with
      | Some k' => bind k' k s'
      | None => (Raised e, s')
      end
  | (Exited c, s') => (Exited c, s')
  end.
Proof.
  unfold bind, try_except. destruct (body s) as [[a | e | c] s']; try done.
  by destruct (handler e).
Qed.

(** C10. In a run of the built-in launcher that settles on the port [p]
    (the default port when the probe reports it free, otherwise the port
    the search returns), the global [PORT] ends as [p], the banner prints
    the address with [p], the server is bound to [p], and every bind, every
    background browser task and every serving loop of the run carries [p];
    once the bind succeeds the browser task for [p] is started and the
    server serves on [p]. *)
Theorem builtin_launcher_single_port (w : World) (env : gmap string string)
  (p : Z) :
  resolved_port w p ->
  let final := snd (StartServerPython.start_server w (boot env)) in
  PORT final = p /\
  In (Stdout ("Адрес:     http://localhost:" ++ str p)) (log final) /\
  In (Listen "localhost" p) (log final) /\
  Forall (on_port p) (log final) /\
  (http_server_bind w "localhost" p = Returns tt ->
   In (ThreadStart (StartServerPython.open_browser p)) (log final) /\
   In (Stdout ("✓ Сервер запущен на http://localhost:" ++ str p)) (log final) /\
   In (ServeForever "localhost" p) (log final)).
Proof.
  intros Hp final. subst final.
  assert (Hlaunch : forall s,
    PORT s = p -> Forall (on_port p) (log s) ->
    In (Stdout ("Адрес:     http://localhost:" ++ str p)) (log s) ->
    let final := snd (
      (httpd <- try_except
         (StartServerPython.HTTPServer w ("localhost", p))
         (fun e =>
            if is_OSError e then
              Some (print ("❌ Ошибка запуска сервера: " ++ exn_str e) ;;
                    sys_exit 1)
            else None) ;;
       PORT <- get_PORT ;;
       perform (ThreadStart (StartServerPython.open_browser PORT)) ;;
       PORT <- get_PORT ;;
       print ("✓ Сервер запущен на http://" ++ "localhost" ++ ":" ++ str PORT) ;;
       print EmptyString ;;
       try_except
         (StartServerPython.serve_forever w httpd)
         (fun e =>
            if is_KeyboardInterrupt e then
              Some (print (newline ++ newline ++ "Остановка сервера...") ;;
                    StartServerPython.shutdown httpd ;;
                    print "Сервер остановлен." ;;
                    sys_exit 0)
            else None)) s) in
    PORT final = p /\
    In (Stdout ("Адрес:     http://localhost:" ++ str p)) (log final) /\
    In (Listen "localhost" p) (log final) /\
    Forall (on_port p) (log final) /\
    (http_server_bind w "localhost" p = Returns tt ->
     In (ThreadStart (StartServerPython.open_browser p)) (log final) /\
     In (Stdout ("✓ Сервер запущен на http://localhost:" ++ str p)) (log final) /\
     In (ServeForever "localhost" p) (log final))).
  { intros s HP Hlog Hbanner final. subst final.
    rewrite bind_try_except, HTTPServer_run. cbn [fst snd].
    destruct (http_server_bind w "localhost" p) as [[] | e] eqn:Hbind.
    - run_launcher. unfold try_except. rewrite serve_forever_run. cbn [fst snd].
      rewrite HP.
      destruct (http_serve_forever w "localhost" p) as [[] | e];
        [| destruct (is_KeyboardInterrupt e);
           [unfold StartServerPython.shutdown; run_launcher |]];
        cbn [fst snd];
        (split; [exact HP |]);
        (split; [in_log |]); (split; [in_log |]); (split; [forall_log |]);
        intros _; (split; [in_log |]); (split; in_log).
    - destruct (is_OSError e); run_launcher; cbn [fst snd];
        (split; [exact HP |]);
        (split; [in_log |]); (split; [in_log |]); (split; [forall_log |]);
        discriminate. }
  unfold StartServerPython.start_server, StartServerPython.print_header,
    StartServerPython.HOST, StartServerPython.DEFAULT_PORT.
  run_launcher.
  destruct Hp as [[Hfree ->] | [Htaken Hfound]].
  - rewrite Hfree. run_launcher. apply Hlaunch; [done | forall_log | in_log].
  - rewrite Htaken. run_launcher. rewrite Hfound.
    apply free_port_search_positive in Hfound.
    rewrite if_truthy_Some by lia. run_launcher.
    apply (connect_on_port p) in Hsearch.
    apply Hlaunch; [done | forall_log | in_log].
Qed.

(** With 8000..8002 taken the banner, the bind and the browser task all
    carry 8003. *)
Lemma builtin_launcher_single_port_witness :
  let final :=
    snd (StartServerPython.start_server (launcher_world 8003 0) (boot ∅)) in
  PORT final = 8003 /\
  In (Stdout "Адрес:     http://localhost:8003") (log final) /\
  In (Listen "localhost" 8003) (log final) /\
  Forall (on_port 8003) (log final).
Proof.
  assert (Hp : resolved_port (launcher_world 8003 0) 8003).
  { right. split; vm_compute; reflexivity. }
  destruct (builtin_launcher_single_port (launcher_world 8003 0) ∅ 8003 Hp)
    as (HP & Hbanner & Hlisten & Hall & _).
  repeat split; assumption.
Defined.

(** ** What the free-port search does on the way *)

Lemma probes_cons host start_port first k :
  0 < k ->
  probes host start_port first k =
  Connect host (start_port + first) :: probes host start_port (first + 1) (k - 1).
Proof.
  intros Hk. unfold probes. rewrite (seqZ_cons first k) by done.
  rewrite fmap_cons. do 3 f_equal; lia.
Qed.

(** The loop stops at the first port whose probe does not say "taken". *)
Lemma find_free_port_loop_stops w host start_port r (d : nat) :
  r <> Normal false ->
  forall first len s,
    Z.of_nat d < len ->
    (forall j, first <= j < first + Z.of_nat d ->
       port_report w host (start_port + j) = Normal false) ->
    port_report w host (start_port + (first + Z.of_nat d)) = r ->
    find_free_port_loop w host start_port (seqZ first len) s =
    (match r with
     | Normal _ => Normal (Some (start_port + (first + Z.of_nat d)))
     | Raised e => Raised e
     | Exited c => Exited c
     end,
     extend s (probes host start_port first (Z.of_nat d + 1))).
Proof.
  intros Hr. induction d as [| d IH]; intros first len s Hlen Hbefore Hat.
  - rewrite (seqZ_cons first len) by lia. simpl find_free_port_loop.
    rewrite bind_check_port_available.
    replace (first + Z.of_nat 0) with first in Hat |- * by lia.
    rewrite Hat. rewrite probes_cons by lia.
    destruct r as [[|] | e | c]; done.
  - rewrite (seqZ_cons first len) by lia. simpl find_free_port_loop.
    rewrite bind_check_port_available.
    rewrite (Hbefore first) by lia.
    rewrite (IH (Z.succ first) (Z.pred len)); try lia.
    + rewrite (probes_cons host start_port first (Z.of_nat (S d) + 1)) by lia.
      rewrite extend_extend. simpl app.
      replace (Z.succ first + Z.of_nat d) with (first + Z.of_nat (S d)) by lia.
      replace (Z.succ first) with (first + 1) by lia.
      replace (Z.of_nat (S d) + 1 - 1) with (Z.of_nat d + 1) by lia.
      done.
    + intros j Hj. apply Hbefore. lia.
    + replace (Z.succ first + Z.of_nat d) with (first + Z.of_nat (S d)) by lia.
      done.
Qed.

Lemma find_free_port_loop_exhausts w host start_port (n : nat) :
  forall first s,
    (forall j, first <= j < first + Z.of_nat n ->
       port_report w host (start_port + j) = Normal false) ->
    find_free_port_loop w host start_port (seqZ first (Z.of_nat n)) s =
    (Normal None, extend s (probes host start_port first (Z.of_nat n))).
Proof.
  induction n as [| n IH]; intros first s Hall.
  - unfold probes. simpl. by rewrite extend_nil.
  - rewrite (seqZ_cons first (Z.of_nat (S n))) by lia. simpl find_free_port_loop.
    rewrite bind_check_port_available, (Hall first) by lia.
    replace (Z.pred (Z.of_nat (S n))) with (Z.of_nat n) by lia.
    rewrite (IH (Z.succ first)) by (intros j Hj; apply Hall; lia).
    rewrite (probes_cons host start_port first (Z.of_nat (S n))) by lia.
    rewrite extend_extend. simpl app.
    replace (Z.succ first) with (first + 1) by lia.
    replace (Z.of_nat (S n) - 1) with (Z.of_nat n) by lia.
    done.
Qed.

(** X1. The search probes the ports in order, each once, and stops at the
    first free one: when it answers with the port [start_port + i] it has
    tried the [i + 1] ports from [start_port] on and nothing else; when it
    answers none it has tried all [max_attempts] ports; with no attempt
    allowed it answers none without a probe. *)
Theorem find_free_port_probes_in_order (w : World) (host : string)
  (start_port max_attempts : Z) (s : State) :
  (forall i,
     fst (find_free_port w host start_port max_attempts s)
       = Normal (Some (start_port + i)) ->
     snd (find_free_port w host start_port max_attempts s)
       = extend s (probes host start_port 0 (i + 1))) /\
  (fst (find_free_port w host start_port max_attempts s) = Normal None ->
   snd (find_free_port w host start_port max_attempts s)
     = extend s (probes host start_port 0 max_attempts)) /\
  (max_attempts <= 0 ->
   find_free_port w host start_port max_attempts s = (Normal None, s)).
Proof.
  split; [| split].
  - intros i Hi. pose proof Hi as Hi'.
    apply find_free_port_Some in Hi' as (i' & Hrange & Heq & Hfree & Hbefore).
    assert (i' = i) as -> by lia.
    unfold find_free_port.
    rewrite (find_free_port_loop_stops w host start_port (Normal true)
               (Z.to_nat i) ltac:(done) 0 max_attempts s); try lia.
    + simpl. do 2 f_equal. lia.
    + intros j Hj. apply Hbefore. lia.
    + rewrite <- Hfree. f_equal. lia.
  - intros Hnone.
    pose proof (proj1 (find_free_port_None w host start_port max_attempts s)
                  Hnone) as Hall.
    unfold find_free_port.
    destruct (Z_le_gt_dec max_attempts 0) as [Hle | Hgt].
    + unfold probes. rewrite !seqZ_nil by lia. simpl. by rewrite extend_nil.
    + replace max_attempts with (Z.of_nat (Z.to_nat max_attempts)) at 1 2 by lia.
      rewrite find_free_port_loop_exhausts.
      * simpl. repeat f_equal; lia.
      * intros j Hj. apply Hall. lia.
  - intros Hle. unfold find_free_port. by rewrite seqZ_nil.
Qed.

Lemma find_free_port_probes_in_order_witness :
  snd (find_free_port (launcher_world 8003 0) "localhost" 8000 10 (boot ∅)) =
  extend (boot ∅)
    [Connect "localhost" 8000; Connect "localhost" 8001;
     Connect "localhost" 8002; Connect "localhost" 8003].
Proof.
  destruct (find_free_port_probes_in_order (launcher_world 8003 0) "localhost"
              8000 10 (boot ∅)) as (H & _ & _).
  apply (H 3). vm_compute. reflexivity.
Defined.

(** X2. An interrupt is not a verdict.  When Ctrl+C arrives during the
    probe of a port, the ports before it being taken, the probe raises the
    interrupt instead of answering, and the search raises it too, having
    tried the ports up to that one and none after it. *)
Theorem interrupt_stops_the_search (w : World) (host : string)
  (start_port max_attempts i : Z) (e : exn) (s : State) :
  0 <= i < max_attempts ->
  socket_connect_ex w host (start_port + i) = Throws e ->
  is_Exception e = false ->
  (forall j, 0 <= j < i ->
     port_report w host (start_port + j) = Normal false) ->
  fst (check_port_available w host (start_port + i) s) = Raised e /\
  find_free_port w host start_port max_attempts s =
    (Raised e, extend s (probes host start_port 0 (i + 1))).
Proof.
  intros Hi Hsock He Hbefore.
  assert (Hreport : port_report w host (start_port + i) = Raised e).
  { unfold port_report, check_port_available, try_except, bind, connect_ex,
      perform, of_answer. rewrite Hsock. simpl. by rewrite He. }
  split.
  - by rewrite check_port_available_run.
  - unfold find_free_port.
    rewrite (find_free_port_loop_stops w host start_port (Raised e)
               (Z.to_nat i) ltac:(done) 0 max_attempts s); try lia.
    + do 2 f_equal. f_equal. lia.
    + intros j Hj. apply Hbefore. lia.
    + rewrite <- Hreport. f_equal. lia.
Qed.

Lemma interrupt_stops_the_search_witness :
  find_free_port interrupted_world "localhost" 8000 10 (boot ∅) =
  (Raised interrupt,
   extend (boot ∅)
     [Connect "localhost" 8000; Connect "localhost" 8001;
      Connect "localhost" 8002]).
Proof.
  assert (Hi : 0 <= 2 < 10) by lia.
  assert (Hsock : socket_connect_ex interrupted_world "localhost" (8000 + 2)
                  = Throws interrupt) by reflexivity.
  assert (He : is_Exception interrupt = false) by reflexivity.
  assert (Hbefore : forall j, 0 <= j < 2 ->
            port_report interrupted_world "localhost" (8000 + j) = Normal false).
  { intros j Hj. assert (j = 0 \/ j = 1) as [-> | ->] by lia;
      vm_compute; reflexivity. }
  exact (proj2 (interrupt_stops_the_search interrupted_world "localhost"
                  8000 10 2 interrupt (boot ∅) Hi Hsock He Hbefore)).
Defined.

(** ** The lookup on Windows *)

Lemma is_digit_not_space c : is_digit c = true -> is_space c = false.
Proof.
  unfold is_digit, is_space. intros H.
  apply andb_true_iff in H as [H1 H2].
  apply Nat.leb_le in H1, H2.
  apply orb_false_iff. split; apply andb_false_iff.
  - right. apply Nat.leb_gt. lia.
  - right. apply Nat.leb_gt. lia.
Qed.

Lemma is_digit_not_c_space c : is_digit c = true -> is_c_space c = false.
Proof.
  unfold is_digit, is_c_space. intros H.
  apply andb_true_iff in H as [H1 H2].
  apply Nat.leb_le in H1, H2.
  apply orb_false_iff. split.
  - apply andb_false_iff. right. apply Nat.leb_gt. lia.
  - apply Nat.eqb_neq. lia.
Qed.

Lemma rstrip_digits s : all_digits s = true -> rstrip_by is_space s = s.
Proof.
  induction s as [| c s IH]; simpl; [done |].
  intros H. apply andb_true_iff in H as [Hc Hs].
  by rewrite (is_digit_not_space c Hc), IH.
Qed.

Lemma rstrip_c_digits s : all_digits s = true -> rstrip_by is_c_space s = s.
Proof.
  induction s as [| c s IH]; simpl; [done |].
  intros H. apply andb_true_iff in H as [Hc Hs].
  by rewrite (is_digit_not_c_space c Hc), IH.
Qed.

Lemma int_digits_all_digits s :
  all_digits s = true ->
  forall acc, exists n, int_digits s acc true = Some n.
Proof.
  induction s as [| c s IH]; simpl; intros H acc; [by eexists |].
  apply andb_true_iff in H as [Hc Hs]. rewrite Hc. by apply IH.
Qed.

(** A string of digits is an integer literal: [int] does not fail on what
    [isdigit] lets through. *)
Lemma isdigit_int s : isdigit s = true -> exists n, int_literal s = Some n.
Proof.
  unfold isdigit. intros H. apply andb_true_iff in H as [Hne Hall].
  destruct s as [| c r]; [discriminate |].
  simpl in Hall. apply andb_true_iff in Hall as [Hc Hr].
  unfold int_literal.
  assert (Hs : is_c_space c = false) by by apply is_digit_not_c_space.
  simpl lstrip_by. rewrite Hs.
  rewrite rstrip_c_digits by (simpl; by rewrite Hc, Hr).
  destruct (int_digits_all_digits r Hr (10 * 0 + (Z.of_nat (nat_of_ascii c) - 48)))
    as [n Hn].
  exists n.
  assert (Hd : int_digits (String c r) 0 false = Some n)
    by (simpl; by rewrite Hc).
  destruct c as [[|] [|] [|] [|] [|] [|] [|] [|]];
    try discriminate Hc; exact Hd.
Qed.

(** The loop over the lines of [netstat], in the model. *)
Lemma netstat_scan_run (port : Z) (lines : list string) (s : State) :
  KillPort.netstat_scan port lines s = (Normal (first_listener port lines), s).
Proof.
  unfold first_listener.
  induction lines as [| line rest IH]; simpl; [done |].
  unfold listens_on at 1.
  destruct (contains (":" ++ str port) line && contains "LISTENING" line);
    simpl; [| exact IH].
  destruct (split_ws line) as [| field fields] eqn:Hparts.
  - simpl. exact IH.
  - cbn [length Nat.ltb Nat.leb].
    destruct (isdigit (List.last (field :: fields) EmptyString)) eqn:Hd;
      [| exact IH].
    destruct (isdigit_int _ Hd) as [n Hn].
    unfold int. rewrite ?Hparts, Hn. reflexivity.
Qed.

(** X3. On plain lines, the loop over the lines of [netstat] answers with
    the number at the end of the first line that names the port, is in
    state LISTENING and ends in a number, and with none when there is no
    such line; it does not raise and does nothing else. *)
Theorem netstat_scan_first_listener (port : Z) (lines : list string)
  (s : State) :
  Forall (fun line => plain line = true) lines ->
  KillPort.netstat_scan port lines s = (Normal (first_listener port lines), s).
Proof. intros _. apply netstat_scan_run. Qed.

Lemma netstat_scan_first_listener_witness :
  KillPort.netstat_scan 8000
    ["  TCP    0.0.0.0:135            0.0.0.0:0              LISTENING       1108";
     "  TCP    0.0.0.0:8000           0.0.0.0:0              LISTENING       5120"]
    (boot ∅) = (Normal (Some 5120), boot ∅).
Proof.
  rewrite netstat_scan_first_listener; [reflexivity |].
  repeat constructor.
Defined.

Lemma prefix_trans a : forall b c,
  String.prefix a b = true -> String.prefix b c = true ->
  String.prefix a c = true.
Proof.
  induction a as [| x a IH]; intros b c Hab Hbc; [by destruct c |].
  destruct b as [| y b]; [discriminate |].
  destruct c as [| z c]; [discriminate |].
  simpl in *.
  destruct (ascii_dec x y) as [-> |]; [| discriminate].
  destruct (ascii_dec y z) as [-> |]; [| discriminate].
  by apply (IH b c).
Qed.

Lemma contains_unfold sub s :
  contains sub s =
  String.prefix sub s ||
  match s with
  | EmptyString => false
  | String _ s' => contains sub s'
  end.
Proof. by destruct s. Qed.

Lemma contains_prefix sub' sub s :
  String.prefix sub' sub = true -> contains sub s = true ->
  contains sub' s = true.
Proof.
  intros Hp. induction s as [| c s IH]; intros H;
    rewrite contains_unfold in H; rewrite contains_unfold;
    apply orb_true_iff in H as [H | H].
  - by rewrite (prefix_trans _ _ _ Hp H).
  - discriminate.
  - by rewrite (prefix_trans _ _ _ Hp H).
  - rewrite (IH H). apply orb_true_r.
Qed.

(** X4. On Windows the port is looked for as a piece of text: a line of a
    listener on [port] also answers the query for any [q] whose decimal
    digits begin those of [port], so that the query gets the pid of the
    listener on [port]. *)
Theorem windows_lookup_matches_port_prefix (q port : Z) (line : string)
  (rest : list string) (s : State) :
  String.prefix (str q) (str port) = true ->
  listens_on port line = true ->
  exists pid,
    KillPort.netstat_scan port (line :: rest) s = (Normal (Some pid), s) /\
    KillPort.netstat_scan q (line :: rest) s = (Normal (Some pid), s).
Proof.
  intros Hq Hline.
  assert (Hqline : listens_on q line = true).
  { unfold listens_on in *.
    apply andb_true_iff in Hline as [Hline Hd].
    apply andb_true_iff in Hline as [Hport Hstate].
    rewrite Hd, Hstate, andb_true_r, andb_true_r.
    apply (contains_prefix _ (":" ++ str port)); [| done].
    simpl. by destruct (ascii_dec ":" ":"). }
  assert (Hd : isdigit (List.last (split_ws line) EmptyString) = true).
  { unfold listens_on in Hline. by apply andb_true_iff in Hline as [_ ?]. }
  destruct (isdigit_int _ Hd) as [pid Hpid].
  exists pid. rewrite !netstat_scan_run. unfold first_listener.
  simpl. by rewrite Hline, Hqline, Hpid.
Qed.

(** Asked for port 80 on a machine where only port 8000 is listened on, the
    Windows lookup answers with the listener of port 8000. *)
Lemma windows_lookup_matches_port_prefix_witness :
  pid_on_port (windows_world ["kill_port.py"; "80"]) 80 = Normal (Some 5120) /\
  exists pid,
    KillPort.netstat_scan 8000
      ["  TCP    0.0.0.0:8000           0.0.0.0:0              LISTENING       5120"]
      (boot ∅) = (Normal (Some pid), boot ∅) /\
    KillPort.netstat_scan 80
      ["  TCP    0.0.0.0:8000           0.0.0.0:0              LISTENING       5120"]
      (boot ∅) = (Normal (Some pid), boot ∅).
Proof.
  split; [vm_compute; reflexivity |].
  apply windows_lookup_matches_port_prefix; vm_compute; reflexivity.
Defined.



(** ** The lookup on Linux and macOS *)

(** X6. The lookup through [lsof -ti :port] answers with the pid that
    [lsof] prints when it prints a single integer; it answers none, without
    a word, when [lsof] ends with a non-zero status or prints nothing; it
    answers none and prints the error of [int], which shows the output
    the way [repr] writes it, when the output is not one integer (two
    pids on two lines), and the error of the call when [lsof] cannot be
    run, with a message of its own when [lsof] is not installed.  What is
    read out of the output is read out of plain text. *)
Theorem find_process_on_port_lsof (w : World) (port : Z) (s : State) :
  String.eqb (platform_system w) "Windows" = false ->
  let s1 := extend s [Subprocess (lsof_command port) (environ s)] in
  (forall r n, subprocess_exec w (lsof_command port) = Returns r ->
     plain (stdout r) = true ->
     returncode r = 0 ->
     int (strip (stdout r)) = Returns n ->
     KillPort.find_process_on_port w port s = (Normal (Some n), s1)) /\
  (forall r, subprocess_exec w (lsof_command port) = Returns r ->
     returncode r <> 0 \/ strip (stdout r) = EmptyString ->
     KillPort.find_process_on_port w port s = (Normal None, s1)) /\
  (forall r e, subprocess_exec w (lsof_command port) = Returns r ->
     plain (stdout r) = true ->
     returncode r = 0 -> strip (stdout r) <> EmptyString ->
     int (strip (stdout r)) = Throws e ->
     KillPort.find_process_on_port w port s =
     (Normal None,
      extend s1 [Stdout ("Ошибка при поиске процесса: " ++ exn_str e)])) /\
  (forall e, subprocess_exec w (lsof_command port) = Throws e ->
     is_FileNotFoundError e = true ->
     KillPort.find_process_on_port w port s =
     (Normal None,
      extend s1 [Stdout "lsof не найден. Установите его для работы на Linux/Mac."])) /\
  (forall e, subprocess_exec w (lsof_command port) = Throws e ->
     is_FileNotFoundError e = false -> is_Exception e = true ->
     KillPort.find_process_on_port w port s =
     (Normal None,
      extend s1 [Stdout ("Ошибка при поиске процесса: " ++ exn_str e)])).
Proof.
  intros Hw s1. subst s1. unfold KillPort.find_process_on_port, lsof_command.
  rewrite Hw.
  unfold try_except, subprocess_run, bind, get_environ, perform.
  repeat split.
  - intros r n -> _ Hrc Hint. simpl. rewrite Hrc. simpl.
    assert (Hne : truthy (strip (stdout r)) = true).
    { destruct (strip (stdout r)) eqn:E; [| done].
      unfold int in Hint. simpl in Hint. discriminate. }
    rewrite Hne, Hint. reflexivity.
  - intros r -> [Hrc | Hout]; simpl.
    + by destruct (Z.eqb_spec (returncode r) 0).
    + rewrite Hout. simpl. by rewrite andb_false_r.
  - intros r e -> _ Hrc Hout Hint. simpl. rewrite Hrc. simpl.
    assert (Hne : truthy (strip (stdout r)) = true)
      by (by destruct (strip (stdout r))).
    rewrite Hne, Hint. simpl.
    assert (He : is_Exception e = true).
    { by apply (int_raises_ValueError (strip (stdout r))). }
    assert (Hf : is_FileNotFoundError e = false).
    { unfold int in Hint. destruct (int_literal (strip (stdout r)));
        [discriminate |]. by injection Hint as <-. }
    rewrite Hf, He. reflexivity.
  - intros e -> He. simpl. rewrite He. reflexivity.
  - intros e -> Hf He. simpl. rewrite Hf, He. reflexivity.
Qed.

(** With two processes on the port [lsof -ti] prints two pids, [int] fails
    on them, and the lookup prints the error and answers none. *)
Lemma find_process_on_port_lsof_witness :
  KillPort.find_process_on_port crowded_world 8000 (boot ∅) =
  (Normal None,
   extend (boot ∅)
     [Subprocess ["lsof"; "-ti"; ":8000"] ∅;
      Stdout "Ошибка при поиске процесса: invalid literal for int() with base 10: '4242\n4243'"]) /\
  fst (KillPort.find_process_on_port (reaper_world [] "y") 8000 (boot ∅))
  = Normal (Some 4242) /\
  fst (KillPort.find_process_on_port offline_world 8000 (boot ∅)) = Normal None.
Proof.
  destruct (find_process_on_port_lsof crowded_world 8000 (boot ∅) eq_refl)
    as (_ & _ & Hbad & _ & _).
  destruct (find_process_on_port_lsof (reaper_world [] "y") 8000 (boot ∅) eq_refl)
    as (Hgood & _ & _ & _ & _).
  destruct (find_process_on_port_lsof offline_world 8000 (boot ∅) eq_refl)
    as (_ & _ & _ & Hmissing & _).
  split; [| split].
  - rewrite (Hbad {| returncode := 0;
                     stdout := "4242" ++ newline ++ "4243" ++ newline |}
               (Exn ValueError
                  "invalid literal for int() with base 10: '4242\n4243'"));
      [reflexivity | reflexivity | reflexivity | reflexivity | discriminate
       | vm_compute; reflexivity].
  - rewrite (Hgood {| returncode := 0; stdout := "4242" ++ newline |} 4242);
      [reflexivity | reflexivity | reflexivity | reflexivity
       | vm_compute; reflexivity].
  - rewrite (Hmissing no_such_file); reflexivity.
Defined.

(** ** The process record *)

Lemma lstrip_head p s c r : lstrip_by p s = String c r -> p c = false.
Proof.
  induction s as [| x s IH]; simpl; [discriminate |].
  destruct (p x) eqn:Hx; [exact IH |]. by intros [= <- _].
Qed.

Lemma strip_head s c r : strip s = String c r -> is_space c = false.
Proof.
  unfold strip. destruct (lstrip_by is_space s) as [| x t] eqn:Hl;
    [discriminate |].
  apply lstrip_head in Hl. simpl. rewrite Hl. simpl. by intros [= <- _].
Qed.

(** The first word of a text and what follows it. *)
Lemma break_word_spec s :
  s = fst (break_word s) ++ snd (break_word s) /\
  has_space (fst (break_word s)) = false /\
  (snd (break_word s) = EmptyString \/
   exists c t, snd (break_word s) = String c t /\ is_space c = true).
Proof.
  induction s as [| c s (IH1 & IH2 & IH3)]; [by repeat split; left |].
  cbn [break_word]. destruct (is_space c) eqn:Hc.
  - repeat split. right. by exists c, s.
  - destruct (break_word s) as [word rest]. cbn [fst snd] in *.
    repeat split.
    + change (String c word ++ rest) with (String c (word ++ rest)). by rewrite <- IH1.
    + cbn [has_space]. by rewrite Hc, IH2.
    + exact IH3.
Qed.

(** X7. A record that [get_process_info] returns carries the pid that was
    asked about.  On Linux and macOS, when [ps] prints ASCII text, the name
    of the record is the first word of that text, white space at its ends
    being dropped, and its path is what follows the first word, without
    the white space between the two, or [N/A] when nothing follows. *)
Theorem get_process_info_record (w : World) (pid : Z)
  (info : KillPort.ProcessInfo) :
  process_info w pid = Normal (Some info) ->
  KillPort.pid info = pid /\
  (forall r,
     String.eqb (platform_system w) "Windows" = false ->
     subprocess_exec w (ps_command pid) = Returns r ->
     is_ascii (stdout r) = true ->
     returncode r = 0 /\
     KillPort.name info <> EmptyString /\
     has_space (KillPort.name info) = false /\
     exists rest,
       strip (stdout r) = KillPort.name info ++ rest /\
       (rest = EmptyString \/
        exists c t, rest = String c t /\ is_space c = true) /\
       KillPort.path info =
       if is_empty (lstrip_by is_space rest) then "N/A"
       else lstrip_by is_space rest).
Proof.
  unfold process_info, KillPort.get_process_info, ps_command.
  destruct (String.eqb (platform_system w) "Windows") eqn:Hw;
    unfold try_except, subprocess_run, bind, get_environ, perform.
  - destruct (subprocess_exec w _) as [r | e]; simpl.
    + destruct ((returncode r =? 0) && truthy (strip (stdout r))); simpl;
        [| discriminate].
      destruct (length (str_split _ (strip (stdout r)))) as [| [| n]];
        simpl; try discriminate.
      intros [= <-]. split; [reflexivity | discriminate].
    + destruct (is_Exception e); simpl; discriminate.
  - destruct (subprocess_exec w _) as [r | e] eqn:Hexec; simpl.
    + destruct (Z.eqb_spec (returncode r) 0) as [Hrc |]; simpl;
        [| discriminate].
      destruct (strip (stdout r)) as [| c t] eqn:Hs; simpl; [discriminate |].
      pose proof (strip_head _ c t Hs) as Hc.
      pose proof (break_word_spec (String c t)) as (Hsplit & Hword & Hrest).
      unfold split_ws_1. cbn [lstrip_by]. rewrite Hc. cbn [is_empty].
      cbn [break_word] in *. rewrite Hc in *.
      destruct (break_word t) as [word rest]. cbn [fst snd] in *.
      destruct (is_empty (lstrip_by is_space rest)) eqn:Hempty;
        cbn [length Nat.ltb Nat.leb List.hd List.nth];
        intros [= <-]; cbn [KillPort.pid KillPort.name KillPort.path];
        (split; [reflexivity |]);
        intros r' _ [= <-] _;
        (split; [exact Hrc |]); (split; [discriminate |]);
        (split; [exact Hword |]);
        exists rest; rewrite Hempty, Hs; by repeat split.
    + destruct (is_Exception e); simpl; discriminate.
Qed.

(** On the sample machine [ps] prints the command name and the command
    line of process 4242. *)
Lemma get_process_info_record_witness :
  let info := {| KillPort.name := "python3"; KillPort.pid := 4242;
                 KillPort.path := "python3 -m http.server 8000" |} in
  process_info (reaper_world [] "y") 4242 = Normal (Some info) /\
  KillPort.pid info = 4242 /\
  exists rest,
    "python3 python3 -m http.server 8000" = KillPort.name info ++ rest /\
    KillPort.path info = lstrip_by is_space rest.
Proof.
  intros info.
  assert (H : process_info (reaper_world [] "y") 4242 = Normal (Some info))
    by (vm_compute; reflexivity).
  destruct (get_process_info_record _ _ _ H) as [Hpid Hps].
  destruct (Hps _ eq_refl eq_refl eq_refl)
    as (_ & _ & _ & rest & Hsplit & _ & Hpath).
  split; [exact H |]. split; [exact Hpid |].
  exists rest. split; [exact Hsplit |].
  rewrite Hpath.
  assert (rest = " python3 -m http.server 8000") as ->
    by (vm_compute in Hsplit; by inversion Hsplit).
  reflexivity.
Defined.

(** X8. The two lookups fail silently: as long as no interrupt arrives they
    return, and on a machine where none of the listing tools can be run
    they both answer none. *)
Theorem lookups_fail_silently (w : World) (port pid : Z) :
  (no_interrupt w ->
   (exists found, pid_on_port w port = Normal found) /\
   (exists info, process_info w pid = Normal info)) /\
  ((forall cmd, exists e,
      subprocess_exec w cmd = Throws e /\ is_Exception e = true) ->
   pid_on_port w port = Normal None /\ process_info w pid = Normal None).
Proof.
  split.
  - intros Hw. split;
      [by apply find_process_on_port_total | by apply get_process_info_total].
  - intros Hnone. split.
    + unfold pid_on_port, KillPort.find_process_on_port.
      destruct (String.eqb (platform_system w) "Windows");
        unfold try_except, subprocess_run, bind, get_environ, perform.
      * destruct (Hnone ["netstat"; "-ano"]) as (e & -> & He).
        simpl. by rewrite He.
      * destruct (Hnone ["lsof"; "-ti"; ":" ++ str port]) as (e & -> & He).
        simpl. rewrite He. by destruct (is_FileNotFoundError e).
    + unfold process_info, KillPort.get_process_info.
      destruct (String.eqb (platform_system w) "Windows");
        unfold try_except, subprocess_run, bind, get_environ, perform.
      * destruct (Hnone ["tasklist"; "/FI"; "PID eq " ++ str pid; "/FO";
                         "CSV"; "/NH"]) as (e & -> & He).
        simpl. by rewrite He.
      * destruct (Hnone ["ps"; "-p"; str pid; "-o"; "comm="; "-o"; "args="])
          as (e & -> & He).
        simpl. by rewrite He.
Qed.

Lemma lookups_fail_silently_witness :
  pid_on_port offline_world 8000 = Normal None /\
  process_info offline_world 4242 = Normal None.
Proof.
  apply (lookups_fail_silently offline_world 8000 4242).
  intros cmd. exists no_such_file. by split.
Defined.

(** ** More on how the port reaper runs *)

(** X9. When the probe finds the port free, the reaper prints its banner,
    probes once, reports the port free and ends: no tool is run and the
    operator is not asked anything. *)
Theorem main_reports_free_port (w : World) (env : gmap string string)
  (port errno : Z) :
  KillPort.port_argument w = Returns port ->
  socket_connect_ex w "localhost" port = Returns errno ->
  errno <> 0 ->
  KillPort.main w (boot env) =
  (Normal tt,
   extend (boot env)
     (reaper_banner port ++
      [Connect "localhost" port;
       Stdout ("[OK] Порт " ++ str port ++ " свободен");
       Stdout EmptyString])).
Proof.
  intros Hport Hsock Hne. unfold KillPort.main. rewrite Hport. run.
  rewrite Hsock. destruct (Z.eqb_spec errno 0); [done |]. run. reflexivity.
Qed.

Lemma main_reports_free_port_witness :
  log (snd (KillPort.main (reaper_world ["kill_port.py"; "8001"] "y") (boot ∅)))
  = [Stdout EmptyString;
     Stdout "========================================";
     Stdout "  Поиск процесса на порту 8001";
     Stdout "========================================";
     Stdout EmptyString;
     Connect "localhost" 8001;
     Stdout "[OK] Порт 8001 свободен";
     Stdout EmptyString].
Proof.
  rewrite (main_reports_free_port (reaper_world ["kill_port.py"; "8001"] "y")
             ∅ 8001 111); [reflexivity | reflexivity | reflexivity | lia].
Defined.

(** ** What the lookup of a pid does by itself *)







(** X11. After the operator's assent the last thing the reaper prints, before
    its closing empty line, says how the termination went: success when the
    termination command ends with status 0, failure when it ends with any
    other status or cannot be run, in which case the error is printed
    first; in each case the run ends normally. *)
Theorem main_reports_kill_outcome (w : World) (env : gmap string string)
  (port pid : Z) (info : KillPort.ProcessInfo) (response : string) :
  KillPort.port_argument w = Returns port ->
  socket_connect_ex w "localhost" port = Returns 0 ->
  pid_on_port w port = Normal (Some pid) -> pid <> 0 ->
  process_info w pid = Normal (Some info) ->
  stdin_input w "Завершить процесс? (y/n): " = Returns response ->
  response = "y" \/ response = "Y" ->
  let final := snd (KillPort.main w (boot env)) in
  (forall r, subprocess_exec w (kill_command w pid) = Returns r ->
     returncode r = 0 ->
     fst (KillPort.main w (boot env)) = Normal tt /\
     exists before,
       log final =
       (before ++
        [Subprocess (kill_command w pid) env;
         Stdout "[OK] Процесс завершен!";
         Stdout EmptyString])%list) /\
  (forall r, subprocess_exec w (kill_command w pid) = Returns r ->
     returncode r <> 0 ->
     fst (KillPort.main w (boot env)) = Normal tt /\
     exists before,
       log final =
       (before ++
        [Subprocess (kill_command w pid) env;
         Stdout "[ERROR] Не удалось завершить процесс (возможно, нет прав)";
         Stdout EmptyString])%list) /\
  (forall e, subprocess_exec w (kill_command w pid) = Throws e ->
     is_Exception e = true ->
     fst (KillPort.main w (boot env)) = Normal tt /\
     exists before,
       log final =
       (before ++
        [Subprocess (kill_command w pid) env] ++
        (if is_CalledProcessError e then []
         else [Stdout ("Ошибка при завершении процесса: " ++ exn_str e)]) ++
        [Stdout "[ERROR] Не удалось завершить процесс (возможно, нет прав)";
         Stdout EmptyString])%list).
Proof.
  intros Hport Hsock Hpid Hnz Hinfo Hresp Hy final. subst final.
  apply lower_is_y in Hy.
  set (ending := fun s : State =>
    ((killed <- KillPort.kill_process w pid ;;
      if killed then print "[OK] Процесс завершен!"
      else print "[ERROR] Не удалось завершить процесс (возможно, нет прав)") ;;
     print EmptyString) s).
  assert (Hmain : exists before,
            environ before = env /\
            KillPort.main w (boot env) = ending before).
  { unfold KillPort.main. rewrite Hport. run. rewrite Hsock.
    simpl (0 =? 0). cbv iota. run.
    rewrite Hpid, if_truthy_Some by done. run. rewrite Hinfo. run.
    rewrite Hresp, Hy. simpl String.eqb. cbv iota.
    eexists. split; cycle 1; reflexivity. }
  destruct Hmain as (before & Henv & ->).
  assert (Hending : ending before =
    let s1 := extend before [Subprocess (kill_command w pid) env] in
    match subprocess_exec w (kill_command w pid) with
    | Returns r =>
        (Normal tt,
         extend
           (extend s1
              [Stdout (if returncode r =? 0 then "[OK] Процесс завершен!"
                       else "[ERROR] Не удалось завершить процесс (возможно, нет прав)")])
           [Stdout EmptyString])
    | Throws e =>
        if is_CalledProcessError e then
          (Normal tt,
           extend
             (extend s1
                [Stdout "[ERROR] Не удалось завершить процесс (возможно, нет прав)"])
             [Stdout EmptyString])
        else if is_Exception e then
          (Normal tt,
           extend
             (extend
                (extend s1
                   [Stdout ("Ошибка при завершении процесса: " ++ exn_str e)])
                [Stdout "[ERROR] Не удалось завершить процесс (возможно, нет прав)"])
             [Stdout EmptyString])
        else (Raised e, s1)
    end).
  { subst ending. cbv beta zeta. rewrite bind_bind. unfold bind at 1.
    rewrite kill_process_unfold. cbv zeta. rewrite Henv.
    destruct (subprocess_exec w (kill_command w pid)) as [r | e].
    - destruct (returncode r =? 0); reflexivity.
    - destruct (is_CalledProcessError e); [reflexivity |].
      destruct (is_Exception e); reflexivity. }
  rewrite Hending. cbv zeta. clear Hending. split; [| split].
  - intros r -> Hrc. rewrite Hrc. simpl Z.eqb. cbv iota.
    split; [reflexivity |]. exists (log before).
    cbn [snd log extend]. by rewrite <- !app_assoc.
  - intros r -> Hrc. destruct (Z.eqb_spec (returncode r) 0); [done |].
    split; [reflexivity |]. exists (log before).
    cbn [snd log extend]. by rewrite <- !app_assoc.
  - intros e -> He. rewrite He.
    destruct (is_CalledProcessError e);
      (split; [reflexivity |]); exists (log before);
      cbn [snd log extend]; by rewrite <- !app_assoc.
Qed.

Lemma main_reports_kill_outcome_witness :
  exists before,
    log (snd (KillPort.main (reaper_world ["kill_port.py"] "y") (boot ∅))) =
    (before ++
     [Subprocess ["kill"; "-9"; "4242"] ∅;
      Stdout "[OK] Процесс завершен!";
      Stdout EmptyString])%list.
Proof.
  set (w := reaper_world ["kill_port.py"] "y").
  set (info := {| KillPort.name := "python3"; KillPort.pid := 4242;
                  KillPort.path := "python3 -m http.server 8000" |}).
  assert (Hport : KillPort.port_argument w = Returns 8000) by reflexivity.
  assert (Hsock : socket_connect_ex w "localhost" 8000 = Returns 0)
    by reflexivity.
  assert (Hpid : pid_on_port w 8000 = Normal (Some 4242))
    by (vm_compute; reflexivity).
  assert (Hnz : 4242 <> 0) by lia.
  assert (Hinfo : process_info w 4242 = Normal (Some info))
    by (vm_compute; reflexivity).
  assert (Hresp : stdin_input w "Завершить процесс? (y/n): " = Returns "y")
    by reflexivity.
  assert (Hy : "y" = "y" \/ "y" = "Y") by (by left).
  destruct (main_reports_kill_outcome w ∅ 8000 4242 info "y"
              Hport Hsock Hpid Hnz Hinfo Hresp Hy) as (Hok & _ & _).
  destruct (Hok {| returncode := 0; stdout := EmptyString |} eq_refl eq_refl)
    as [_ H].
  exact H.
Defined.

(** ** The check for Node.js *)

Lemma check_node_installed_unfold w s :
  StartServer.check_node_installed w s =
  let s1 := extend s [Subprocess node_command (environ s)] in
  let missing :=
    extend
      (extend s1 [Stdout "ОШИБКА: Node.js не найден в PATH!"])
      [Stdout "Убедитесь, что Node.js установлен и добавлен в системную переменную PATH."] in
  match subprocess_exec w node_command with
  | Returns r =>
      if returncode r =? 0
      then (Normal true, extend s1 [Stdout ("Node.js: " ++ strip (stdout r))])
      else (Normal false, missing)
  | Throws e =>
      if is_FileNotFoundError e || is_TimeoutExpired e
      then (Normal false, missing)
      else (Raised e, s1)
  end.
Proof.
  unfold StartServer.check_node_installed, node_command, try_except,
    subprocess_run, bind, get_environ, perform.
  destruct (subprocess_exec w ["node"; "--version"]) as [r | e]; simpl.
  - destruct (returncode r =? 0); reflexivity.
  - destruct (is_FileNotFoundError e || is_TimeoutExpired e); reflexivity.
Qed.

(** X12. [check_node_installed] answers true, printing the version, exactly
    when [node --version] ends with status 0.  It answers false, printing
    the two lines of its error, when the command ends with another status,
    is not found or times out.  Any other exception of the call, a denied
    permission for one, goes through it. *)
Theorem check_node_installed_verdict (w : World) (s : State) :
  let s1 := extend s [Subprocess node_command (environ s)] in
  let missing :=
    extend s1
      [Stdout "ОШИБКА: Node.js не найден в PATH!";
       Stdout "Убедитесь, что Node.js установлен и добавлен в системную переменную PATH."] in
  (forall r, subprocess_exec w node_command = Returns r ->
     returncode r = 0 ->
     StartServer.check_node_installed w s =
     (Normal true, extend s1 [Stdout ("Node.js: " ++ strip (stdout r))])) /\
  (forall r, subprocess_exec w node_command = Returns r ->
     returncode r <> 0 ->
     StartServer.check_node_installed w s = (Normal false, missing)) /\
  (forall e, subprocess_exec w node_command = Throws e ->
     is_FileNotFoundError e = true \/ is_TimeoutExpired e = true ->
     StartServer.check_node_installed w s = (Normal false, missing)) /\
  (forall e, subprocess_exec w node_command = Throws e ->
     is_FileNotFoundError e = false -> is_TimeoutExpired e = false ->
     StartServer.check_node_installed w s = (Raised e, s1)).
Proof.
  intros s1 missing. subst s1 missing.
  rewrite check_node_installed_unfold. cbv zeta.
  split; [| split; [| split]].
  - intros r -> Hrc. rewrite Hrc. reflexivity.
  - intros r -> Hrc. destruct (Z.eqb_spec (returncode r) 0); [done |].
    by rewrite extend_extend.
  - intros e -> He.
    assert (is_FileNotFoundError e || is_TimeoutExpired e = true) as ->
      by (destruct He as [-> | ->]; [done | apply orb_true_r]).
    by rewrite extend_extend.
  - intros e -> Hf Ht. by rewrite Hf, Ht.
Qed.

Lemma check_node_installed_verdict_witness :
  fst (StartServer.check_node_installed offline_world (boot ∅)) = Normal false /\
  fst (StartServer.check_node_installed (launcher_world 8000 0) (boot ∅))
  = Normal true.
Proof.
  destruct (check_node_installed_verdict offline_world (boot ∅))
    as (_ & _ & Hmissing & _).
  destruct (check_node_installed_verdict (launcher_world 8000 0) (boot ∅))
    as (Hfound & _ & _ & _).
  split.
  - rewrite (Hmissing no_such_file eq_refl); [reflexivity | by left].
  - rewrite (Hfound {| returncode := 0; stdout := "v20.11.0" ++ newline |}
               eq_refl eq_refl). reflexivity.
Defined.

(** ** More on the tool-backed launcher *)

Ltac run_prims :=
  cbn [negb];
  repeat (first
    [ rewrite bind_bind
    | rewrite bind_print
    | rewrite bind_perform
    | rewrite bind_ret
    | rewrite bind_returns
    | rewrite bind_throws
    | rewrite bind_get_PORT
    | rewrite bind_put_PORT
    | rewrite bind_put_environ
    | rewrite bind_sys_exit
    | rewrite bind_check_port_available
    | rewrite run_print
    | rewrite (run_try_except _ _ _ _ _ (server_command_run _ _)) ];
    cbv beta; cbn [PORT environ extend set_PORT set_environ negb]).

(** The search, by what it answers. *)
Lemma find_free_port_found w host start_port max_attempts i s :
  free_port_search w host start_port max_attempts
    = Normal (Some (start_port + i)) ->
  find_free_port w host start_port max_attempts s =
  (Normal (Some (start_port + i)),
   extend s (probes host start_port 0 (i + 1))).
Proof.
  intros H. unfold free_port_search in H.
  apply find_free_port_Some in H as (i' & Hrange & Heq & Hfree & Hbefore).
  assert (i' = i) as -> by lia.
  unfold find_free_port.
  rewrite (find_free_port_loop_stops w host start_port (Normal true)
             (Z.to_nat i) ltac:(done) 0 max_attempts s); try lia.
  - simpl. do 3 f_equal; lia.
  - intros j Hj. apply Hbefore. lia.
  - rewrite <- Hfree. f_equal. lia.
Qed.

Lemma find_free_port_exhausted w host start_port max_attempts s :
  free_port_search w host start_port max_attempts = Normal None ->
  find_free_port w host start_port max_attempts s =
  (Normal None, extend s (probes host start_port 0 max_attempts)).
Proof.
  intros H. unfold free_port_search in H.
  pose proof (proj1 (find_free_port_None w host start_port max_attempts _) H)
    as Hall.
  unfold find_free_port.
  destruct (Z_le_gt_dec max_attempts 0) as [Hle | Hgt].
  - unfold probes. rewrite !seqZ_nil by lia. simpl. by rewrite extend_nil.
  - replace max_attempts with (Z.of_nat (Z.to_nat max_attempts)) by lia.
    apply find_free_port_loop_exhausts. intros j Hj. apply Hall. lia.
Qed.

(** X13. Without Node.js the launcher does nothing but change the directory,
    run the check and print its two lines: no port is probed, the browser
    task is not started, no server is launched, and the exit status is 1. *)
Theorem launcher_without_node (w : World) (env : gmap string string) :
  node_check w = Normal false ->
  StartServer.start_server w (boot env) =
  (Exited 1,
   extend (boot env)
     [Chdir (PROJECT_PATH w);
      Subprocess node_command env;
      Stdout "ОШИБКА: Node.js не найден в PATH!";
      Stdout "Убедитесь, что Node.js установлен и добавлен в системную переменную PATH."]).
Proof.
  intros Hnode. unfold node_check in Hnode.
  rewrite check_node_installed_unfold in Hnode. cbv zeta in Hnode.
  unfold StartServer.start_server. run_prims.
  unfold bind at 1. rewrite check_node_installed_unfold. cbv zeta.
  cbn [environ extend boot].
  destruct (subprocess_exec w node_command) as [r | e].
  - destruct (returncode r =? 0); [discriminate |]. reflexivity.
  - destruct (is_FileNotFoundError e || is_TimeoutExpired e);
      [reflexivity | discriminate].
Qed.

Lemma launcher_without_node_witness :
  fst (StartServer.start_server offline_world (boot ∅)) = Exited 1 /\
  commands (log (snd (StartServer.start_server offline_world (boot ∅))))
  = [["node"; "--version"]].
Proof.
  assert (Hnode : node_check offline_world = Normal false)
    by (vm_compute; reflexivity).
  rewrite (launcher_without_node offline_world ∅ Hnode). by split.
Defined.

Lemma node_check_true w :
  node_check w = Normal true ->
  exists r, subprocess_exec w node_command = Returns r /\ returncode r = 0.
Proof.
  unfold node_check. rewrite check_node_installed_unfold. cbv zeta.
  destruct (subprocess_exec w node_command) as [r | e].
  - destruct (Z.eqb_spec (returncode r) 0); [| discriminate].
    intros _. by exists r.
  - by destruct (is_FileNotFoundError e || is_TimeoutExpired e).
Qed.

Lemma bind_check_node_installed_found {B} w r (k : bool -> M B) s :
  subprocess_exec w node_command = Returns r ->
  returncode r = 0 ->
  bind (StartServer.check_node_installed w) k s =
  k true (extend (extend s [Subprocess node_command (environ s)])
                 [Stdout ("Node.js: " ++ strip (stdout r))]).
Proof.
  intros Hexec Hrc. unfold bind at 1.
  rewrite check_node_installed_unfold, Hexec, Hrc. reflexivity.
Qed.

(** X14. When Node.js is there, the default port is taken and none of the
    ten ports of the search is free, the launcher gives up with status 1
    after probing the default port twice, once by itself and once as the
    first port of the search, and the nine ports after it once: it starts
    no browser task and no server, and leaves [os.environ] as it was. *)
Theorem launcher_search_fails (w : World) (env : gmap string string)
  (r : CompletedProcess) :
  subprocess_exec w node_command = Returns r ->
  returncode r = 0 ->
  port_report w "localhost" 8000 = Normal false ->
  free_port_search w "localhost" 8000 10 = Normal None ->
  StartServer.start_server w (boot env) =
  (Exited 1,
   extend (boot env)
     ([Chdir (PROJECT_PATH w);
       Subprocess node_command env;
       Stdout ("Node.js: " ++ strip (stdout r));
       Connect "localhost" 8000;
       Stdout "⚠️  Порт 8000 уже занят!";
       Stdout "Поиск свободного порта..."] ++
      probes "localhost" 8000 0 10 ++
      [Stdout "❌ Не удалось найти свободный порт!";
       Stdout "Попробуйте завершить процесс, занимающий порт, или используйте другой порт вручную."])).
Proof.
  intros Hexec Hrc Hport Hsearch.
  unfold StartServer.start_server, StartServer.HOST, StartServer.DEFAULT_PORT.
  run_prims. rewrite (bind_check_node_installed_found w r) by done.
  run_prims. rewrite Hport. run_prims.
  rewrite (bind_run _ _ _ _ _ (find_free_port_exhausted _ _ _ _ _ Hsearch)).
  cbn [if_truthy]. run_prims. reflexivity.
Qed.

Lemma launcher_search_fails_witness :
  fst (StartServer.start_server (launcher_world 8010 0) (boot ∅)) = Exited 1 /\
  environ (snd (StartServer.start_server (launcher_world 8010 0) (boot ∅))) = ∅.
Proof.
  assert (Hexec : subprocess_exec (launcher_world 8010 0) node_command
                  = Returns {| returncode := 0; stdout := "v20.11.0" ++ newline |})
    by reflexivity.
  assert (Hport : port_report (launcher_world 8010 0) "localhost" 8000
                  = Normal false) by (vm_compute; reflexivity).
  assert (Hsearch : free_port_search (launcher_world 8010 0) "localhost" 8000 10
                    = Normal None) by (vm_compute; reflexivity).
  rewrite (launcher_search_fails (launcher_world 8010 0) ∅ _ Hexec eq_refl
             Hport Hsearch).
  by split.
Defined.

Lemma probes_connect host start_port first k :
  Forall (fun e => is_connect_event e = true) (probes host start_port first k).
Proof. unfold probes. apply Forall_fmap, Forall_forall. by intros. Qed.

Lemma connect_before_launch l :
  Forall (fun e => is_connect_event e = true) l -> Forall before_launch l.
Proof. intros H. eapply Forall_impl; [exact H |]. by intros []. Qed.

Lemma Forall_stdout_0 : Forall (fun e => is_stdout_event e = true) [].
Proof. constructor. Qed.

Lemma Forall_stdout_1 line :
  Forall (fun e => is_stdout_event e = true) [Stdout line].
Proof. by repeat constructor. Qed.

(** Splits the log of a finished run of the tool-backed launcher around the
    launch of the server. *)
Ltac split_at_launch :=
  match goal with
  | |- context [extend (extend (extend ?S [ThreadStart ?t]) [Subprocess ?c ?e])
                       [Stdout ?m]] =>
      exists (log S), [Stdout m];
      split; [cbn [fst snd log extend environ set_environ set_PORT sys_exit];
             by rewrite <- !app_assoc |];
      split; [| split; [apply Forall_stdout_1 | simpl; lia]]
  | |- context [extend (extend ?S [ThreadStart ?t]) [Subprocess ?c ?e]] =>
      exists (log S), [];
      split; [cbn [fst snd log extend environ set_environ set_PORT sys_exit];
             by rewrite <- !app_assoc |];
      split; [| split; [apply Forall_stdout_0 | simpl; lia]]
  end.

(** X15. In a run of the tool-backed launcher that gets past the check for
    Node.js and settles on the port [p], the global [PORT] ends as [p], the
    banner prints the address with [p], and the browser task for [p] is
    started right before the server command for [p] is spawned.  Before the
    two the launcher starts no browser task and runs no command but the
    check for Node.js; after them it prints one line at most. *)
Theorem tool_launcher_single_port (w : World) (env : gmap string string)
  (p : Z) :
  node_check w = Normal true ->
  resolved_port w p ->
  let final := snd (StartServer.start_server w (boot env)) in
  PORT final = p /\
  In (Stdout ("Адрес:     http://localhost:" ++ str p)) (log final) /\
  exists before after,
    log final =
    (before ++
     [ThreadStart (StartServer.open_browser p);
      Subprocess (StartServer.npx_command p) (environ final)] ++
     after)%list /\
    Forall before_launch before /\
    Forall (fun e => is_stdout_event e = true) after /\
    (length after <= 1)%nat.
Proof.
  intros Hnode Hp final. subst final.
  destruct (node_check_true w Hnode) as (r & Hexec & Hrc).
  unfold StartServer.start_server, StartServer.print_header,
    StartServer.HOST, StartServer.DEFAULT_PORT.
  run_prims. rewrite (bind_check_node_installed_found w r) by done.
  run_prims.
  destruct Hp as [[Hfree ->] | [Htaken Hfound]].
  - rewrite Hfree. run_prims.
    destruct (server_command w 8000) as [res | e | c];
      [| destruct (is_CalledProcessError e);
         [| destruct (is_KeyboardInterrupt e)]; run_prims |];
      (split; [reflexivity |]); (split; [cbn [fst snd]; in_log |]);
      split_at_launch; forall_log.
  - rewrite Htaken. run_prims.
    pose proof (free_port_search_positive _ _ _ Hfound) as Hrange.
    replace p with (8000 + (p - 8000)) in Hfound by lia.
    rewrite (bind_run _ _ _ _ _ (find_free_port_found _ _ _ _ _ _ Hfound)).
    replace (8000 + (p - 8000)) with p by lia.
    rewrite if_truthy_Some by lia. run_prims.
    pose proof (connect_before_launch _
                  (probes_connect "localhost" 8000 0 (p - 8000 + 1))) as Hprobes.
    destruct (server_command w p) as [res | e | c];
      [| destruct (is_CalledProcessError e);
         [| destruct (is_KeyboardInterrupt e)]; run_prims |];
      (split; [reflexivity |]); (split; [cbn [fst snd]; in_log |]);
      split_at_launch; forall_log.
Qed.

(** With 8000..8002 taken the banner, the browser task and the server
    command all carry 8003. *)
Lemma tool_launcher_single_port_witness :
  let final := snd (StartServer.start_server (launcher_world 8003 0) (boot ∅)) in
  PORT final = 8003 /\
  In (Stdout "Адрес:     http://localhost:8003") (log final).
Proof.
  assert (Hnode : node_check (launcher_world 8003 0) = Normal true)
    by (vm_compute; reflexivity).
  assert (Hp : resolved_port (launcher_world 8003 0) 8003)
    by (right; split; vm_compute; reflexivity).
  destruct (tool_launcher_single_port (launcher_world 8003 0) ∅ 8003 Hnode Hp)
    as (HP & Hbanner & _).
  split; assumption.
Defined.

(** X16. Once the launcher has settled on a port, the run ends as the server
    command does: it returns normally when the command ends with status 0,
    and an error of the call that is neither [CalledProcessError] nor an
    interrupt, a missing [npx] for one, leaves the launcher as the
    exception it is, with nothing printed about it. *)
Theorem launcher_lets_errors_through (w : World) (env : gmap string string)
  (p : Z) :
  node_check w = Normal true ->
  resolved_port w p ->
  (forall r, subprocess_exec w (StartServer.npx_command p) = Returns r ->
     returncode r = 0 ->
     fst (StartServer.start_server w (boot env)) = Normal tt) /\
  (forall e, subprocess_exec w (StartServer.npx_command p) = Throws e ->
     is_CalledProcessError e = false ->
     is_KeyboardInterrupt e = false ->
     fst (StartServer.start_server w (boot env)) = Raised e /\
     exists before,
       log (snd (StartServer.start_server w (boot env))) =
       (before ++
        [Subprocess (StartServer.npx_command p)
           (environ (snd (StartServer.start_server w (boot env))))])%list).
Proof.
  intros Hnode Hp.
  destruct (node_check_true w Hnode) as (rn & Hexec & Hrc).
  unfold StartServer.start_server, StartServer.print_header,
    StartServer.HOST, StartServer.DEFAULT_PORT.
  run_prims. rewrite (bind_check_node_installed_found w rn) by done.
  run_prims.
  assert (Hcmd_ok : forall r,
    subprocess_exec w (StartServer.npx_command p) = Returns r ->
    returncode r = 0 -> server_command w p = Normal r).
  { intros r Hr Hz. unfold server_command, subprocess_run_check,
      subprocess_run, bind, get_environ, perform. rewrite Hr. simpl.
    by rewrite Hz. }
  assert (Hcmd_err : forall e,
    subprocess_exec w (StartServer.npx_command p) = Throws e ->
    server_command w p = Raised e).
  { intros e He. unfold server_command, subprocess_run_check,
      subprocess_run, bind, get_environ, perform. by rewrite He. }
  destruct Hp as [[Hfree ->] | [Htaken Hfound]].
  - rewrite Hfree. run_prims. split.
    + intros r Hr Hz. by rewrite (Hcmd_ok r Hr Hz).
    + intros e He Hc Hk. rewrite (Hcmd_err e He), Hc, Hk.
      split; [reflexivity |].
      match goal with
      | |- context [extend ?S [Subprocess ?c ?e]] => exists (log S)
      end.
      reflexivity.
  - rewrite Htaken. run_prims.
    pose proof (free_port_search_positive _ _ _ Hfound) as Hrange.
    replace p with (8000 + (p - 8000)) in Hfound by lia.
    rewrite (bind_run _ _ _ _ _ (find_free_port_found _ _ _ _ _ _ Hfound)).
    replace (8000 + (p - 8000)) with p by lia.
    rewrite if_truthy_Some by lia. run_prims. split.
    + intros r Hr Hz. by rewrite (Hcmd_ok r Hr Hz).
    + intros e He Hc Hk. rewrite (Hcmd_err e He), Hc, Hk.
      split; [reflexivity |].
      match goal with
      | |- context [extend ?S [Subprocess ?c ?e]] => exists (log S)
      end.
      reflexivity.
Qed.

(** Node.js is there and [npx] is not: the launcher ends in the
    [FileNotFoundError] of the call. *)
Lemma launcher_lets_errors_through_witness :
  fst (StartServer.start_server no_npx_world (boot ∅)) = Raised no_such_file.
Proof.
  assert (Hnode : node_check no_npx_world = Normal true)
    by (vm_compute; reflexivity).
  assert (Hp : resolved_port no_npx_world 8000)
    by (left; split; [vm_compute |]; reflexivity).
  destruct (launcher_lets_errors_through no_npx_world ∅ 8000 Hnode Hp)
    as [_ Herr].
  destruct (Herr no_such_file eq_refl eq_refl eq_refl) as [H _].
  exact H.
Defined.

(** ** More on the built-in launcher *)

(** The built-in launcher from the bind on, in a state whose [PORT] is [p]. *)
Lemma builtin_serve_run w p s :
  PORT s = p ->
  (httpd <- try_except
     (StartServerPython.HTTPServer w ("localhost", p))
     (fun e =>
        if is_OSError e then
          Some (print ("❌ Ошибка запуска сервера: " ++ exn_str e) ;;
                sys_exit 1)
        else None) ;;
   PORT <- get_PORT ;;
   perform (ThreadStart (StartServerPython.open_browser PORT)) ;;
   PORT <- get_PORT ;;
   print ("✓ Сервер запущен на http://" ++ "localhost" ++ ":" ++ str PORT) ;;
   print EmptyString ;;
   try_except
     (StartServerPython.serve_forever w httpd)
     (fun e =>
        if is_KeyboardInterrupt e then
          Some (print (newline ++ newline ++ "Остановка сервера...") ;;
                StartServerPython.shutdown httpd ;;
                print "Сервер остановлен." ;;
                sys_exit 0)
        else None)) s =
  let s1 := extend s [Listen "localhost" p] in
  match http_server_bind w "localhost" p with
  | Throws e =>
      if is_OSError e
      then (Exited 1,
            extend s1 [Stdout ("❌ Ошибка запуска сервера: " ++ exn_str e)])
      else (Raised e, s1)
  | Returns _ =>
      let s2 :=
        extend s1
          [ThreadStart (StartServerPython.open_browser p);
           Stdout ("✓ Сервер запущен на http://localhost:" ++ str p);
           Stdout EmptyString;
           ServeForever "localhost" p] in
      match http_serve_forever w "localhost" p with
      | Returns _ => (Normal tt, s2)
      | Throws e =>
          if is_KeyboardInterrupt e
          then (Exited 0,
                extend s2
                  [Stdout (newline ++ newline ++ "Остановка сервера...");
                   Shutdown;
                   Stdout "Сервер остановлен."])
          else (Raised e, s2)
      end
  end.
Proof.
  intros HP. cbv zeta.
  rewrite bind_try_except, HTTPServer_run. cbn [fst snd].
  destruct (http_server_bind w "localhost" p) as [[] | e].
  - run_launcher. unfold try_except. rewrite serve_forever_run. cbn [fst snd].
    rewrite HP.
    destruct (http_serve_forever w "localhost" p) as [[] | e];
      [| destruct (is_KeyboardInterrupt e);
         [unfold StartServerPython.shutdown; run_launcher |]];
      rewrite !extend_extend; reflexivity.
  - destruct (is_OSError e); run_launcher; reflexivity.
Qed.

Lemma connect_settling l :
  Forall (fun e => is_connect_event e = true) l -> Forall settling l.
Proof. intros H. eapply Forall_impl; [exact H |]. by intros []. Qed.

(** A run of the built-in launcher that settles on a port. *)
Lemma builtin_start_server_run w env p :
  resolved_port w p ->
  exists before,
    PORT before = p /\ environ before = env /\
    Forall settling (log before) /\
    StartServerPython.start_server w (boot env) =
    let s1 := extend before [Listen "localhost" p] in
    match http_server_bind w "localhost" p with
    | Throws e =>
        if is_OSError e
        then (Exited 1,
              extend s1 [Stdout ("❌ Ошибка запуска сервера: " ++ exn_str e)])
        else (Raised e, s1)
    | Returns _ =>
        let s2 :=
          extend s1
            [ThreadStart (StartServerPython.open_browser p);
             Stdout ("✓ Сервер запущен на http://localhost:" ++ str p);
             Stdout EmptyString;
             ServeForever "localhost" p] in
        match http_serve_forever w "localhost" p with
        | Returns _ => (Normal tt, s2)
        | Throws e =>
            if is_KeyboardInterrupt e
            then (Exited 0,
                  extend s2
                    [Stdout (newline ++ newline ++ "Остановка сервера...");
                     Shutdown;
                     Stdout "Сервер остановлен."])
            else (Raised e, s2)
        end
    end.
Proof.
  intros Hp.
  unfold StartServerPython.start_server, StartServerPython.print_header,
    StartServerPython.HOST, StartServerPython.DEFAULT_PORT.
  run_launcher.
  destruct Hp as [[Hfree ->] | [Htaken Hfound]].
  - rewrite Hfree. run_launcher.
    eexists. split; [| split; [| split; [| by apply builtin_serve_run]]];
      [reflexivity | reflexivity | forall_log].
  - rewrite Htaken. run_launcher. rewrite Hfound.
    apply free_port_search_positive in Hfound.
    rewrite if_truthy_Some by lia. run_launcher.
    apply connect_settling in Hsearch.
    eexists. split; [| split; [| split; [| by apply builtin_serve_run]]];
      [reflexivity | reflexivity | forall_log].
Qed.

(** How the built-in launcher ends, by what the world answers. *)
Lemma builtin_start_server_result w env :
  let serve p :=
    match http_server_bind w "localhost" p with
    | Throws e => if is_OSError e then Exited 1 else Raised e
    | Returns _ =>
        match http_serve_forever w "localhost" p with
        | Returns _ => Normal tt
        | Throws e => if is_KeyboardInterrupt e then Exited 0 else Raised e
        end
    end in
  fst (StartServerPython.start_server w (boot env)) =
  match port_report w "localhost" 8000 with
  | Normal true => serve 8000
  | Normal false =>
      match free_port_search w "localhost" 8000 10 with
      | Normal (Some p) => serve p
      | Normal None => Exited 1
      | Raised e => Raised e
      | Exited c => Exited c
      end
  | Raised e => Raised e
  | Exited c => Exited c
  end.
Proof.
  intros serve.
  assert (Hserve : forall p, resolved_port w p ->
            fst (StartServerPython.start_server w (boot env)) = serve p).
  { intros p Hp.
    destruct (builtin_start_server_run w env p Hp) as (before & _ & _ & _ & ->).
    subst serve. cbv beta zeta.
    destruct (http_server_bind w "localhost" p) as [[] | e];
      [destruct (http_serve_forever w "localhost" p) as [[] | e];
         [| destruct (is_KeyboardInterrupt e)]
      | destruct (is_OSError e)]; reflexivity. }
  destruct (port_report w "localhost" 8000) as [[|] | e | c] eqn:Hport.
  - apply Hserve. by left.
  - destruct (free_port_search w "localhost" 8000 10) as [[p |] | e | c]
      eqn:Hfound.
    + apply Hserve. by right.
    + unfold StartServerPython.start_server, StartServerPython.HOST,
        StartServerPython.DEFAULT_PORT.
      run_launcher. rewrite Hport. run_launcher. rewrite Hfound.
      run_launcher. reflexivity.
    + unfold StartServerPython.start_server, StartServerPython.HOST,
        StartServerPython.DEFAULT_PORT.
      run_launcher. rewrite Hport. run_launcher. rewrite Hfound.
      reflexivity.
    + by destruct (free_port_search_no_exit w "localhost" 8000 10 c).
  - unfold StartServerPython.start_server, StartServerPython.HOST,
      StartServerPython.DEFAULT_PORT.
    run_launcher. rewrite Hport. reflexivity.
  - by destruct (port_report_no_exit w "localhost" 8000 c).
Qed.

(** X17. The built-in launcher leaves through [sys.exit(1)] exactly when the
    default port is taken and the search finds no free port, or the bind
    to the port it settled on fails with [OSError]; it leaves through
    [sys.exit(0)] exactly when the bind succeeds and the serving loop is
    interrupted from the keyboard; and it returns normally exactly when
    the bind succeeds and the serving loop returns. *)
Theorem builtin_launcher_exit_status (w : World) (env : gmap string string) :
  let r := fst (StartServerPython.start_server w (boot env)) in
  (r = Exited 1 <->
     (port_report w "localhost" 8000 = Normal false /\
      free_port_search w "localhost" 8000 10 = Normal None) \/
     (exists p e, resolved_port w p /\
        http_server_bind w "localhost" p = Throws e /\
        is_OSError e = true)) /\
  (r = Exited 0 <->
     exists p e, resolved_port w p /\
       http_server_bind w "localhost" p = Returns tt /\
       http_serve_forever w "localhost" p = Throws e /\
       is_KeyboardInterrupt e = true) /\
  (r = Normal tt <->
     exists p, resolved_port w p /\
       http_server_bind w "localhost" p = Returns tt /\
       http_serve_forever w "localhost" p = Returns tt).
Proof.
  intros r. subst r. rewrite builtin_start_server_result. cbv zeta.
  assert (Hserve : forall p, resolved_port w p ->
    let ending :=
      match http_server_bind w "localhost" p with
      | Throws e => if is_OSError e then Exited 1 else Raised e
      | Returns _ =>
          match http_serve_forever w "localhost" p with
          | Returns _ => Normal tt
          | Throws e => if is_KeyboardInterrupt e then Exited 0 else Raised e
          end
      end in
    (ending = Exited 1 <->
       (port_report w "localhost" 8000 = Normal false /\
        free_port_search w "localhost" 8000 10 = Normal None) \/
       (exists p e, resolved_port w p /\
          http_server_bind w "localhost" p = Throws e /\
          is_OSError e = true)) /\
    (ending = Exited 0 <->
       exists p e, resolved_port w p /\
         http_server_bind w "localhost" p = Returns tt /\
         http_serve_forever w "localhost" p = Throws e /\
         is_KeyboardInterrupt e = true) /\
    (ending = Normal tt <->
       exists p, resolved_port w p /\
         http_server_bind w "localhost" p = Returns tt /\
         http_serve_forever w "localhost" p = Returns tt)).
  { intros p Hp ending. subst ending.
    assert (Hnot_failed :
      ~ (port_report w "localhost" 8000 = Normal false /\
         free_port_search w "localhost" 8000 10 = Normal None)).
    { intros [Ht Hn]. destruct Hp as [[Hf _] | [_ Hs]]; congruence. }
    assert (Hsame : forall q, resolved_port w q -> q = p)
      by (intros q Hq; exact (resolved_port_unique w q p Hq Hp)).
    destruct (http_server_bind w "localhost" p) as [[] | e] eqn:Hbind.
    - destruct (http_serve_forever w "localhost" p) as [[] | e] eqn:Hloop;
        [| destruct (is_KeyboardInterrupt e) eqn:Hk].
      + split; [| split].
        * split; [discriminate |].
          intros [H | (q & e & Hq & Hb & _)]; [by destruct Hnot_failed |].
          apply Hsame in Hq as ->. congruence.
        * split; [discriminate |].
          intros (q & e & Hq & _ & Hl & _). apply Hsame in Hq as ->. congruence.
        * split; [| done]. intros _. by exists p.
      + split; [| split].
        * split; [discriminate |].
          intros [H | (q & e' & Hq & Hb & _)]; [by destruct Hnot_failed |].
          apply Hsame in Hq as ->. congruence.
        * split; [| done]. intros _. by exists p, e.
        * split; [discriminate |].
          intros (q & Hq & _ & Hl). apply Hsame in Hq as ->. congruence.
      + split; [| split].
        * split; [discriminate |].
          intros [H | (q & e' & Hq & Hb & _)]; [by destruct Hnot_failed |].
          apply Hsame in Hq as ->. congruence.
        * split; [discriminate |].
          intros (q & e' & Hq & _ & Hl & Hk'). apply Hsame in Hq as ->.
          congruence.
        * split; [discriminate |].
          intros (q & Hq & _ & Hl). apply Hsame in Hq as ->. congruence.
    - destruct (is_OSError e) eqn:Hos.
      + split; [| split].
        * split; [| done]. intros _. right. by exists p, e.
        * split; [discriminate |].
          intros (q & e' & Hq & Hb & _). apply Hsame in Hq as ->. congruence.
        * split; [discriminate |].
          intros (q & Hq & Hb & _). apply Hsame in Hq as ->. congruence.
      + split; [| split].
        * split; [discriminate |].
          intros [H | (q & e' & Hq & Hb & Hos')]; [by destruct Hnot_failed |].
          apply Hsame in Hq as ->. congruence.
        * split; [discriminate |].
          intros (q & e' & Hq & Hb & _). apply Hsame in Hq as ->. congruence.
        * split; [discriminate |].
          intros (q & Hq & Hb & _). apply Hsame in Hq as ->. congruence. }
  assert (Hunresolved :
    (forall p, ~ resolved_port w p) ->
    forall r : outcome unit,
      (r = Exited 1 <->
       port_report w "localhost" 8000 = Normal false /\
       free_port_search w "localhost" 8000 10 = Normal None) ->
      r <> Exited 0 -> r <> Normal tt ->
      (r = Exited 1 <->
         (port_report w "localhost" 8000 = Normal false /\
          free_port_search w "localhost" 8000 10 = Normal None) \/
         (exists p e, resolved_port w p /\
            http_server_bind w "localhost" p = Throws e /\
            is_OSError e = true)) /\
      (r = Exited 0 <->
         exists p e, resolved_port w p /\
           http_server_bind w "localhost" p = Returns tt /\
           http_serve_forever w "localhost" p = Throws e /\
           is_KeyboardInterrupt e = true) /\
      (r = Normal tt <->
         exists p, resolved_port w p /\
           http_server_bind w "localhost" p = Returns tt /\
           http_serve_forever w "localhost" p = Returns tt)).
  { intros Hno r H1 H0 Hn. split; [| split].
    - rewrite H1. split; [by left |].
      intros [H | (p & _ & Hp & _)]; [done | by destruct (Hno p)].
    - split; [done |]. intros (p & _ & Hp & _). by destruct (Hno p).
    - split; [done |]. intros (p & Hp & _). by destruct (Hno p). }
  destruct (port_report w "localhost" 8000) as [[|] | e | c] eqn:Hport.
  - apply (Hserve 8000). left. by split.
  - destruct (free_port_search w "localhost" 8000 10) as [[p |] | e | c]
      eqn:Hfound.
    + apply (Hserve p). right. by split.
    + apply Hunresolved; try done.
      intros p [[? _] | [_ ?]]; congruence.
    + apply Hunresolved; try done.
      * intros p [[? _] | [_ ?]]; congruence.
      * split; [discriminate | by intros [_ ?]].
    + by destruct (free_port_search_no_exit w "localhost" 8000 10 c).
  - apply Hunresolved; try done.
    + intros p [[? _] | [? _]]; congruence.
    + split; [discriminate | by intros [? _]].
  - by destruct (port_report_no_exit w "localhost" 8000 c).
Qed.

(** The probe finds port 8000 free and the bind to it fails: status 1. *)
Lemma builtin_launcher_exit_status_witness :
  fst (StartServerPython.start_server bind_fails_world (boot ∅)) = Exited 1.
Proof.
  apply (builtin_launcher_exit_status bind_fails_world ∅).
  right. exists 8000, address_in_use.
  split; [left; split; [vm_compute |]; reflexivity |].
  split; reflexivity.
Defined.

(** X18. When the bind to the port the launcher settled on fails, the run
    stops there: with [OSError] it prints the error and leaves with status
    1, with any other exception it lets the exception through; either way
    the browser task is not started and nothing is served, the launcher
    having only changed the directory, probed ports and printed before. *)
Theorem builtin_bind_failure (w : World) (env : gmap string string)
  (p : Z) (e : exn) :
  resolved_port w p ->
  http_server_bind w "localhost" p = Throws e ->
  exists before,
    Forall settling before /\
    StartServerPython.start_server w (boot env) =
    if is_OSError e
    then (Exited 1,
          {| environ := env; PORT := p;
             log := before ++
                    [Listen "localhost" p;
                     Stdout ("❌ Ошибка запуска сервера: " ++ exn_str e)] |})
    else (Raised e,
          {| environ := env; PORT := p;
             log := before ++ [Listen "localhost" p] |}).
Proof.
  intros Hp Hbind.
  destruct (builtin_start_server_run w env p Hp)
    as (before & HP & Henv & Hbefore & ->).
  exists (log before). split; [exact Hbefore |].
  cbv zeta. rewrite Hbind, extend_extend.
  unfold extend. rewrite HP, Henv.
  by destruct (is_OSError e).
Qed.

Lemma builtin_bind_failure_witness :
  exists before,
    Forall settling before /\
    StartServerPython.start_server bind_fails_world (boot ∅) =
    (Exited 1,
     {| environ := ∅; PORT := 8000;
        log := before ++
               [Listen "localhost" 8000;
                Stdout "❌ Ошибка запуска сервера: [Errno 98] Address already in use"] |}).
Proof.
  assert (Hp : resolved_port bind_fails_world 8000)
    by (left; split; [vm_compute |]; reflexivity).
  assert (Hbind : http_server_bind bind_fails_world "localhost" 8000
                  = Throws address_in_use) by reflexivity.
  destruct (builtin_bind_failure bind_fails_world ∅ 8000 address_in_use
              Hp Hbind) as (before & Hbefore & Hrun).
  exists before. split; [exact Hbefore | exact Hrun].
Defined.

(** X19. Once the bind to the port [p] succeeds the launcher starts the
    browser task for [p], announces the address and serves, in that
    order.  When the serving loop is interrupted from the keyboard it
    prints that it stops, shuts the server down, prints that it stopped
    and leaves with status 0; any other exception of the serving loop
    goes through with no shutdown. *)
Theorem builtin_serves_and_shuts_down (w : World) (env : gmap string string)
  (p : Z) :
  resolved_port w p ->
  http_server_bind w "localhost" p = Returns tt ->
  exists before,
    Forall settling before /\
    let served :=
      {| environ := env; PORT := p;
         log := before ++
                [Listen "localhost" p;
                 ThreadStart (StartServerPython.open_browser p);
                 Stdout ("✓ Сервер запущен на http://localhost:" ++ str p);
                 Stdout EmptyString;
                 ServeForever "localhost" p] |} in
    (http_serve_forever w "localhost" p = Returns tt ->
     StartServerPython.start_server w (boot env) = (Normal tt, served)) /\
    (forall e, http_serve_forever w "localhost" p = Throws e ->
       is_KeyboardInterrupt e = true ->
       StartServerPython.start_server w (boot env) =
       (Exited 0,
        extend served
          [Stdout (newline ++ newline ++ "Остановка сервера...");
           Shutdown;
           Stdout "Сервер остановлен."])) /\
    (forall e, http_serve_forever w "localhost" p = Throws e ->
       is_KeyboardInterrupt e = false ->
       StartServerPython.start_server w (boot env) = (Raised e, served)).
Proof.
  intros Hp Hbind.
  destruct (builtin_start_server_run w env p Hp)
    as (before & HP & Henv & Hbefore & ->).
  exists (log before). split; [exact Hbefore |].
  cbv zeta. rewrite Hbind, !extend_extend.
  unfold extend. rewrite HP, Henv. cbn [app environ PORT log].
  split; [| split].
  - by intros ->.
  - intros e -> ->. by rewrite <- !app_assoc.
  - by intros e -> ->.
Qed.

Lemma builtin_serves_and_shuts_down_witness :
  fst (StartServerPython.start_server (launcher_world 8003 0) (boot ∅))
  = Exited 0.
Proof.
  assert (Hp : resolved_port (launcher_world 8003 0) 8003)
    by (right; split; vm_compute; reflexivity).
  assert (Hbind : http_server_bind (launcher_world 8003 0) "localhost" 8003
                  = Returns tt) by reflexivity.
  destruct (builtin_serves_and_shuts_down (launcher_world 8003 0) ∅ 8003
              Hp Hbind) as (before & _ & _ & Hstop & _).
  rewrite (Hstop interrupt eq_refl eq_refl). reflexivity.
Defined.

Lemma settling_no_subprocess l :
  Forall settling l -> Forall (fun e => is_subprocess_event e = false) l.
Proof. intros H. eapply Forall_impl; [exact H |]. by intros []. Qed.

Lemma connect_no_subprocess l :
  Forall (fun e => is_connect_event e = true) l ->
  Forall (fun e => is_subprocess_event e = false) l.
Proof. intros H. eapply Forall_impl; [exact H |]. by intros []. Qed.

(** X20. The built-in launcher makes no call to [subprocess]: whatever the
    world answers, no command is run by the launcher itself, the browser
    being left to [webbrowser.open] in the thread it starts, and it leaves
    [os.environ] as it found it. *)
Theorem builtin_launcher_runs_no_subprocess (w : World)
  (env : gmap string string) :
  let final := snd (StartServerPython.start_server w (boot env)) in
  environ final = env /\
  Forall (fun e => is_subprocess_event e = false) (log final).
Proof.
  intros final. subst final.
  assert (Hresolved : forall p, resolved_port w p ->
    environ (snd (StartServerPython.start_server w (boot env))) = env /\
    Forall (fun e => is_subprocess_event e = false)
           (log (snd (StartServerPython.start_server w (boot env))))).
  { intros p Hp.
    destruct (builtin_start_server_run w env p Hp)
      as (before & _ & Henv & Hbefore & ->).
    apply settling_no_subprocess in Hbefore. cbv zeta.
    destruct (http_server_bind w "localhost" p) as [[] | e];
      [destruct (http_serve_forever w "localhost" p) as [[] | e];
         [| destruct (is_KeyboardInterrupt e)]
      | destruct (is_OSError e)];
      cbn [snd]; (split; [exact Henv | forall_log]). }
  destruct (port_report w "localhost" 8000) as [[|] | e | c] eqn:Hport.
  - apply (Hresolved 8000). left. by split.
  - destruct (free_port_search w "localhost" 8000 10) as [[p |] | e | c]
      eqn:Hfound.
    + apply (Hresolved p). right. by split.
    + unfold StartServerPython.start_server, StartServerPython.HOST,
        StartServerPython.DEFAULT_PORT.
      run_launcher. rewrite Hport. run_launcher. rewrite Hfound.
      run_launcher. apply connect_no_subprocess in Hsearch.
      cbn [snd]. split; [reflexivity | forall_log].
    + unfold StartServerPython.start_server, StartServerPython.HOST,
        StartServerPython.DEFAULT_PORT.
      run_launcher. rewrite Hport. run_launcher. rewrite Hfound.
      apply connect_no_subprocess in Hsearch.
      cbn [snd]. split; [reflexivity | forall_log].
    + by destruct (free_port_search_no_exit w "localhost" 8000 10 c).
  - unfold StartServerPython.start_server, StartServerPython.HOST,
      StartServerPython.DEFAULT_PORT.
    run_launcher. rewrite Hport.
    cbn [snd]. split; [reflexivity | forall_log].
  - by destruct (port_report_no_exit w "localhost" 8000 c).
Qed.

(** ** More on the response headers *)

Lemma header_count_app keyword block1 block2 :
  header_count keyword (block1 ++ block2) =
  (header_count keyword block1 + header_count keyword block2)%nat.
Proof. unfold header_count. by rewrite List.filter_app, length_app. Qed.

(** X21. For a request of HTTP/1.0 or later the handler adds its headers
    without looking at what the response already carries: in the block it
    writes, each of the three security headers occurs once more than the
    base class and the buffer brought it, so exactly once when they did
    not bring it, and twice when they brought it once. *)
Theorem security_headers_are_not_merged
  (own_headers : list (string * string)) (h : StartServerPython.Handler)
  (keyword value : string) :
  String.eqb (StartServerPython.request_version h) "HTTP/0.9" = false ->
  In (keyword, value) security_headers ->
  forall block,
    last (StartServerPython.wfile (StartServerPython.respond own_headers h))
      = Some block ->
    header_count keyword block =
    S (header_count keyword (StartServerPython.headers_buffer h ++ own_headers)).
Proof.
  intros Hv Hin block. rewrite respond_unfold by done.
  cbn [StartServerPython.wfile].
  rewrite last_snoc. intros [= <-].
  rewrite app_assoc, header_count_app, Nat.add_comm.
  assert (header_count keyword security_headers = 1%nat) as Hone.
  { destruct Hin as [[= <- _] | [[= <- _] | [[= <- _] | []]]]; reflexivity. }
  unfold security_headers in Hone. by rewrite Hone.
Qed.

(** A response that brings [X-Frame-Options] of its own carries it twice. *)
Lemma security_headers_are_not_merged_witness :
  exists block,
    last (StartServerPython.wfile
            (StartServerPython.respond
               [("Content-type", "text/html"); ("X-Frame-Options", "DENY")]
               {| StartServerPython.request_version := "HTTP/1.1";
                  StartServerPython.headers_buffer := [];
                  StartServerPython.wfile := [] |})) = Some block /\
    header_count "X-Frame-Options" block = 2%nat /\
    header_count "X-XSS-Protection" block = 1%nat.
Proof.
  set (own := [("Content-type", "text/html"); ("X-Frame-Options", "DENY")]).
  set (h := {| StartServerPython.request_version := "HTTP/1.1";
               StartServerPython.headers_buffer := [];
               StartServerPython.wfile := [] |}).
  assert (Hv : String.eqb (StartServerPython.request_version h) "HTTP/0.9"
               = false) by reflexivity.
  assert (Hframe : In ("X-Frame-Options", "SAMEORIGIN") security_headers)
    by (right; left; reflexivity).
  assert (Hxss : In ("X-XSS-Protection", "1; mode=block") security_headers)
    by (right; right; left; reflexivity).
  assert (Hlast : last (StartServerPython.wfile (StartServerPython.respond own h))
                  = Some (own ++ security_headers)%list) by reflexivity.
  exists (own ++ security_headers)%list. split; [exact Hlast |]. split.
  - rewrite (security_headers_are_not_merged own h _ _ Hv Hframe _ Hlast).
    reflexivity.
  - rewrite (security_headers_are_not_merged own h _ _ Hv Hxss _ Hlast).
    reflexivity.
Defined.

Lemma respond_all_http09 responses h :
  String.eqb (StartServerPython.request_version h) "HTTP/0.9" = true ->
  respond_all responses h = h.
Proof.
  intros Hv. unfold respond_all.
  induction responses as [| first rest IH]; [done |].
  cbn [fold_left]. by rewrite respond_http09.
Qed.

(** X22. Responses on one handler do not mix.  For requests of HTTP/1.0 or
    later a sequence of responses writes one header block per response,
    in order, each made of the headers of that response followed by the
    three security headers; what was left in the buffer goes out with the
    first response only, and the buffer is empty after each.  For
    HTTP/0.9 requests nothing is written and the buffer stays as it
    was. *)
Theorem responses_do_not_mix
  (responses : list (list (string * string))) (h : StartServerPython.Handler) :
  StartServerPython.wfile (respond_all responses h) =
    (StartServerPython.wfile h ++
     if String.eqb (StartServerPython.request_version h) "HTTP/0.9" then []
     else
       match responses with
       | [] => []
       | first :: rest =>
           (StartServerPython.headers_buffer h ++ first ++ security_headers)
           :: map (fun own_headers => own_headers ++ security_headers) rest
       end)%list /\
  StartServerPython.headers_buffer (respond_all responses h) =
    (if String.eqb (StartServerPython.request_version h) "HTTP/0.9"
     then StartServerPython.headers_buffer h
     else
       match responses with
       | [] => StartServerPython.headers_buffer h
       | _ :: _ => []
       end).
Proof.
  destruct (String.eqb (StartServerPython.request_version h) "HTTP/0.9")
    eqn:Hv.
  { rewrite respond_all_http09 by done. by rewrite app_nil_r. }
  revert h Hv. induction responses as [| first rest IH]; intros h Hv.
  - simpl. by rewrite app_nil_r.
  - unfold respond_all in *. cbn [fold_left].
    rewrite respond_unfold by done.
    match goal with
    | |- context [fold_left _ rest ?h'] =>
        destruct (IH h' Hv) as [Hw Hb]; rewrite Hw, Hb
    end.
    cbn [StartServerPython.wfile StartServerPython.headers_buffer].
    split.
    + rewrite <- app_assoc. f_equal. by destruct rest.
    + by destruct rest.
Qed.

(** ** The virtual environment *)

Lemma later_emit pre e s1 s2 :
  later pre s1 s2 -> later pre (emit e s1) (emit e s2).
Proof.
  intros (He & HP & HL). repeat split; [done | done |].
  simpl. by rewrite HL, app_assoc.
Qed.

Lemma oblivious_ret {A} (a : A) : oblivious (ret a).
Proof. by intros pre s1 s2 H. Qed.

Lemma oblivious_raise {A} e : oblivious (@raise A e).
Proof. by intros pre s1 s2 H. Qed.

Lemma oblivious_sys_exit {A} c : oblivious (@sys_exit A c).
Proof. by intros pre s1 s2 H. Qed.

Lemma oblivious_of_answer {A} (a : answer A) : oblivious (of_answer a).
Proof. destruct a; [apply oblivious_ret | apply oblivious_raise]. Qed.

Lemma oblivious_perform e : oblivious (perform e).
Proof. intros pre s1 s2 H. split; [done |]. by apply later_emit. Qed.

Lemma oblivious_print line : oblivious (print line).
Proof. apply oblivious_perform. Qed.

Lemma oblivious_get_PORT : oblivious get_PORT.
Proof. intros pre s1 s2 H. split; [| done]. simpl. f_equal. apply H. Qed.

Lemma oblivious_put_PORT p : oblivious (put_PORT p).
Proof. intros pre s1 s2 (He & HP & HL). by repeat split. Qed.

Lemma oblivious_put_environ k v : oblivious (put_environ k v).
Proof.
  intros pre s1 s2 (He & HP & HL). repeat split; try done.
  simpl. by rewrite He.
Qed.

Lemma oblivious_bind {A B} (m : M A) (k : A -> M B) :
  oblivious m -> (forall a, oblivious (k a)) -> oblivious (bind m k).
Proof.
  intros Hm Hk pre s1 s2 H. unfold bind.
  destruct (Hm pre s1 s2 H) as [Hr Hs].
  destruct (m s1) as [r1 s1'], (m s2) as [r2 s2']. simpl in *. subst r2.
  destruct r1 as [a | e | c]; [by apply Hk | done | done].
Qed.

Lemma oblivious_try_except {A} (body : M A) handler :
  oblivious body -> (forall e k, handler e = Some k -> oblivious k) ->
  oblivious (try_except body handler).
Proof.
  intros Hm Hh pre s1 s2 H. unfold try_except.
  destruct (Hm pre s1 s2 H) as [Hr Hs].
  destruct (body s1) as [r1 s1'], (body s2) as [r2 s2']. simpl in *. subst r2.
  destruct r1 as [a | e | c]; [done | | done].
  destruct (handler e) as [k |] eqn:Hk; [by apply (Hh e k) | done].
Qed.

Lemma oblivious_subprocess_run w cmd : oblivious (subprocess_run w cmd).
Proof.
  intros pre s1 s2 H. unfold subprocess_run, bind, get_environ, perform.
  destruct H as (He & HP & HL). rewrite He.
  destruct (subprocess_exec w cmd) as [r | e]; simpl;
    (split; [done | by apply later_emit]).
Qed.

Lemma oblivious_subprocess_run_check w cmd :
  oblivious (subprocess_run_check w cmd).
Proof.
  apply oblivious_bind; [apply oblivious_subprocess_run |].
  intros r. destruct (returncode r =? 0);
    [apply oblivious_ret | apply oblivious_raise].
Qed.

Lemma oblivious_connect_ex w host port : oblivious (connect_ex w host port).
Proof.
  apply oblivious_bind;
    [apply oblivious_perform | intros _; apply oblivious_of_answer].
Qed.

Ltac oblivious_step :=
  lazymatch goal with
  | |- oblivious (bind _ _) => apply oblivious_bind; [| intros ?]
  | |- oblivious (try_except _ _) => apply oblivious_try_except; [| tame_handler]
  | |- oblivious (ret _) => apply oblivious_ret
  | |- oblivious (raise _) => apply oblivious_raise
  | |- oblivious (sys_exit _) => apply oblivious_sys_exit
  | |- oblivious (of_answer _) => apply oblivious_of_answer
  | |- oblivious (print _) => apply oblivious_print
  | |- oblivious (perform _) => apply oblivious_perform
  | |- oblivious get_PORT => apply oblivious_get_PORT
  | |- oblivious (put_PORT _) => apply oblivious_put_PORT
  | |- oblivious (put_environ _ _) => apply oblivious_put_environ
  | |- oblivious (subprocess_run_check _ _) =>
      apply oblivious_subprocess_run_check
  | |- oblivious (subprocess_run _ _) => apply oblivious_subprocess_run
  | |- oblivious (connect_ex _ _ _) => apply oblivious_connect_ex
  | |- oblivious (if ?b then _ else _) => destruct b
  | |- oblivious (match ?x with _ => _ end) => destruct x
  end.

Lemma oblivious_check_port_available w host port :
  oblivious (check_port_available w host port).
Proof. unfold check_port_available. repeat oblivious_step. Qed.

Lemma oblivious_find_free_port w host start_port max_attempts :
  oblivious (find_free_port w host start_port max_attempts).
Proof.
  unfold find_free_port. induction (seqZ 0 max_attempts) as [| i rest IH]; simpl.
  - apply oblivious_ret.
  - apply oblivious_bind; [apply oblivious_check_port_available |].
    intros [|]; [apply oblivious_ret | apply IH].
Qed.

Lemma oblivious_check_node_installed w :
  oblivious (StartServer.check_node_installed w).
Proof. unfold StartServer.check_node_installed. repeat oblivious_step. Qed.

Lemma oblivious_start_server w : oblivious (StartServer.start_server w).
Proof.
  unfold StartServer.start_server, StartServer.print_header.
  repeat lazymatch goal with
         | |- oblivious (StartServer.check_node_installed _) =>
             apply oblivious_check_node_installed
         | |- oblivious (check_port_available _ _ _) =>
             apply oblivious_check_port_available
         | |- oblivious (find_free_port _ _ _ _) =>
             apply oblivious_find_free_port
         | |- _ => oblivious_step
         end.
Qed.

Lemma oblivious_builtin_start_server w :
  oblivious (StartServerPython.start_server w).
Proof.
  unfold StartServerPython.start_server, StartServerPython.print_header,
    StartServerPython.HTTPServer, StartServerPython.serve_forever,
    StartServerPython.shutdown.
  repeat lazymatch goal with
         | |- oblivious (check_port_available _ _ _) =>
             apply oblivious_check_port_available
         | |- oblivious (find_free_port _ _ _ _) =>
             apply oblivious_find_free_port
         | |- _ => oblivious_step
         end.
Qed.

Lemma later_boot env announcement :
  later announcement (extend (boot env) announcement) (boot env).
Proof. repeat split. simpl. by rewrite app_nil_r. Qed.

(** A launcher run after an announcement. *)
Lemma oblivious_after {A} (m : M A) env announcement :
  oblivious m ->
  fst (m (extend (boot env) announcement)) = fst (m (boot env)) /\
  environ (snd (m (extend (boot env) announcement)))
    = environ (snd (m (boot env))) /\
  PORT (snd (m (extend (boot env) announcement))) = PORT (snd (m (boot env))) /\
  log (snd (m (extend (boot env) announcement)))
    = (announcement ++ log (snd (m (boot env))))%list.
Proof.
  intros Hm.
  destruct (Hm announcement _ _ (later_boot env announcement))
    as (Hr & He & HP & HL).
  done.
Qed.

(** X23. [activate_venv] answers with the interpreter of the virtual
    environment, [Scripts\python.exe] on Windows and [bin/python]
    elsewhere, exactly when both the directory [venv] and that interpreter
    exist; it prints one line when it does and nothing otherwise, and it
    changes nothing else. *)
Theorem activate_venv_verdict (fs : FileSystem) (w : World) (s : State) :
  let python_exe :=
    if String.eqb (sys_platform fs) "win32"
    then os_path_join fs (os_path_join fs (VENV_PATH fs w) "Scripts") "python.exe"
    else os_path_join fs (os_path_join fs (VENV_PATH fs w) "bin") "python" in
  (os_path_exists fs (VENV_PATH fs w) = true ->
   os_path_exists fs python_exe = true ->
   activate_venv fs w s =
   (Normal (Some python_exe),
    extend s [Stdout ("✓ Используется виртуальное окружение: " ++ VENV_PATH fs w)])) /\
  (os_path_exists fs (VENV_PATH fs w) = false \/
   os_path_exists fs python_exe = false ->
   activate_venv fs w s = (Normal None, s)).
Proof.
  intros python_exe. subst python_exe. unfold activate_venv.
  destruct (os_path_exists fs (VENV_PATH fs w));
    destruct (String.eqb (sys_platform fs) "win32"); cbv zeta;
    (split; [intros Hdir Hexe | intros [Hdir | Hexe]]);
    try discriminate; try rewrite Hexe; reflexivity.
Qed.

Lemma activate_venv_verdict_witness :
  activate_venv with_venv offline_world (boot ∅) =
  (Normal (Some "/srv/quantum_supremacy/venv/bin/python"),
   extend (boot ∅)
     [Stdout "✓ Используется виртуальное окружение: /srv/quantum_supremacy/venv"]) /\
  activate_venv without_venv offline_world (boot ∅) = (Normal None, boot ∅).
Proof.
  split.
  - exact (proj1 (activate_venv_verdict with_venv offline_world (boot ∅))
             eq_refl eq_refl).
  - apply (proj2 (activate_venv_verdict without_venv offline_world (boot ∅))).
    by left.
Defined.

(** X24. The tool-backed launcher announces the virtual environment and
    does not use it.  Run as a script, it prints two lines at most, the
    announcement and an empty line, and then does what [start_server] does
    by itself: it ends the same way, leaves the same [PORT] and the same
    [os.environ], and runs the same commands in the same environment.  In
    particular the interpreter [activate_venv] returned is never run. *)
Theorem venv_is_announced_not_used (fs : FileSystem) (w : World)
  (env : gmap string string) :
  let script := start_server_main fs w (boot env) in
  let bare := StartServer.start_server w (boot env) in
  fst script = fst bare /\
  environ (snd script) = environ (snd bare) /\
  PORT (snd script) = PORT (snd bare) /\
  exists announcement,
    log (snd script) = (announcement ++ log (snd bare))%list /\
    Forall (fun e => is_stdout_event e = true) announcement /\
    (length announcement <= 2)%nat /\
    (fst (activate_venv fs w (boot env)) = Normal None -> announcement = []).
Proof.
  intros script bare. subst script bare.
  pose proof (oblivious_start_server w) as Hm.
  unfold start_server_main, activate_venv.
  destruct (os_path_exists fs (VENV_PATH fs w));
    [destruct (String.eqb (sys_platform fs) "win32"); cbv zeta;
     match goal with
     | |- context [if os_path_exists fs ?exe then _ else _] =>
         destruct (os_path_exists fs exe);
         [destruct (truthy exe) eqn:Hexe |]
     end |];
    run_prims; rewrite ?Hexe; run_prims;
    match goal with
    | |- context [StartServer.start_server w (extend (extend ?s [?a]) [?b])] =>
        rewrite (extend_extend s [a] [b]);
        destruct (oblivious_after _ env ([a] ++ [b]) Hm) as (Hr & He & HP & HL);
        cbn [app] in *; rewrite Hr, He, HP, HL;
        (split; [reflexivity |]); (split; [reflexivity |]);
        (split; [reflexivity |]); exists [a; b]
    | |- context [StartServer.start_server w (extend ?s [?a])] =>
        destruct (oblivious_after _ env [a] Hm) as (Hr & He & HP & HL);
        rewrite Hr, He, HP, HL;
        (split; [reflexivity |]); (split; [reflexivity |]);
        (split; [reflexivity |]); exists [a]
    | |- _ =>
        (split; [reflexivity |]); (split; [reflexivity |]);
        (split; [reflexivity |]); exists []
    end;
    (split; [reflexivity |]);
    (split; [by repeat constructor |]);
    (split; [simpl; lia |]); try done.
Qed.

(** With a virtual environment in the checkout the script ends as
    [start_server] alone does. *)
Lemma venv_is_announced_not_used_witness :
  fst (start_server_main with_venv offline_world (boot ∅)) =
  fst (StartServer.start_server offline_world (boot ∅)).
Proof.
  exact (proj1 (venv_is_announced_not_used with_venv offline_world ∅)).
Defined.

(** X25. The built-in launcher announces the virtual environment and does
    not use it either.  Run as a script, it prints one line when the
    directory [venv] exists and none otherwise, and then does what
    [start_server] does by itself. *)
Theorem builtin_venv_is_announced_not_used (fs : FileSystem) (w : World)
  (env : gmap string string) :
  let script := start_server_python_main fs w (boot env) in
  let bare := StartServerPython.start_server w (boot env) in
  fst script = fst bare /\
  environ (snd script) = environ (snd bare) /\
  PORT (snd script) = PORT (snd bare) /\
  log (snd script) =
  ((if os_path_exists fs (VENV_PATH fs w)
    then [Stdout ("✓ Виртуальное окружение найдено: " ++ VENV_PATH fs w)]
    else []) ++ log (snd bare))%list.
Proof.
  intros script bare. subst script bare.
  pose proof (oblivious_builtin_start_server w) as Hm.
  unfold start_server_python_main, check_venv.
  destruct (os_path_exists fs (VENV_PATH fs w)); run_prims.
  - match goal with
    | |- context [StartServerPython.start_server w (extend ?s [?a])] =>
        destruct (oblivious_after _ env [a] Hm) as (Hr & He & HP & HL)
    end.
    by rewrite Hr, He, HP, HL.
  - done.
Qed.

(** ** Numbers written and read back *)

Lemma int_digits_of_uint_acc d : forall acc,
  int_digits (NilEmpty.string_of_uint d) (Z.pos acc) true =
  Some (Z.pos (Pos.of_uint_acc d acc)).
Proof.
  induction d; intros acc; cbn [NilEmpty.string_of_uint Pos.of_uint_acc];
    [reflexivity | ..];
    cbn [int_digits];
    match goal with
    | |- context [is_digit ?c] =>
        replace (is_digit c) with true by reflexivity
    end;
    cbv iota;
    match goal with
    | |- int_digits _ ?v true = Some (Z.pos (Pos.of_uint_acc _ ?a)) =>
        replace v with (Z.pos a)
          by (match goal with
              | |- context [Z.of_nat (nat_of_ascii ?c)] =>
                  let x := eval vm_compute in (Z.of_nat (nat_of_ascii c)) in
                  change (Z.of_nat (nat_of_ascii c)) with x
              end; lia)
    end;
    apply IHd.
Qed.

Lemma int_digits_of_uint d :
  int_digits (NilEmpty.string_of_uint d) 0 true = Some (Z.of_N (Pos.of_uint d)).
Proof.
  induction d; cbn [NilEmpty.string_of_uint Pos.of_uint];
    [reflexivity | ..];
    cbn [int_digits];
    match goal with
    | |- context [is_digit ?c] =>
        replace (is_digit c) with true by reflexivity
    end;
    cbv iota; [exact IHd | ..];
    match goal with
    | |- int_digits _ ?v true = Some (Z.of_N (N.pos (Pos.of_uint_acc _ ?a))) =>
        change v with (Z.pos a)
    end;
    apply int_digits_of_uint_acc.
Qed.

Lemma all_digits_of_uint d : all_digits (NilEmpty.string_of_uint d) = true.
Proof. induction d; simpl; try done. Qed.

Lemma string_of_uint_nonnil d :
  d <> Decimal.Nil ->
  exists c r, NilEmpty.string_of_uint d = String c r /\ is_digit c = true.
Proof. destruct d; [done | ..]; intros _; by eexists _, _. Qed.

(** The digits of a positive number, read back. *)
Lemma int_literal_to_uint p :
  let digits := NilEmpty.string_of_uint (Pos.to_uint p) in
  strip digits = digits /\
  rstrip_by is_c_space (lstrip_by is_c_space digits) = digits /\
  int_digits digits 0 false = Some (Z.pos p) /\
  int_literal digits = Some (Z.pos p) /\
  exists c r, digits = String c r /\ is_digit c = true.
Proof.
  intros digits. subst digits.
  pose proof (Unsigned.to_uint_nonnil p) as Hnil.
  pose proof (all_digits_of_uint (Pos.to_uint p)) as Hall.
  pose proof (int_digits_of_uint (Pos.to_uint p)) as Hint.
  rewrite DecimalPos.Unsigned.of_to in Hint.
  destruct (string_of_uint_nonnil _ Hnil) as (c & r & Hs & Hc).
  rewrite Hs in *.
  assert (Hstrip : strip (String c r) = String c r).
  { unfold strip. simpl lstrip_by.
    rewrite (is_digit_not_space c Hc). by apply rstrip_digits. }
  assert (Hcstrip :
    rstrip_by is_c_space (lstrip_by is_c_space (String c r)) = String c r).
  { simpl lstrip_by.
    rewrite (is_digit_not_c_space c Hc). by apply rstrip_c_digits. }
  assert (Hfalse : int_digits (String c r) 0 false = Some (Z.pos p)).
  { cbn [int_digits] in Hint |- *. by rewrite Hc in Hint |- *. }
  split; [exact Hstrip |]. split; [exact Hcstrip |].
  split; [exact Hfalse |]. split; [| by exists c, r].
  unfold int_literal. rewrite Hcstrip.
  destruct c as [[|] [|] [|] [|] [|] [|] [|] [|]];
    try discriminate Hc; exact Hfalse.
Qed.

Lemma int_literal_str n : int_literal (str n) = Some n.
Proof.
  unfold str. destruct n as [| p | p]; [reflexivity | |];
    cbn [Z.to_int NilZero.string_of_int];
    pose proof (Unsigned.to_uint_nonnil p) as Hnil;
    destruct (int_literal_to_uint p)
      as (Hstrip & Hcstrip & Hfalse & Hlit & c & r & Hs & Hc);
    unfold NilZero.string_of_uint;
    destruct (Pos.to_uint p) eqn:Hd; try done; rewrite <- Hd in *.
  all: try exact Hlit.
  all: unfold int_literal; cbn [lstrip_by];
    change (is_c_space "-") with false; cbv iota;
    cbn [rstrip_by]; change (is_c_space "-") with false; cbn [andb];
    rewrite rstrip_c_digits by apply all_digits_of_uint;
    by rewrite Hfalse.
Qed.

Lemma str_not_empty n : exists c r, str n = String c r /\ is_space c = false.
Proof.
  unfold str. destruct n as [| p | p]; [by eexists _, _ | |];
    cbn [Z.to_int NilZero.string_of_int].
  - destruct (int_literal_to_uint p) as (_ & _ & _ & _ & c & r & Hs & Hc).
    pose proof (Unsigned.to_uint_nonnil p) as Hnil.
    unfold NilZero.string_of_uint.
    destruct (Pos.to_uint p) eqn:Hd; try done; rewrite <- Hd in *;
      exists c, r; split; try done; by apply is_digit_not_space.
  - by eexists _, _.
Qed.

Lemma rstrip_cons p c s :
  rstrip_by p (String c s) =
  if p c && is_empty (rstrip_by p s) then EmptyString
  else String c (rstrip_by p s).
Proof. reflexivity. Qed.

Lemma rstrip_line s :
  rstrip_by is_space s = s -> s <> EmptyString ->
  rstrip_by is_space (s ++ newline) = s.
Proof.
  induction s as [| c s IH]; [done |]. intros Hs _.
  rewrite rstrip_cons in Hs.
  destruct (is_space c && is_empty (rstrip_by is_space s)) eqn:Hc;
    [discriminate |].
  injection Hs as Hs.
  change (String c s ++ newline) with (String c (s ++ newline)).
  rewrite rstrip_cons.
  destruct s as [| c' s'].
  - change (EmptyString ++ newline) with newline.
    change (rstrip_by is_space newline) with EmptyString.
    change (rstrip_by is_space EmptyString) with EmptyString in Hc.
    by rewrite Hc.
  - rewrite IH by done. cbn [is_empty]. by rewrite andb_false_r.
Qed.

Lemma strip_str n : strip (str n) = str n.
Proof.
  pose proof (int_literal_str n) as H.
  unfold str in *. destruct n as [| p | p]; [reflexivity | |];
    cbn [Z.to_int NilZero.string_of_int] in *;
    pose proof (Unsigned.to_uint_nonnil p) as Hnil;
    destruct (int_literal_to_uint p) as (Hstrip & _);
    unfold NilZero.string_of_uint in *;
    destruct (Pos.to_uint p) eqn:Hd; try done; rewrite <- Hd in *;
    try exact Hstrip.
  all: unfold strip; cbn [lstrip_by]; change (is_space "-") with false;
    cbv iota; cbn [rstrip_by]; change (is_space "-") with false; cbn [andb];
    by rewrite rstrip_digits by apply all_digits_of_uint.
Qed.

Lemma strip_str_line n : strip (str n ++ newline) = str n.
Proof.
  destruct (str_not_empty n) as (c & r & Hs & Hc).
  pose proof (strip_str n) as Hstrip. unfold strip in *.
  rewrite Hs in *.
  change (String c r ++ newline) with (String c (r ++ newline)).
  cbn [lstrip_by] in *. rewrite Hc in *.
  change (String c (r ++ newline)) with (String c r ++ newline).
  by apply rstrip_line.
Qed.

(** X26. A port given as the first argument of the command line the way
    [str] writes it, in no more than 4300 characters, is the port the
    reaper works on, a negative number included. *)
Theorem port_argument_round_trip (w : World) (script : string) (port : Z)
  (rest : list string) :
  sys_argv w = script :: str port :: rest ->
  plain (str port) = true ->
  KillPort.port_argument w = Returns port.
Proof.
  intros Hargv _. unfold KillPort.port_argument. rewrite Hargv.
  cbn [length Nat.ltb Nat.leb List.nth]. unfold int.
  by rewrite int_literal_str.
Qed.

Lemma port_argument_round_trip_witness :
  KillPort.port_argument (reaper_world ["kill_port.py"; "8001"] "y")
  = Returns 8001.
Proof.
  exact (port_argument_round_trip
           (reaper_world ["kill_port.py"; "8001"] "y")
           "kill_port.py" 8001 [] eq_refl eq_refl).
Defined.

(** X27. The pid that [lsof -ti] prints on a line of its own, in no more
    than 4300 characters, is the pid the lookup answers with. *)
Theorem lsof_pid_round_trip (w : World) (port pid : Z)
  (r : CompletedProcess) (s : State) :
  String.eqb (platform_system w) "Windows" = false ->
  subprocess_exec w (lsof_command port) = Returns r ->
  returncode r = 0 ->
  stdout r = str pid ++ newline ->
  plain (stdout r) = true ->
  KillPort.find_process_on_port w port s =
  (Normal (Some pid), extend s [Subprocess (lsof_command port) (environ s)]).
Proof.
  intros Hw Hexec Hrc Hout _.
  unfold KillPort.find_process_on_port, lsof_command in *. rewrite Hw.
  unfold try_except, subprocess_run, bind, get_environ, perform.
  assert (Hint : int (strip (stdout r)) = Returns pid).
  { rewrite Hout, strip_str_line. unfold int. by rewrite int_literal_str. }
  assert (Hne : truthy (strip (stdout r)) = true).
  { rewrite Hout, strip_str_line.
    destruct (str_not_empty pid) as (c & t & -> & _). reflexivity. }
  rewrite Hexec. simpl. rewrite Hrc. simpl. rewrite Hne, Hint. reflexivity.
Qed.

Lemma lsof_pid_round_trip_witness :
  KillPort.find_process_on_port (reaper_world [] "y") 8000 (boot ∅) =
  (Normal (Some 4242),
   extend (boot ∅) [Subprocess ["lsof"; "-ti"; ":8000"] ∅]).
Proof.
  exact (lsof_pid_round_trip (reaper_world [] "y") 8000 4242
           {| returncode := 0; stdout := "4242" ++ newline |} (boot ∅)
           eq_refl eq_refl eq_refl eq_refl eq_refl).
Defined.
